(** * Shallow embedding of the TAXGROK_AI document pipeline

    Covered source:
    - [src/unnamed/part_000]: the upload route [POST] and [determineDocumentType];
    - [src/app/api/documents/[id]/process/route.ts]: the processing route
      [POST] with its event-stream response and [processWithLLM];
    - [src/unnamed/part_002]: [DocumentAIService] ([getProcessorName],
      [extractW2Data], [extractGenericFormFields], [getText],
      [calculateAverageConfidence], ...);
    - [src/unnamed/part_001]: the custom-scenario computation of
      [InteractiveWhatIfScenarios].

    Strings are ASCII strings; JavaScript numbers are exact rationals [Q]
    (floating-point rounding is not modelled). *)

From Stdlib Require Import String Ascii List Bool ZArith QArith Qminmax Lia.
Import ListNotations.
Open Scope string_scope.
Set Warnings "-register-all".

(* ------------------------------------------------------------------ *)
(** ** JavaScript string primitives *)

Module JS.

(** [String.prototype.toLowerCase] on ASCII. *)
Definition lower_ascii (c : ascii) : ascii :=
  let n := nat_of_ascii c in
  if (65 <=? n)%nat && (n <=? 90)%nat then ascii_of_nat (n + 32) else c.

Fixpoint toLowerCase (s : string) : string :=
  match s with
  | EmptyString => EmptyString
  | String c s' => String (lower_ascii c) (toLowerCase s')
  end.

(** [String.prototype.includes]: [includes s sub] is [s.includes(sub)]. *)
Fixpoint includes (s sub : string) : bool :=
  prefix sub s ||
  match s with
  | EmptyString => false
  | String _ s' => includes s' sub
  end.

(** The character class [[a-zA-Z0-9]]. *)
Definition is_alnum (c : ascii) : bool :=
  let n := nat_of_ascii c in
  ((48 <=? n)%nat && (n <=? 57)%nat) || ((65 <=? n)%nat && (n <=? 90)%nat)
  || ((97 <=? n)%nat && (n <=? 122)%nat).

(** [s.replace(/[^a-zA-Z0-9]/g, '')]. *)
Fixpoint strip_non_alnum (s : string) : string :=
  match s with
  | EmptyString => EmptyString
  | String c s' =>
      if is_alnum c then String c (strip_non_alnum s') else strip_non_alnum s'
  end.

Fixpoint drop_ws (l : list ascii) : list ascii :=
  match l with
  | c :: l' =>
      let n := nat_of_ascii c in
      if ((9 <=? n)%nat && (n <=? 13)%nat) || (n =? 32)%nat then drop_ws l' else l
  | [] => []
  end.

(** [String.prototype.trim] on ASCII whitespace. *)
Definition trim (s : string) : string :=
  string_of_list_ascii (rev (drop_ws (rev (drop_ws (list_ascii_of_string s))))).

(** [s.substring(a, b)]: both bounds clamped to the length, swapped when
    [a > b]. *)
Definition substring (a b : nat) (s : string) : string :=
  let a' := Nat.min a (String.length s) in
  let b' := Nat.min b (String.length s) in
  String.substring (Nat.min a' b') (Nat.max a' b' - Nat.min a' b') s.

(** JavaScript truthiness of a string. *)
Definition truthy_str (s : string) : bool :=
  match s with EmptyString => false | _ => true end.

(** [s.split(sep)] for a one-character separator. *)
Fixpoint split (sep : ascii) (s : string) : list string :=
  match s with
  | EmptyString => [""]
  | String c rest =>
      if Ascii.eqb c sep then "" :: split sep rest
      else match split sep rest with
           | x :: xs => String c x :: xs
           | [] => [String c ""]
           end
  end.

End JS.

(* ------------------------------------------------------------------ *)
(** ** Document types (the Prisma enum [DocumentType]) *)

Inductive DocumentType :=
| W2
| FORM_1099_INT
| FORM_1099_DIV
| FORM_1099_MISC
| FORM_1099_NEC
| FORM_1099_R
| FORM_1099_G
| OTHER_TAX_DOCUMENT
| UNKNOWN.

Definition DocumentType_eqb (a b : DocumentType) : bool :=
  match a, b with
  | W2, W2 | FORM_1099_INT, FORM_1099_INT | FORM_1099_DIV, FORM_1099_DIV
  | FORM_1099_MISC, FORM_1099_MISC | FORM_1099_NEC, FORM_1099_NEC
  | FORM_1099_R, FORM_1099_R | FORM_1099_G, FORM_1099_G
  | OTHER_TAX_DOCUMENT, OTHER_TAX_DOCUMENT | UNKNOWN, UNKNOWN => true
  | _, _ => false
  end.

(* ------------------------------------------------------------------ *)
(** ** Upload route: [determineDocumentType] (part_000, lines 100-129) *)

Module Upload.

Definition determineDocumentType (fileName : string) : DocumentType :=
  let lowerName := JS.toLowerCase fileName in
  if JS.includes lowerName "w-2" || JS.includes lowerName "w2" then W2
  else if JS.includes lowerName "1099-int" then FORM_1099_INT
  else if JS.includes lowerName "1099-div" then FORM_1099_DIV
  else if JS.includes lowerName "1099-misc" then FORM_1099_MISC
  else if JS.includes lowerName "1099-nec" then FORM_1099_NEC
  else if JS.includes lowerName "1099-r" then FORM_1099_R
  else if JS.includes lowerName "1099-g" then FORM_1099_G
  else if JS.includes lowerName "1099" then OTHER_TAX_DOCUMENT
  else UNKNOWN.

(** The priority table of the spec (section 4.1), read as written: a list
    of (patterns, type) rows, checked in order, first match wins. *)
Definition spec_priority_table : list (list string * DocumentType) :=
  [ (["w-2"; "w2"], W2);
    (["1099-int"], FORM_1099_INT);
    (["1099-div"], FORM_1099_DIV);
    (["1099-misc"], FORM_1099_MISC);
    (["1099-nec"], FORM_1099_NEC);
    (["1099-r"], FORM_1099_R);
    (["1099-g"], FORM_1099_G);
    (["1099"], OTHER_TAX_DOCUMENT) ].

Fixpoint spec_first_match (lowered : string)
    (rows : list (list string * DocumentType)) : DocumentType :=
  match rows with
  | [] => UNKNOWN
  | (pats, t) :: rows' =>
      if existsb (JS.includes lowered) pats then t
      else spec_first_match lowered rows'
  end.

Definition spec_inferred_type (fileName : string) : DocumentType :=
  spec_first_match (JS.toLowerCase fileName) spec_priority_table.

End Upload.

(* ------------------------------------------------------------------ *)
(** ** JSON values and thrown errors *)

Definition documentTypeName (t : DocumentType) : string :=
  match t with
  | W2 => "W2" | FORM_1099_INT => "FORM_1099_INT" | FORM_1099_DIV => "FORM_1099_DIV"
  | FORM_1099_MISC => "FORM_1099_MISC" | FORM_1099_NEC => "FORM_1099_NEC"
  | FORM_1099_R => "FORM_1099_R" | FORM_1099_G => "FORM_1099_G"
  | OTHER_TAX_DOCUMENT => "OTHER_TAX_DOCUMENT" | UNKNOWN => "UNKNOWN"
  end.

(** A JavaScript value as it travels through [JSON.parse] / [JSON.stringify]. *)
Inductive Json :=
| JNull
| JBool (b : bool)
| JNum (q : Q)
| JStr (s : string)
| JArr (l : list Json)
| JObj (props : list (string * Json)).

(** JavaScript truthiness of a JSON value. *)
Definition truthy (v : Json) : bool :=
  match v with
  | JNull => false
  | JBool b => b
  | JNum q => negb (Qeq_bool q 0)
  | JStr s => JS.truthy_str s
  | JArr _ | JObj _ => true
  end.

(** [v || d] *)
Definition js_or (v : Json) (d : Json) : Json := if truthy v then v else d.

(** Property read [o.k] of an object; [None] is [undefined]. *)
Definition get_prop (props : list (string * Json)) (k : string) : option Json :=
  match find (fun p => String.eqb (fst p) k) props with
  | Some (_, v) => Some v
  | None => None
  end.

(** Property write [o[k] = v]: an existing key keeps its position, a new key
    is appended (JavaScript insertion order). *)
Fixpoint set_prop (props : list (string * Json)) (k : string) (v : Json)
    : list (string * Json) :=
  match props with
  | [] => [(k, v)]
  | (k', v') :: rest =>
      if String.eqb k' k then (k', v) :: rest else (k', v') :: set_prop rest k v
  end.

(** The errors the code throws (all are plain [Error]s in the source; the
    constructors name their origin). *)
Inductive Err :=
| ErrNo1099Processor (dt : DocumentType)   (* getProcessorName *)
| ErrMissingGoogleConfig                   (* createDocumentAIConfig *)
| ErrDocAIClient                           (* client.processDocument rejects *)
| ErrFetch                                 (* fetch rejects (network) *)
| ErrNoDocumentReturned                    (* processDocument, no result.document *)
| ErrReadFile                              (* fs readFile rejects *)
| ErrLLMApi (status : Z)                   (* processWithLLM, !response.ok *)
| ErrNoContent                             (* processWithLLM, !content *)
| ErrSyntax                                (* JSON.parse / response.json() *)
| ErrType                                  (* property read on null/undefined *)
| ErrStreamClosed                          (* controller.enqueue after cancel *)
| ErrRecordNotFound                        (* prisma update of a missing row *)
| ErrValidation                            (* prisma rejects a value of the wrong type *)
| ErrFs.                                   (* fs mkdir / writeFile rejects *)

Inductive Fallible (A : Type) :=
| Ok (a : A)
| Throw (e : Err).
Arguments Ok {A} a.
Arguments Throw {A} e.

Definition fbind {A B} (m : Fallible A) (k : A -> Fallible B) : Fallible B :=
  match m with Ok a => k a | Throw e => Throw e end.

Notation "'let*' x ':=' m 'in' k" := (fbind m (fun x => k))
  (at level 200, x name, m at level 100, k at level 200).

(* ------------------------------------------------------------------ *)
(** ** Document AI provider (part_002, [DocumentAIService]) *)

Module DocAI.

Record TextSegment := { startIndex : option nat; endIndex : option nat }.
Record TextAnchor := { textSegments : list TextSegment }.
Record Layout := { textAnchor : option TextAnchor; confidence : option Q }.
Record FormField := { fieldName : option Layout; fieldValue : option Layout }.
Record Page := { formFields : list FormField }.
Record Entity := { etype : string; etextAnchor : option TextAnchor;
                   econfidence : option Q }.
(** The provider's [document]; an absent [entities] / [pages] /
    [formFields] array behaves as the empty one in every function below. *)
Record PDocument := { text : string; entities : list Entity; pages : list Page }.

Record DocumentAIConfig := {
  projectId : string; location : string;
  w2ProcessorId : string; form1099ProcessorId : string }.

Record ExtractedTaxData := {
  xdocumentType : Json; xocrText : Json; xextractedData : Json;
  xconfidence : Q }.

(** [getText] *)
Definition getText (ta : option TextAnchor) (fullText : string) : string :=
  match ta with
  | None => ""
  | Some a =>
      match textSegments a with
      | [] => ""
      | segment :: _ =>
          let start := match startIndex segment with Some n => n | None => 0%nat end in
          let stop := match endIndex segment with
                      | Some (S n) => S n
                      | _ => String.length fullText
                      end in
          JS.trim (JS.substring start stop fullText)
      end
  end.

(** The label and value texts of a form field, when both text anchors are
    present (the guard [!field.fieldName?.textAnchor || ...]). *)
Definition field_texts (f : FormField) (fullText : string) : option (string * string) :=
  match fieldName f, fieldValue f with
  | Some {| textAnchor := Some na |}, Some {| textAnchor := Some va |} =>
      Some (getText (Some na) fullText, getText (Some va) fullText)
  | _, _ => None
  end.

Definition first_page_fields (d : PDocument) : list FormField :=
  match pages d with p :: _ => formFields p | [] => [] end.

(** The normalisation [s.toLowerCase().replace(/[^a-zA-Z0-9]/g, '')]. *)
Definition normalize (s : string) : string := JS.strip_non_alnum (JS.toLowerCase s).

(** The inner [for ... of Object.entries(dataObject)] loop with its
    [break]: the first key whose normalisation matches. *)
Fixpoint first_matching_key (normalizedFieldName : string)
    (entries : list (string * Json)) : option string :=
  match entries with
  | [] => None
  | (key, _) :: rest =>
      let normalizedKey := normalize key in
      if JS.includes normalizedFieldName normalizedKey
         || JS.includes normalizedKey normalizedFieldName
      then Some key
      else first_matching_key normalizedFieldName rest
  end.

(** One iteration of the [forEach] of [extractGenericFormFields]. *)
Definition generic_field_step (fullText : string) (dataObject : list (string * Json))
    (field : FormField) : list (string * Json) :=
  match field_texts field fullText with
  | None => dataObject
  | Some (fieldName, fieldValue) =>
      match first_matching_key (normalize fieldName) dataObject with
      | Some key => set_prop dataObject key (JStr fieldValue)
      | None => dataObject
      end
  end.

(** [extractGenericFormFields]: mutates [dataObject]; modelled as returning
    its final contents. *)
Definition extractGenericFormFields (d : PDocument) (dataObject : list (string * Json))
    : list (string * Json) :=
  fold_left (generic_field_step (text d)) (first_page_fields d) dataObject.

Definition blank (keys : list string) : list (string * Json) :=
  map (fun k => (k, JStr "")) keys.

Definition w2Keys : list string :=
  ["employerName"; "employerEIN"; "employerAddress"; "employeeName";
   "employeeSSN"; "employeeAddress"; "wages"; "federalTaxWithheld";
   "socialSecurityWages"; "socialSecurityTaxWithheld"; "medicareWages";
   "medicareTaxWithheld"; "socialSecurityTips"; "allocatedTips";
   "stateWages"; "stateTaxWithheld"; "localWages"; "localTaxWithheld"].

Definition int1099Keys : list string :=
  ["payerName"; "payerTIN"; "payerAddress"; "recipientName"; "recipientTIN";
   "recipientAddress"; "interestIncome"; "earlyWithdrawalPenalty";
   "interestOnUSavingsBonds"; "federalTaxWithheld"; "investmentExpenses";
   "foreignTaxPaid"; "foreignCountry"; "taxExemptInterest";
   "privateActivityBondInterest"; "marketDiscount"; "bondPremium";
   "bondPremiumOnTaxExemptBond"; "stateCode"; "stateTaxWithheld";
   "stateIdNumber"].

Definition div1099Keys : list string :=
  ["payerName"; "payerTIN"; "payerAddress"; "recipientName"; "recipientTIN";
   "recipientAddress"; "ordinaryDividends"; "qualifiedDividends";
   "totalCapitalGain"; "unrecaptured1250Gain"; "section1202Gain";
   "collectiblesGain"; "nondividendDistributions"; "federalTaxWithheld";
   "section199ADividends"; "investmentExpenses"; "foreignTaxPaid";
   "foreignCountry"; "cashLiquidation"; "noncashLiquidation"; "stateCode";
   "stateTaxWithheld"; "stateIdNumber"].

Definition misc1099Keys : list string :=
  ["payerName"; "payerTIN"; "payerAddress"; "recipientName"; "recipientTIN";
   "recipientAddress"; "rents"; "royalties"; "otherIncome";
   "federalTaxWithheld"; "fishingBoatProceeds"; "medicalHealthPayments";
   "nonemployeeCompensation"; "substitutePayments"; "cropInsuranceProceeds";
   "grossProceeds"; "section409ADeferrals"; "section409AIncome";
   "excessGoldenParachute"; "nonqualifiedDeferredCompensation"; "stateCode";
   "stateTaxWithheld"; "stateIdNumber"].

Definition nec1099Keys : list string :=
  ["payerName"; "payerTIN"; "payerAddress"; "recipientName"; "recipientTIN";
   "recipientAddress"; "nonemployeeCompensation"; "federalTaxWithheld";
   "stateCode"; "stateTaxWithheld"; "stateIdNumber"].

Definition genericData : list (string * Json) :=
  blank ["payerName"; "payerTIN"; "recipientName"; "recipientTIN";
         "incomeAmount"; "taxWithheld"] ++ [("relevantBoxes", JObj [])].

Definition extract1099IntData (d : PDocument) := extractGenericFormFields d (blank int1099Keys).
Definition extract1099DivData (d : PDocument) := extractGenericFormFields d (blank div1099Keys).
Definition extract1099MiscData (d : PDocument) := extractGenericFormFields d (blank misc1099Keys).
Definition extract1099NecData (d : PDocument) := extractGenericFormFields d (blank nec1099Keys).
Definition extractGenericTaxData (d : PDocument) := extractGenericFormFields d genericData.

(** The [switch (entity.type)] of [extractW2Data]. *)
Definition w2EntityKey (type_ : string) : option string :=
  if String.eqb type_ "employee_name" then Some "employeeName"
  else if String.eqb type_ "employee_ssn" then Some "employeeSSN"
  else if String.eqb type_ "employer_name" then Some "employerName"
  else if String.eqb type_ "employer_ein" then Some "employerEIN"
  else if String.eqb type_ "wages_tips_other_compensation" then Some "wages"
  else if String.eqb type_ "federal_income_tax_withheld" then Some "federalTaxWithheld"
  else if String.eqb type_ "social_security_wages" then Some "socialSecurityWages"
  else if String.eqb type_ "social_security_tax_withheld" then Some "socialSecurityTaxWithheld"
  else if String.eqb type_ "medicare_wages_and_tips" then Some "medicareWages"
  else if String.eqb type_ "medicare_tax_withheld" then Some "medicareTaxWithheld"
  else None.

Definition w2_entity_step (fullText : string) (w2Data : list (string * Json))
    (entity : Entity) : list (string * Json) :=
  let value := getText (etextAnchor entity) fullText in
  match w2EntityKey (etype entity) with
  | Some key => set_prop w2Data key (JStr value)
  | None => w2Data
  end.

(** The keyword tests of the form-field fallback of [extractW2Data]. *)
Definition w2FormFieldKey (fieldName : string) : option string :=
  if JS.includes fieldName "wages" && JS.includes fieldName "tips" then Some "wages"
  else if JS.includes fieldName "federal" && JS.includes fieldName "tax"
  then Some "federalTaxWithheld"
  else if JS.includes fieldName "social security" && JS.includes fieldName "wages"
  then Some "socialSecurityWages"
  else if JS.includes fieldName "medicare" && JS.includes fieldName "wages"
  then Some "medicareWages"
  else None.

Definition w2_field_step (fullText : string) (w2Data : list (string * Json))
    (field : FormField) : list (string * Json) :=
  match field_texts field fullText with
  | None => w2Data
  | Some (fieldName, fieldValue) =>
      match w2FormFieldKey (JS.toLowerCase fieldName) with
      | Some key => set_prop w2Data key (JStr fieldValue)
      | None => w2Data
      end
  end.

Definition extractW2Data (d : PDocument) : list (string * Json) :=
  let afterEntities := fold_left (w2_entity_step (text d)) (entities d) (blank w2Keys) in
  fold_left (w2_field_step (text d)) (first_page_fields d) afterEntities.

(** [calculateAverageConfidence]: the running [(totalConfidence, count)]. *)
Definition add_confidence (acc : Q * nat) (c : option Q) : Q * nat :=
  match c with
  | Some q => (fst acc + q, S (snd acc))
  | None => acc
  end.

Definition field_value_confidence (f : FormField) : option Q :=
  match fieldValue f with Some l => confidence l | None => None end.

Definition calculateAverageConfidence (d : PDocument) : Q :=
  let acc1 := fold_left (fun acc e => add_confidence acc (econfidence e))
                (entities d) (0, 0%nat) in
  let acc2 := fold_left (fun acc page =>
                 fold_left (fun acc f => add_confidence acc (field_value_confidence f))
                   (formFields page) acc)
                (pages d) acc1 in
  let '(totalConfidence, count) := acc2 in
  if (0 <? count)%nat then totalConfidence / inject_Z (Z.of_nat count) else 0.

Definition transformToTaxData (d : PDocument) (documentType : DocumentType)
    : ExtractedTaxData :=
  let extractedData :=
    match documentType with
    | W2 => extractW2Data d
    | FORM_1099_INT => extract1099IntData d
    | FORM_1099_DIV => extract1099DivData d
    | FORM_1099_MISC => extract1099MiscData d
    | FORM_1099_NEC => extract1099NecData d
    | _ => extractGenericTaxData d
    end in
  {| xdocumentType := JStr (documentTypeName documentType);
     xocrText := JStr (text d);
     xextractedData := JObj extractedData;
     xconfidence := calculateAverageConfidence d |}.

Definition processorPath (config : DocumentAIConfig) (processorId : string) : string :=
  "projects/" ++ projectId config ++ "/locations/" ++ location config
  ++ "/processors/" ++ processorId.

(** [getProcessorName] *)
Definition getProcessorName (config : DocumentAIConfig) (documentType : DocumentType)
    : Fallible string :=
  match documentType with
  | W2 => Ok (processorPath config (w2ProcessorId config))
  | FORM_1099_INT | FORM_1099_DIV | FORM_1099_MISC | FORM_1099_NEC
  | FORM_1099_R | FORM_1099_G =>
      if negb (JS.truthy_str (form1099ProcessorId config))
      then Throw (ErrNo1099Processor documentType)
      else Ok (processorPath config (form1099ProcessorId config))
  | _ => Ok (processorPath config (w2ProcessorId config))
  end.

(** [createDocumentAIConfig]; [env] is [process.env]. *)
Definition env_or (env : string -> option string) (k d : string) : string :=
  match env k with Some v => if JS.truthy_str v then v else d | None => d end.

Definition createDocumentAIConfig (env : string -> option string)
    : Fallible DocumentAIConfig :=
  let config := {| projectId := env_or env "GOOGLE_CLOUD_PROJECT_ID" "";
                   location := env_or env "GOOGLE_CLOUD_LOCATION" "us";
                   w2ProcessorId := env_or env "GOOGLE_CLOUD_W2_PROCESSOR_ID" "";
                   form1099ProcessorId := env_or env "GOOGLE_CLOUD_1099_PROCESSOR_ID" "" |} in
  if negb (JS.truthy_str (projectId config)) || negb (JS.truthy_str (w2ProcessorId config))
  then Throw ErrMissingGoogleConfig
  else Ok config.

(** The request handed to the Document AI client (the file content is kept
    as read; its base64 encoding is not modelled). *)
Record ProcessRequest := { rname : string; rcontent : string }.

(** [processDocument], given the file system [readFile] ([None]: the read
    rejects) and the client's answer [client] ([None]: the call rejects;
    [Some None]: the response carries no [document]). *)
Definition processDocument (readFile : string -> option string)
    (client : ProcessRequest -> option (option PDocument))
    (config : DocumentAIConfig) (filePath : string) (documentType : DocumentType)
    : Fallible ExtractedTaxData :=
  let* processorName := getProcessorName config documentType in
  let* imageFile := match readFile filePath with
                    | Some c => Ok c | None => Throw ErrReadFile end in
  let* result := match client {| rname := processorName; rcontent := imageFile |} with
                 | Some r => Ok r | None => Throw ErrDocAIClient end in
  match result with
  | None => Throw ErrNoDocumentReturned
  | Some document => Ok (transformToTaxData document documentType)
  end.

End DocAI.

(* ------------------------------------------------------------------ *)
(** ** JSON serialisation ([JSON.stringify]) *)

Module JSON.

Definition hex_digit (n : nat) : ascii :=
  if (n <? 10)%nat then ascii_of_nat (48 + n) else ascii_of_nat (87 + n).

Definition dq : ascii := ascii_of_nat 34.   (* the double quote *)
Definition bs : ascii := ascii_of_nat 92.   (* the backslash *)

(** QuoteJSONString, character by character. *)
Definition escape_char (c : ascii) : list ascii :=
  let n := nat_of_ascii c in
  if (n =? 34)%nat then [bs; dq]
  else if (n =? 92)%nat then [bs; bs]
  else if (n =? 8)%nat then [bs; "b"%char]
  else if (n =? 9)%nat then [bs; "t"%char]
  else if (n =? 10)%nat then [bs; "n"%char]
  else if (n =? 12)%nat then [bs; "f"%char]
  else if (n =? 13)%nat then [bs; "r"%char]
  else if (n <? 32)%nat then
    [bs; "u"%char; "0"%char; "0"%char; hex_digit (n / 16); hex_digit (n mod 16)]
  else [c].

Definition quote (s : string) : string :=
  String dq (string_of_list_ascii (flat_map escape_char (list_ascii_of_string s))
             ++ String dq EmptyString).

Section Stringify.
(** [Number.prototype.toString], a built-in of the runtime. *)
Variable Number_toString : Q -> string.

Fixpoint stringify (v : Json) : string :=
  match v with
  | JNull => "null"
  | JBool true => "true"
  | JBool false => "false"
  | JNum q => Number_toString q
  | JStr s => quote s
  | JArr l => "[" ++ String.concat "," (map stringify l) ++ "]"
  | JObj props =>
      "{" ++ String.concat ","
               (map (fun p => quote (fst p) ++ ":" ++ stringify (snd p)) props)
      ++ "}"
  end.

(** [String(v)], used when [JSON.parse] is handed a non-string. *)
Fixpoint js_String (v : Json) : string :=
  match v with
  | JNull => "null"
  | JBool true => "true"
  | JBool false => "false"
  | JNum q => Number_toString q
  | JStr s => s
  | JArr l => String.concat "," (map (fun x => match x with
                                               | JNull => ""
                                               | _ => js_String x
                                               end) l)
  | JObj _ => "[object Object]"
  end.
End Stringify.

End JSON.

(* ------------------------------------------------------------------ *)
(** ** Persistent records and the request-handler monad *)

Module Db.

Inductive Status := PENDING | PROCESSING | COMPLETED | FAILED.

Record User := { user_id : string; email : string }.
Record TaxReturn := { tr_id : string; userId : string }.

(** A [Document] row (Prisma model). [extractedData] holds the envelope
    written on completion. *)
Record Doc := {
  doc_id : string; taxReturnId : string; fileName : string; fileType : string;
  fileSize : Z; filePath : string; documentType : DocumentType;
  processingStatus : Status; ocrText : option string;
  extractedData : option DocAI.ExtractedTaxData }.

Record DB := {
  users : list User; taxReturns : list TaxReturn; documents : list Doc;
  files : list (string * string) }.

(** What the stream controller has been handed. *)
Inductive StreamItem := Enq (bytes : string) | Closed | Errored (e : Err).

(** Handler state: the database, a ghost log of every status write
    (document id, status written) and the items enqueued on the response
    stream. *)
Record PState := { db : DB; statusLog : list (string * Status);
                   emitted : list StreamItem }.

Definition M (A : Type) := PState -> Fallible A * PState.

Definition ret {A} (a : A) : M A := fun s => (Ok a, s).
Definition bind {A B} (m : M A) (k : A -> M B) : M B :=
  fun s => match m s with
           | (Ok a, s') => k a s'
           | (Throw e, s') => (Throw e, s')
           end.
Definition raise {A} (e : Err) : M A := fun s => (Throw e, s).
Definition lift {A} (f : Fallible A) : M A := fun s => (f, s).
(** [try { m } catch (e) { h e }]; writes made by [m] persist. *)
Definition try_catch {A} (m : M A) (h : Err -> M A) : M A :=
  fun s => match m s with
           | (Throw e, s') => h e s'
           | r => r
           end.

Notation "'let!' x ':=' m 'in' k" := (bind m (fun x => k))
  (at level 200, x name, m at level 100, k at level 200).
Notation "m ;; k" := (bind m (fun _ => k)) (at level 100, right associativity).

Definition set_db (d : DB) (s : PState) : PState :=
  {| db := d; statusLog := statusLog s; emitted := emitted s |}.

Definition with_documents (d : DB) (ds : list Doc) : DB :=
  {| users := users d; taxReturns := taxReturns d; documents := ds; files := files d |}.

Definition set_status (st : Status) (x : Doc) : Doc :=
  {| doc_id := doc_id x; taxReturnId := taxReturnId x; fileName := fileName x;
     fileType := fileType x; fileSize := fileSize x; filePath := filePath x;
     documentType := documentType x; processingStatus := st;
     ocrText := ocrText x; extractedData := extractedData x |}.

Definition set_completed (ocr : option string) (env : DocAI.ExtractedTaxData) (x : Doc) : Doc :=
  {| doc_id := doc_id x; taxReturnId := taxReturnId x; fileName := fileName x;
     fileType := fileType x; fileSize := fileSize x; filePath := filePath x;
     documentType := documentType x; processingStatus := COMPLETED;
     ocrText := ocr; extractedData := Some env |}.

(** The state after an update of row [id] with status [st]. *)
Definition updated_state (id : string) (st : Status) (f : Doc -> Doc) (s : PState) : PState :=
  {| db := with_documents (db s)
             (map (fun x => if String.eqb (doc_id x) id then f x else x)
                  (documents (db s)));
     statusLog := statusLog s ++ [(id, st)];
     emitted := emitted s |}.

(** [prisma.document.update({ where: { id }, data })] where [data] sets the
    status [st] (and whatever [f] sets besides); a missing row throws. *)
Definition update_document (id : string) (st : Status) (f : Doc -> Doc) : M unit :=
  fun s =>
    if existsb (fun x => String.eqb (doc_id x) id) (documents (db s))
    then (Ok tt, updated_state id st f s)
    else (Throw ErrRecordNotFound, s).

(** The value Prisma's client accepts for the nullable string column
    [ocrText] in an update: a string, [null], or the update operation
    [{ set: <string or null> }] (its only field); anything else (a number,
    a boolean, an array, another object) fails the query's validation
    before it reaches the database. *)
Definition nullable_string (v : Json) : Fallible (option string) :=
  match v with
  | JStr t => Ok (Some t)
  | JNull => Ok None
  | JObj [(k, JStr t)] => if String.eqb k "set" then Ok (Some t) else Throw ErrValidation
  | JObj [(k, JNull)] => if String.eqb k "set" then Ok None else Throw ErrValidation
  | _ => Throw ErrValidation
  end.

(** The completing update of route.ts (lines 93-105): [ocrText], the
    [extractedData] envelope and status COMPLETED; the [ocrText] value is
    validated first. *)
Definition update_completed (id : string) (env : DocAI.ExtractedTaxData) : M unit :=
  fun s => match nullable_string (DocAI.xocrText env) with
           | Ok ocr => update_document id COMPLETED (set_completed ocr env) s
           | Throw e => (Throw e, s)
           end.

Definition find_doc (id : string) (d : DB) : option Doc :=
  find (fun x => String.eqb (doc_id x) id) (documents d).

Definition findUser (mail : string) : M (option User) :=
  fun s => (Ok (find (fun u => String.eqb (email u) mail) (users (db s))), s).

Definition owns (d : DB) (uid trid : string) : bool :=
  existsb (fun t => String.eqb (tr_id t) trid && String.eqb (userId t) uid)
          (taxReturns d).

(** [prisma.document.findFirst({ where: { id, taxReturn: { userId } } })] *)
Definition findOwnedDocument (id uid : string) : M (option Doc) :=
  fun s => (Ok (find (fun x => String.eqb (doc_id x) id
                               && owns (db s) uid (taxReturnId x))
                     (documents (db s))), s).

End Db.

(* ------------------------------------------------------------------ *)
(** ** Processing route ([src/app/api/documents/[id]/process/route.ts]) *)

Module Route.
Import Db.

(** The reply of the chat-completion [fetch]. *)
Record LLMReply := { ok : bool; status : Z; body : string }.

(** The outside world of one request: [process.env], the session's e-mail,
    the file system, the Document AI client, the chat-completion endpoint,
    and the client reading the stream ([cancelAfter = Some n]: the reader
    cancels after [n] enqueued chunks). *)
Record World := {
  env : string -> option string;
  session : option string;
  readFile : string -> option string;
  docaiClient : DocAI.ProcessRequest -> option (option DocAI.PDocument);
  llmFetch : option LLMReply;
  cancelAfter : option nat }.

Inductive Response :=
| JsonResponse (code : Z) (payload : Json)
| StreamResponse (extractedTaxData : DocAI.ExtractedTaxData).

Definition error_body (msg : string) : Json := JObj [("error", JStr msg)].

Definition nl : string := String (ascii_of_nat 10) EmptyString.

(** [v.k] on a value that is not [null] / [undefined]. *)
Definition member (v : Json) (k : string) : option Json :=
  match v with JObj ps => get_prop ps k | _ => None end.

(** [o?.k] *)
Definition opt_member (o : option Json) (k : string) : option Json :=
  match o with None | Some JNull => None | Some v => member v k end.

(** [o || d] with [undefined] for [None]. *)
Definition or_undef (o : option Json) (d : Json) : Json :=
  match o with Some v => js_or v d | None => d end.

Definition truthy_opt (o : option Json) : bool :=
  match o with Some v => truthy v | None => false end.

(** [result.choices[0]?.message?.content]; reading [choices] of [null], or
    indexing an absent [choices], throws a [TypeError]. *)
Definition choice_content (result : Json) : Fallible (option Json) :=
  match result with
  | JNull => Throw ErrType
  | _ =>
      match member result "choices" with
      | None | Some JNull => Throw ErrType
      | Some choices =>
          let first := match choices with
                       | JArr (x :: _) => Some x
                       | JObj ps => get_prop ps "0"
                       | JStr (String c _) => Some (JStr (String c EmptyString))
                       | _ => None
                       end in
          Ok (opt_member (opt_member first "message") "content")
      end
  end.

Section Handlers.

(** Built-ins of the runtime: [Number.prototype.toString] and
    [JSON.parse] ([None]: it throws a [SyntaxError]). *)
Variable Number_toString : Q -> string.
Variable JSON_parse : string -> option Json.

Definition parse (s : string) : Fallible Json :=
  match JSON_parse s with Some v => Ok v | None => Throw ErrSyntax end.

(** [processWithLLM]; it touches no database row. *)
Definition processWithLLM (w : World) (document : Doc) : Fallible DocAI.ExtractedTaxData :=
  let* fileBuffer := match readFile w (filePath document) with
                     | Some c => Ok c | None => Throw ErrReadFile end in
  let* response := match llmFetch w with Some r => Ok r | None => Throw ErrFetch end in
  if negb (ok response) then Throw (ErrLLMApi (status response)) else
  let* result := parse (body response) in
  let* content := choice_content result in
  if negb (truthy_opt content) then Throw ErrNoContent else
  let* parsedContent :=
    parse (JSON.js_String Number_toString
             (match content with Some v => v | None => JNull end)) in
  match parsedContent with
  | JNull => Throw ErrType
  | _ =>
      Ok {| DocAI.xdocumentType :=
               or_undef (member parsedContent "documentType")
                        (JStr (documentTypeName (documentType document)));
             DocAI.xocrText := or_undef (member parsedContent "ocrText") (JStr "");
             DocAI.xextractedData :=
               or_undef (member parsedContent "extractedData") parsedContent;
             DocAI.xconfidence := 85 # 100 |}
  end.

Definition env_truthy (w : World) (k : string) : bool :=
  match env w k with Some v => JS.truthy_str v | None => false end.

(** [useDocumentAI] *)
Definition useDocumentAI (w : World) : bool :=
  env_truthy w "GOOGLE_CLOUD_PROJECT_ID"
  && env_truthy w "GOOGLE_CLOUD_W2_PROCESSOR_ID"
  && env_truthy w "GOOGLE_APPLICATION_CREDENTIALS".

(** The primary path: [createDocumentAIConfig()], [new DocumentAIService]
    and [processDocument]. *)
Definition documentAI (w : World) (document : Doc) : Fallible DocAI.ExtractedTaxData :=
  let* config := DocAI.createDocumentAIConfig (env w) in
  DocAI.processDocument (readFile w) (docaiClient w) config
    (filePath document) (documentType document).

(** The provider selection of [POST] (lines 47-69): the primary path inside
    its own [try], the LLM in its [catch] or when not configured. *)
Definition extract (w : World) (document : Doc) : Fallible DocAI.ExtractedTaxData :=
  if useDocumentAI w then
    match documentAI w document with
    | Ok x => Ok x
    | Throw _ => processWithLLM w document
    end
  else processWithLLM w document.

(** [POST] up to [return new Response(readable, ...)]. *)
Definition POST (w : World) (id : string) : M Response :=
  try_catch
    (match session w with
     | None => ret (JsonResponse 401 (error_body "Unauthorized"))
     | Some mail =>
         let! user := findUser mail in
         match user with
         | None => ret (JsonResponse 404 (error_body "User not found"))
         | Some u =>
             let! document := findOwnedDocument id (user_id u) in
             match document with
             | None => ret (JsonResponse 404 (error_body "Document not found"))
             | Some doc =>
                 update_document id PROCESSING (set_status PROCESSING) ;;
                 let! extractedTaxData := lift (extract w doc) in
                 ret (StreamResponse extractedTaxData)
             end
         end
     end)
    (fun _ =>
       update_document id FAILED (set_status FAILED) ;;
       ret (JsonResponse 500 (error_body "Internal server error"))).

(** The stream controller. *)
Definition count_enq (l : list StreamItem) : nat :=
  length (filter (fun i => match i with Enq _ => true | _ => false end) l).

Definition cancelled (w : World) (s : PState) : bool :=
  match cancelAfter w with Some n => (n <=? count_enq (emitted s))%nat | None => false end.

Definition emit (i : StreamItem) (s : PState) : PState :=
  {| db := db s; statusLog := statusLog s; emitted := emitted s ++ [i] |}.

Definition enqueue (w : World) (bytes : string) : M unit :=
  fun s => if cancelled w s then (Throw ErrStreamClosed, s) else (Ok tt, emit (Enq bytes) s).

Definition close (w : World) : M unit :=
  fun s => if cancelled w s then (Throw ErrStreamClosed, s) else (Ok tt, emit Closed s).

Definition controller_error (w : World) (e : Err) : M unit :=
  fun s => if cancelled w s then (Ok tt, s) else (Ok tt, emit (Errored e) s).

Definition chunkSize : nat := 100.

(** [for (let i = 0; i < s.length; i += chunkSize) s.slice(i, i + chunkSize)];
    [fuel] bounds the number of iterations. *)
Fixpoint slices (fuel i : nat) (l : list ascii) : list string :=
  match fuel with
  | O => []
  | S f =>
      if (i <? length l)%nat
      then string_of_list_ascii (firstn chunkSize (skipn i l)) :: slices f (i + chunkSize) l
      else []
  end.

Definition chunks (s : string) : list string :=
  let l := list_ascii_of_string s in slices (length l) 0 l.

(** [`data: ${JSON.stringify({content: chunk})}\n\n`] *)
Definition event (chunk : string) : string :=
  "data: " ++ JSON.stringify Number_toString (JObj [("content", JStr chunk)]) ++ nl ++ nl.

Definition done_event : string := "data: [DONE]" ++ nl ++ nl.

Fixpoint enqueue_all (w : World) (l : list string) : M unit :=
  match l with
  | [] => ret tt
  | b :: rest => enqueue w b ;; enqueue_all w rest
  end.

Definition jsonResponse (x : DocAI.ExtractedTaxData) : string :=
  JSON.stringify Number_toString
    (JObj [("documentType", DocAI.xdocumentType x); ("ocrText", DocAI.xocrText x);
           ("extractedData", DocAI.xextractedData x)]).

(** The [start(controller)] callback of the [ReadableStream]. *)
Definition start (w : World) (id : string) (x : DocAI.ExtractedTaxData) : M unit :=
  try_catch
    (enqueue_all w (map event (chunks (jsonResponse x))) ;;
     update_completed id x ;;
     enqueue w done_event ;;
     close w)
    (fun e => update_document id FAILED (set_status FAILED) ;; controller_error w e).

(** One processing attempt: the handler, then the stream's [start]. *)
Definition attempt (w : World) (id : string) (s : PState) : Fallible Response * PState :=
  match POST w id s with
  | (Ok (StreamResponse x), s1) => (Ok (StreamResponse x), snd (start w id x s1))
  | r => r
  end.

End Handlers.
End Route.

(* ------------------------------------------------------------------ *)
(** ** Node's [path.posix.join] and the server's file system *)

Module Path.

(** [normalizeString] of [path.posix] over the segments between the
    separators: empty and ["."] segments are dropped, [".."] removes the
    kept segment before it; when there is none, or it is [".."] itself,
    [".."] is kept for a relative path and dropped for an absolute one.
    [stack] holds the kept segments, last first. *)
Fixpoint normalize_segments (allowAboveRoot : bool) (stack : list string)
    (segs : list string) : list string :=
  match segs with
  | [] => rev stack
  | seg :: rest =>
      if String.eqb seg "" || String.eqb seg "." then
        normalize_segments allowAboveRoot stack rest
      else if String.eqb seg ".." then
        match stack with
        | top :: stack' =>
            if String.eqb top ".." then
              normalize_segments allowAboveRoot
                (if allowAboveRoot then ".." :: stack else stack) rest
            else normalize_segments allowAboveRoot stack' rest
        | [] =>
            normalize_segments allowAboveRoot (if allowAboveRoot then [".."] else []) rest
        end
      else normalize_segments allowAboveRoot (seg :: stack) rest
  end.

Definition ends_with_slash (p : string) : bool :=
  match rev (list_ascii_of_string p) with
  | c :: _ => Ascii.eqb c "/"%char
  | [] => false
  end.

(** [path.posix.normalize] *)
Definition normalize (p : string) : string :=
  match p with
  | EmptyString => "."
  | String c _ =>
      let isAbsolute := Ascii.eqb c "/"%char in
      let trailingSeparator := ends_with_slash p in
      let body := String.concat "/"
                    (normalize_segments (negb isAbsolute) [] (JS.split "/"%char p)) in
      if String.eqb body "" then
        (if isAbsolute then "/" else if trailingSeparator then "./" else ".")
      else
        (if isAbsolute then "/" else "") ++ body ++ (if trailingSeparator then "/" else "")
  end.

(** [path.posix.join(...parts)]: the non-empty parts joined by ["/"], then
    normalised; ["."] when every part is empty. *)
Definition join (parts : list string) : string :=
  match filter (fun a => negb (String.eqb a "")) parts with
  | [] => "."
  | ps => normalize (String.concat "/" ps)
  end.

(** The file-system limits: bytes per path component and per path. *)
Definition NAME_MAX : nat := 255.
Definition PATH_MAX : nat := 4096.

Definition nonempty_segments (p : string) : list string :=
  filter (fun a => negb (String.eqb a "")) (JS.split "/"%char p).

(** The directory chain of a path: for ["/a/b/c"], ["/a"; "/a/b"; "/a/b/c"]. *)
Fixpoint dir_prefixes (acc : string) (segs : list string) : list string :=
  match segs with
  | [] => []
  | seg :: rest => let d := acc ++ "/" ++ seg in d :: dir_prefixes d rest
  end.

Definition ancestors (p : string) : list string := dir_prefixes "" (nonempty_segments p).

(** The directory an (absolute, normalised) path sits in. *)
Definition parent (p : string) : string :=
  last (dir_prefixes "" (removelast (nonempty_segments p))) "/".

(** Whether [writeFile(p, data)] can create or replace the file [p] when
    the existing directories are [directories] (the root ["/"] always
    exists): it fails with ENAMETOOLONG for a component longer than
    [NAME_MAX] or a path of [PATH_MAX] bytes or more, with EISDIR for a
    directory or a path ending in ["/"], and with ENOENT when the parent
    directory does not exist. *)
Definition writable (directories : list string) (p : string) : bool :=
  forallb (fun seg => String.length seg <=? NAME_MAX)%nat (JS.split "/"%char p)
  && (String.length p <? PATH_MAX)%nat
  && negb (ends_with_slash p)
  && negb (existsb (String.eqb p) directories)
  && existsb (String.eqb (parent p)) ("/" :: directories).

End Path.

(* ------------------------------------------------------------------ *)
(** ** Upload route [POST] (part_000, lines 10-98) *)

Module UploadRoute.
Import Db.

(** A [uuidv4()] string: 36 characters, lower-case hexadecimal digits
    and dashes. *)
Definition uuid_char (c : ascii) : bool :=
  let n := nat_of_ascii c in
  ((48 <=? n) && (n <=? 57))%nat || ((97 <=? n) && (n <=? 102))%nat || (n =? 45)%nat.

Definition is_uuid (u : string) : bool :=
  (String.length u =? 36)%nat && forallb uuid_char (list_ascii_of_string u).

Record Uuid := { uuid_text : string; uuid_shape : is_uuid uuid_text = true }.

Record File := { name : string; type_ : string; size : Z; bytes : string }.

(** The request and the values the outside world supplies: the session's
    e-mail, the multipart fields, the generated UUID, the id the database
    assigns to the new row, and the directories that exist on the
    server's disk when the request runs (the files on it are the ones in
    [files] of the store). *)
Record Request := {
  session : option string;
  file : option File;
  taxReturnIdField : option string;
  uuid : Uuid;
  newDocumentId : string;
  directories : list string }.

Inductive Response :=
| JsonResponse (code : Z) (payload : Json)
| DocumentResponse (d : Doc).

Definition error_body (msg : string) : Json := JObj [("error", JStr msg)].

Definition allowedTypes : list string :=
  ["application/pdf"; "image/png"; "image/jpeg"; "image/tiff"].

Definition maxSize : Z := 10 * 1024 * 1024.

(** [name.split('.').pop()] *)
Fixpoint last_segment (s : string) (acc : string) : string :=
  match s with
  | EmptyString => acc
  | String c s' =>
      if Ascii.eqb c "."%char then last_segment s' "" else last_segment s' (acc ++ String c "")
  end.

Definition findTaxReturn (trid uid : string) : M bool :=
  fun s => (Ok (owns (db s) uid trid), s).

(** [join('/tmp', 'uploads', 'documents')] *)
Definition uploadDir : string := Path.join ["/tmp"; "uploads"; "documents"].

(** [mkdir(dir, { recursive: true })] given the existing directories:
    it fails when a path of the chain is an existing file, and otherwise
    answers the directories there are afterwards. *)
Definition mkdir (existing : list string) (dir : string) : M (list string) :=
  fun s =>
    if existsb (fun a => existsb (fun f => String.eqb (fst f) a) (files (db s)))
               (Path.ancestors dir)
    then (Throw ErrFs, s)
    else (Ok (app existing (Path.ancestors dir)), s).

(** [writeFile(path, buffer)] given the existing directories. *)
Definition writeFile (existing : list string) (path contents : string) : M unit :=
  fun s =>
    if Path.writable existing path then
      let d := db s in
      (Ok tt, set_db {| users := users d; taxReturns := taxReturns d;
                        documents := documents d; files := files d ++ [(path, contents)] |} s)
    else (Throw ErrFs, s).

Definition createDocument (x : Doc) : M Doc :=
  fun s => let d := db s in (Ok x, set_db (with_documents d (documents d ++ [x])) s).

Definition POST (r : Request) : M Response :=
  try_catch
    (match session r with
     | None => ret (JsonResponse 401 (error_body "Unauthorized"))
     | Some mail =>
       if negb (JS.truthy_str mail) then ret (JsonResponse 401 (error_body "Unauthorized")) else
       let! user := findUser mail in
       match user with
       | None => ret (JsonResponse 404 (error_body "User not found"))
       | Some u =>
         match file r, taxReturnIdField r with
         | Some f, Some taxReturnId =>
           if negb (JS.truthy_str taxReturnId)
           then ret (JsonResponse 400 (error_body "Missing file or tax return ID")) else
           let! taxReturn := findTaxReturn taxReturnId (user_id u) in
           if negb taxReturn
           then ret (JsonResponse 404 (error_body "Tax return not found")) else
           if negb (existsb (String.eqb (type_ f)) allowedTypes)
           then ret (JsonResponse 400 (error_body
                  "Invalid file type. Supported types: PDF, PNG, JPEG, TIFF")) else
           if (size f >? maxSize)%Z
           then ret (JsonResponse 400 (error_body "File size exceeds 10MB limit")) else
           let! dirs := mkdir (directories r) uploadDir in
           let fileExtension := last_segment (name f) "" in
           let uniqueFileName := uuid_text (uuid r) ++ "." ++ fileExtension in
           let filePath := Path.join [uploadDir; uniqueFileName] in
           writeFile dirs filePath (bytes f) ;;
           let documentType := Upload.determineDocumentType (name f) in
           let! document := createDocument
             {| doc_id := newDocumentId r; taxReturnId := taxReturnId;
                fileName := name f; fileType := type_ f; fileSize := size f;
                filePath := filePath; documentType := documentType;
                processingStatus := PENDING; ocrText := None; extractedData := None |} in
           ret (DocumentResponse document)
         | _, _ => ret (JsonResponse 400 (error_body "Missing file or tax return ID"))
         end
       end
     end)
    (fun _ => ret (JsonResponse 500 (error_body "Internal server error"))).

End UploadRoute.

(* ------------------------------------------------------------------ *)
(** ** Custom what-if scenarios (part_001, [InteractiveWhatIfScenarios]) *)

Module Scenario.

Record CustomScenario := {
  sc_id : string; sc_name : string; additionalAmount : Q; deductionType : string }.

(** The fields of the result of [calculateDeductionComparison] read here. *)
Record Comparison := {
  recommendedMethod : string; itemizedTaxLiability : Q; standardTaxLiability : Q }.

(** A computed custom row (the display-only [description] is left out). *)
Record CustomRow := {
  scenario : string; itemizedDeductions : Q; taxLiability : Q; savings : Q;
  custom : bool; row_id : string }.

Section Calculator.

(** [calculateDeductionComparison] and [calculateTaxImpactScenarios] of
    [@/lib/enhanced-tax-calculations]; the results below hold for any of
    their implementations. *)
Variable Dependent : Type.
Variable calculateDeductionComparison : Q -> string -> Q -> list Dependent -> Comparison.
Variable BaseRow : Type.
Variable baseTaxLiability : BaseRow -> Q.
Variable calculateTaxImpactScenarios : Q -> string -> Q -> list Dependent -> list BaseRow.

(** [Math.max(0, parseFloat(String(x || 0)))] on a finite number. *)
Definition safe (x : Q) : Q := Qmax 0 x.

Definition safeFilingStatus (filingStatus : string) : string :=
  if JS.truthy_str filingStatus then filingStatus else "SINGLE".

Definition minIncomeForCalculation (adjustedGrossIncome : Q) : Q :=
  Qmax (safe adjustedGrossIncome) 50000.

(** The body of [customScenarios.map(scenario => ...)]. *)
Definition customCalculation (adjustedGrossIncome currentItemizedDeductions : Q)
    (filingStatus : string) (dependents : list Dependent)
    (baseScenarios : list BaseRow) (sc : CustomScenario) : CustomRow :=
  let newComparison :=
    calculateDeductionComparison (minIncomeForCalculation adjustedGrossIncome)
      (safeFilingStatus filingStatus)
      (safe currentItemizedDeductions + additionalAmount sc) dependents in
  let baseTaxLiability :=
    match baseScenarios with b :: _ => baseTaxLiability b | [] => 0 end in
  let newTaxLiability :=
    if String.eqb (recommendedMethod newComparison) "itemized"
    then itemizedTaxLiability newComparison
    else standardTaxLiability newComparison in
  {| scenario := sc_name sc;
     itemizedDeductions := safe currentItemizedDeductions + additionalAmount sc;
     taxLiability := newTaxLiability;
     savings := baseTaxLiability - newTaxLiability;
     custom := true; row_id := sc_id sc |}.

(** The [useEffect] computing [calculations]: the base rows, then one row per
    custom scenario. *)
Definition calculations (adjustedGrossIncome currentItemizedDeductions : Q)
    (filingStatus : string) (dependents : list Dependent)
    (customScenarios : list CustomScenario) : list BaseRow * list CustomRow :=
  let baseScenarios :=
    calculateTaxImpactScenarios (minIncomeForCalculation adjustedGrossIncome)
      (safeFilingStatus filingStatus) (safe currentItemizedDeductions) dependents in
  (baseScenarios,
   map (customCalculation adjustedGrossIncome currentItemizedDeductions filingStatus
          dependents baseScenarios) customScenarios).

End Calculator.

(** The [newScenario] form state. *)
Record NewScenario := {
  ns_name : string; ns_additionalAmount : string; ns_deductionType : string }.

Definition initialNewScenario : NewScenario :=
  {| ns_name := ""; ns_additionalAmount := "";
     ns_deductionType := "CHARITABLE_CONTRIBUTIONS" |}.

(** [handleAddCustomScenario]: the new [customScenarios] and [newScenario];
    [now] is [Date.now().toString()], [parseFloat] the runtime's. *)
Definition handleAddCustomScenario (parseFloat : string -> Q) (now : string)
    (customScenarios : list CustomScenario) (newScenario : NewScenario)
    : list CustomScenario * NewScenario :=
  if negb (JS.truthy_str (ns_name newScenario))
     || negb (JS.truthy_str (ns_additionalAmount newScenario))
  then (customScenarios, newScenario)
  else
    let scenario := {| sc_id := now; sc_name := ns_name newScenario;
                       additionalAmount := parseFloat (ns_additionalAmount newScenario);
                       deductionType := ns_deductionType newScenario |} in
    ((customScenarios ++ [scenario])%list, initialNewScenario).

(** [handleRemoveCustomScenario] *)
Definition handleRemoveCustomScenario (id : string) (customScenarios : list CustomScenario)
    : list CustomScenario :=
  filter (fun s => negb (String.eqb (sc_id s) id)) customScenarios.

(** [handleQuickCalculation]: the new [customScenarios] and [quickAmount];
    [toLocaleString] is [Number.prototype.toLocaleString]. *)
Definition handleQuickCalculation (parseFloat : string -> Q) (toLocaleString : Q -> string)
    (now : string) (customScenarios : list CustomScenario) (quickAmount : string)
    : list CustomScenario * string :=
  if negb (JS.truthy_str quickAmount) then (customScenarios, quickAmount)
  else
    let amount := parseFloat quickAmount in
    let quickScenario := {| sc_id := "quick-" ++ now;
                            sc_name := "Quick Test: $" ++ toLocaleString amount;
                            additionalAmount := amount;
                            deductionType := "OTHER_DEDUCTIONS" |} in
    ((customScenarios ++ [quickScenario])%list, "").

End Scenario.

(** [PersonalInfoStep]: its [formData] object. *)
Module PersonalInfo.

(** The fields of [formData], in order, with their defaults. *)
Definition formDefaults : list (string * Json) :=
  [("filingStatus", JStr "SINGLE"); ("firstName", JStr ""); ("lastName", JStr "");
   ("ssn", JStr ""); ("spouseFirstName", JStr ""); ("spouseLastName", JStr "");
   ("spouseSsn", JStr ""); ("address", JStr ""); ("city", JStr "");
   ("state", JStr ""); ("zipCode", JStr "")].

(** The initial [formData]: [field: taxReturn.field || default] for each. *)
Definition initialFormData (taxReturn : list (string * Json)) : list (string * Json) :=
  map (fun p => (fst p, Route.or_undef (get_prop taxReturn (fst p)) (snd p))) formDefaults.

(** [handleChange]: [{ ...prev, [field]: value }] (the [onMarkUnsaved]
    call aside). *)
Definition handleChange (field value : string) (prev : list (string * Json))
    : list (string * Json) :=
  set_prop prev field (JStr value).

(** [isMarried] *)
Definition isMarried (formData : list (string * Json)) : bool :=
  match get_prop formData "filingStatus" with
  | Some (JStr s) => String.eqb s "MARRIED_FILING_JOINTLY"
                     || String.eqb s "MARRIED_FILING_SEPARATELY"
  | _ => false
  end.

(** The truthiness of [isStepOneComplete], as read by [!isStepOneComplete]. *)
Definition isStepOneComplete (formData : list (string * Json)) : bool :=
  Route.truthy_opt (get_prop formData "firstName")
  && Route.truthy_opt (get_prop formData "lastName")
  && Route.truthy_opt (get_prop formData "filingStatus").

End PersonalInfo.

(* ------------------------------------------------------------------ *)
(** ** Upload-and-process widget [DocumentProcessor] (part_002, lines 29-186) *)

Module Client.

Inductive Status := Idle | Uploading | Processing | Completed | Error.

(** [ProcessingState] *)
Record ProcessingState := {
  file : option UploadRoute.File;
  uploading : bool;
  processing : bool;
  progress : nat;
  status : Status;
  message : string;
  document : option Json;
  extractedData : option Json }.

(** [handleFileSelect] *)
Definition handleFileSelect (f : UploadRoute.File) (prev : ProcessingState) : ProcessingState :=
  {| file := Some f; uploading := uploading prev; processing := processing prev;
     progress := progress prev; status := Idle; message := "";
     document := None; extractedData := None |}.

(** [handleFileRemove] *)
Definition handleFileRemove (prev : ProcessingState) : ProcessingState :=
  {| file := None; uploading := uploading prev; processing := processing prev;
     progress := progress prev; status := Idle; message := "";
     document := None; extractedData := None |}.

(** The [setState] calls of [processDocument], in source order. *)
Definition st_upload_started (prev : ProcessingState) : ProcessingState :=
  {| file := file prev; uploading := true; processing := processing prev;
     progress := 0; status := Uploading; message := message prev;
     document := document prev; extractedData := extractedData prev |}.

Definition st_uploading (prev : ProcessingState) : ProcessingState :=
  {| file := file prev; uploading := uploading prev; processing := processing prev;
     progress := 30; status := status prev; message := "Uploading document...";
     document := document prev; extractedData := extractedData prev |}.

Definition st_extracting (doc : Json) (prev : ProcessingState) : ProcessingState :=
  {| file := file prev; uploading := false; processing := true;
     progress := 50; status := Processing; message := "Extracting data from document...";
     document := Some doc; extractedData := extractedData prev |}.

Definition st_analyzing (p : nat) (prev : ProcessingState) : ProcessingState :=
  {| file := file prev; uploading := uploading prev; processing := processing prev;
     progress := p; status := status prev; message := "Analyzing document content...";
     document := document prev; extractedData := extractedData prev |}.

Definition st_completed (v : Json) (prev : ProcessingState) : ProcessingState :=
  {| file := file prev; uploading := uploading prev; processing := false;
     progress := 100; status := Completed; message := "Document processed successfully";
     document := document prev; extractedData := Some v |}.

Definition st_error (msg : string) (prev : ProcessingState) : ProcessingState :=
  {| file := file prev; uploading := false; processing := false;
     progress := 0; status := Error; message := msg;
     document := document prev; extractedData := extractedData prev |}.

(** [s.split(sep)] *)
Fixpoint split_on (sep : ascii) (s : string) : list string :=
  match s with
  | EmptyString => [""]
  | String c rest =>
      if Ascii.eqb c sep then "" :: split_on sep rest
      else match split_on sep rest with
           | x :: xs => String c x :: xs
           | [] => [String c ""]
           end
  end.

(** One [reader.read()]: a chunk, [done], or a rejection with its message. *)
Inductive ReadOutcome :=
| Chunk (value : string)
| EndOfStream
| ReadError (msg : string).

(** A [fetch] rejecting with [msg], or a response with [ok] and a body. *)
Inductive Reply (B : Type) :=
| Rejected (msg : string)
| Answered (ok : bool) (body : B).
Arguments Rejected {B} msg.
Arguments Answered {B} ok body.

(** How a call of a parent's callback ends: it returns, throws an [Error]
    with a message, or throws some other value. *)
Inductive CallbackResult :=
| Returns
| ThrowsError (msg : string)
| ThrowsOther.

(** The upload response carries its JSON body; the process response its
    stream ([None]: no [body], so no reader), given as the reads it yields
    (running out: no further read resolves). The props
    [onDocumentUploaded] (optional: [None] when not passed) and
    [onDocumentProcessed] are given by how a call with a value ends. *)
Record ClientWorld := {
  uploadReply : Reply Json;
  processReply : Reply (option (list ReadOutcome));
  onDocumentUploaded : option (Json -> CallbackResult);
  onDocumentProcessed : Json -> CallbackResult }.

(** The requests made and the callback calls, in order: [DocumentUploaded]
    is the evaluation of [onDocumentUploaded?.(document)] (a call when the
    prop is passed), [DocumentProcessed] the call [onDocumentProcessed(v)]. *)
Inductive Event :=
| FetchUpload (f : UploadRoute.File) (taxReturnId : string)
| DocumentUploaded (document : Json)
| FetchProcess (url : string)
| DocumentProcessed (extractedData : Json).

(** The message the outer [catch] shows for what a callback threw
    ([None]: the callback returned). *)
Definition thrown_message (r : CallbackResult) : option string :=
  match r with
  | Returns => None
  | ThrowsError msg => Some msg
  | ThrowsOther => Some "An error occurred during processing"
  end.

(** [onDocumentUploaded?.(document)] *)
Definition uploaded_result (w : ClientWorld) (document : Json) : CallbackResult :=
  match onDocumentUploaded w with
  | Some cb => cb document
  | None => Returns
  end.

(** What the line loop or the read loop ends with. *)
Inductive LineStep :=
| More (buffer : string) (currentProgress : nat) (st : ProcessingState)
| Finished (st : ProcessingState) (extractedData : Json)
| Failed (msg : string) (st : ProcessingState).

Inductive LoopOutcome :=
| Stopped (st : ProcessingState)
| Succeeded (st : ProcessingState) (extractedData : Json)
| Thrown (msg : string) (st : ProcessingState).

Section Widget.

(** Built-ins of the browser: [Number.prototype.toString], [JSON.parse]
    ([None]: it throws), and the message of a [TypeError] it raises. *)
Variable Number_toString : Q -> string.
Variable JSON_parse : string -> option Json.
Variable type_error_message : string.

(** [buffer += parsed.content]; [None]: reading [content] of [null] throws. *)
Definition content_string (parsed : Json) : option string :=
  match parsed with
  | JNull => None
  | JObj ps =>
      Some (match get_prop ps "content" with
            | Some v => JSON.js_String Number_toString v
            | None => "undefined"
            end)
  | _ => Some "undefined"
  end.

(** The [for (const line of lines)] loop. *)
Fixpoint process_lines (lines : list string) (buffer : string) (currentProgress : nat)
    (st : ProcessingState) : LineStep :=
  match lines with
  | [] => More buffer currentProgress st
  | line :: rest =>
      if prefix "data: " line then
        let data := JS.substring 6 (String.length line) line in
        if String.eqb data "[DONE]" then
          match JSON_parse buffer with
          | Some extractedData => Finished (st_completed extractedData st) extractedData
          | None => Failed "Failed to parse extracted data" st
          end
        else
          match JSON_parse data with
          | Some parsed =>
              match content_string parsed with
              | Some c =>
                  let p := Nat.min 95 (currentProgress + 5) in
                  process_lines rest (buffer ++ c) p (st_analyzing p st)
              | None => process_lines rest buffer currentProgress st
              end
          | None => process_lines rest buffer currentProgress st
          end
      else process_lines rest buffer currentProgress st
  end.

(** The [while (reader)] loop. *)
Fixpoint read_loop (reads : list ReadOutcome) (buffer : string) (currentProgress : nat)
    (st : ProcessingState) : LoopOutcome :=
  match reads with
  | [] => Stopped st
  | EndOfStream :: _ => Stopped st
  | ReadError msg :: _ => Thrown msg st
  | Chunk value :: rest =>
      match process_lines (split_on (ascii_of_nat 10) value) buffer currentProgress st with
      | More b p st' => read_loop rest b p st'
      | Finished st' v => Succeeded st' v
      | Failed msg st' => Thrown msg st'
      end
  end.

(** [`${document.id}`]; [None]: reading [id] of [null] throws. *)
Definition id_string (document : Json) : option string :=
  match document with
  | JNull => None
  | JObj ps =>
      Some (match get_prop ps "id" with
            | Some v => JSON.js_String Number_toString v
            | None => "undefined"
            end)
  | _ => Some "undefined"
  end.

(** [processDocument]: the final state and the events. *)
Definition processDocument (w : ClientWorld) (taxReturnId : string) (st : ProcessingState)
    : ProcessingState * list Event :=
  match file st with
  | None => (st, [])
  | Some f =>
      let st2 := st_uploading (st_upload_started st) in
      let ev1 := [FetchUpload f taxReturnId] in
      match uploadReply w with
      | Rejected msg => (st_error msg st2, ev1)
      | Answered false _ => (st_error "Failed to upload document" st2, ev1)
      | Answered true document =>
          let st3 := st_extracting document st2 in
          let ev2 := (ev1 ++ [DocumentUploaded document])%list in
          match thrown_message (uploaded_result w document) with
          | Some msg => (st_error msg st3, ev2)
          | None =>
          match id_string document with
          | None => (st_error type_error_message st3, ev2)
          | Some id =>
              let ev3 := (ev2 ++ [FetchProcess ("/api/documents/" ++ id ++ "/process")])%list in
              match processReply w with
              | Rejected msg => (st_error msg st3, ev3)
              | Answered false _ => (st_error "Failed to process document" st3, ev3)
              | Answered true None => (st3, ev3)
              | Answered true (Some reads) =>
                  match read_loop reads "" 50 st3 with
                  | Stopped st' => (st', ev3)
                  | Succeeded st' v =>
                      (* [onDocumentProcessed(extractedData)] inside the inner
                         [try]: whatever it throws becomes
                         [new Error('Failed to parse extracted data')] *)
                      let ev4 := (ev3 ++ [DocumentProcessed v])%list in
                      match onDocumentProcessed w v with
                      | Returns => (st', ev4)
                      | _ => (st_error "Failed to parse extracted data" st', ev4)
                      end
                  | Thrown msg st' => (st_error msg st', ev3)
                  end
              end
          end
          end
      end
  end.

End Widget.

(** [getDocumentTypeLabel] on the values [documentType] takes (the
    Prisma enum). *)
Definition getDocumentTypeLabel (documentType : DocumentType) : string :=
  match documentType with
  | W2 => "W-2 Form"
  | FORM_1099_INT => "1099-INT Form"
  | FORM_1099_DIV => "1099-DIV Form"
  | FORM_1099_MISC => "1099-MISC Form"
  | FORM_1099_NEC => "1099-NEC Form"
  | FORM_1099_R => "1099-R Form"
  | FORM_1099_G => "1099-G Form"
  | OTHER_TAX_DOCUMENT => "Other Tax Document"
  | UNKNOWN => documentTypeName UNKNOWN
  end.

(** The bytes the server enqueued, one read per enqueued chunk. *)
Definition reads_of (items : list Db.StreamItem) (error_message : Err -> string)
    : list ReadOutcome :=
  map (fun i => match i with
                | Db.Enq b => Chunk b
                | Db.Closed => EndOfStream
                | Db.Errored e => ReadError (error_message e)
                end) items.

End Client.

(** [DocumentAIService.getMimeType]: the extension after the last ['.'] of
    the lower-cased path ([split] always yields an element for [pop]). *)
Definition getMimeType (filePath : string) : string :=
  let extension := last (Client.split_on "."%char (JS.toLowerCase filePath)) "" in
  if String.eqb extension "pdf" then "application/pdf"
  else if String.eqb extension "png" then "image/png"
  else if String.eqb extension "jpg" || String.eqb extension "jpeg" then "image/jpeg"
  else if String.eqb extension "tiff" || String.eqb extension "tif" then "image/tiff"
  else "application/pdf".

Definition is1099 (dt : DocumentType) : bool :=
  match dt with
  | FORM_1099_INT | FORM_1099_DIV | FORM_1099_MISC | FORM_1099_NEC
  | FORM_1099_R | FORM_1099_G => true
  | _ => false
  end.

(** The errors [processWithLLM] can throw. *)
Definition llm_error (e : Err) : bool :=
  match e with
  | ErrReadFile | ErrFetch | ErrLLMApi _ | ErrSyntax | ErrType | ErrNoContent => true
  | _ => false
  end.

(** The scores the provider reports, read as the spec words it: every
    per-entity confidence and every per-form-field confidence (all pages). *)
Fixpoint somes {A} (l : list (option A)) : list A :=
  match l with
  | [] => []
  | Some x :: l' => x :: somes l'
  | None :: l' => somes l'
  end.

Definition reported_scores (d : DocAI.PDocument) : list Q :=
  somes (map DocAI.econfidence (DocAI.entities d))
  ++ flat_map (fun p => somes (map DocAI.field_value_confidence (DocAI.formFields p)))
              (DocAI.pages d).

Definition sumQ (l : list Q) : Q := fold_right Qplus 0 l.

(** The arithmetic mean, zero for no scores. *)
Definition spec_mean (l : list Q) : Q :=
  match l with
  | [] => 0
  | _ => sumQ l / inject_Z (Z.of_nat (length l))
  end.

(** The spec's fuzzy test between a normalised label and a canonical key:
    either normalised string contains the other. *)
Definition fuzzy_match (normalizedLabel key : string) : bool :=
  JS.includes normalizedLabel (DocAI.normalize key)
  || JS.includes (DocAI.normalize key) normalizedLabel.

(** A one-field document: [label] and [value] separated by a space, with the
    text anchors of a provider form field. *)
Definition seg (a b : nat) : option DocAI.TextAnchor :=
  Some {| DocAI.textSegments := [{| DocAI.startIndex := Some a; DocAI.endIndex := Some b |}] |}.

Definition form_field (a b c e : nat) : DocAI.FormField :=
  {| DocAI.fieldName := Some {| DocAI.textAnchor := seg a b; DocAI.confidence := None |};
     DocAI.fieldValue := Some {| DocAI.textAnchor := seg c e; DocAI.confidence := None |} |}.

Definition federal_withheld_doc : DocAI.PDocument :=
  {| DocAI.text := "Federal income tax withheld 1200"; DocAI.entities := [];
     DocAI.pages := [{| DocAI.formFields := [form_field 0 27 28 32] |}] |}.

(** "Payer name" = "ACME", then a later field labelled just "Payer". *)
Definition two_payer_fields_doc : DocAI.PDocument :=
  {| DocAI.text := "Payer name ACME Payer OTHER"; DocAI.entities := [];
     DocAI.pages := [{| DocAI.formFields := [form_field 0 10 11 15; form_field 16 21 22 27] |}] |}.





Definition generic_500 : Route.Response :=
  Route.JsonResponse 500 (Route.error_body "Internal server error").

(** A document already processed once, in a store with its owner. *)
Definition earlier_result : DocAI.ExtractedTaxData :=
  {| DocAI.xdocumentType := JStr "W2"; DocAI.xocrText := JStr "earlier";
     DocAI.xextractedData := JObj [("wages", JNum 1000)]; DocAI.xconfidence := 85 # 100 |}.

Definition completed_doc : Db.Doc :=
  {| Db.doc_id := "d1"; Db.taxReturnId := "t1"; Db.fileName := "w2.pdf";
     Db.fileType := "application/pdf"; Db.fileSize := 10;
     Db.filePath := "/tmp/uploads/documents/u1.pdf"; Db.documentType := W2;
     Db.processingStatus := Db.COMPLETED; Db.ocrText := Some "earlier";
     Db.extractedData := Some earlier_result |}.

Definition owned_state (d : Db.Doc) : Db.PState :=
  {| Db.db := {| Db.users := [{| Db.user_id := "u1"; Db.email := "a@b.c" |}];
                 Db.taxReturns := [{| Db.tr_id := "t1"; Db.userId := "u1" |}];
                 Db.documents := [d]; Db.files := [] |};
     Db.statusLog := []; Db.emitted := [] |}.

(** Signed in as the owner, Document AI not configured, the chat endpoint
    answers with [reply]; [cancel] as in [Route.cancelAfter]. *)
Definition llm_world (reply : Route.LLMReply) (cancel : option nat) : Route.World :=
  {| Route.env := fun _ => None; Route.session := Some "a@b.c";
     Route.readFile := fun _ => Some "file bytes";
     Route.docaiClient := fun _ => None;
     Route.llmFetch := Some reply; Route.cancelAfter := cancel |}.

Definition failed_reply : Route.LLMReply :=
  {| Route.ok := false; Route.status := 503; Route.body := "" |}.

Definition num_string (q : Q) : string := "0".
Definition no_parse (s : string) : option Json := None.

(** A JSON reader for the sample runs below ([JSON.parse] on objects,
    arrays, strings with their escapes, literals and integers). *)
Module SampleJSON.

Definition is_ws (c : ascii) : bool :=
  let n := nat_of_ascii c in ((n =? 32) || (n =? 9) || (n =? 10) || (n =? 13))%nat.

Fixpoint skip_ws (l : list ascii) : list ascii :=
  match l with c :: r => if is_ws c then skip_ws r else l | [] => [] end.

Definition hex_val (c : ascii) : option nat :=
  let n := nat_of_ascii c in
  if (48 <=? n)%nat && (n <=? 57)%nat then Some (n - 48)%nat
  else if (97 <=? n)%nat && (n <=? 102)%nat then Some (n - 87)%nat
  else if (65 <=? n)%nat && (n <=? 70)%nat then Some (n - 55)%nat
  else None.

Definition unescape (e : ascii) : option ascii :=
  let n := nat_of_ascii e in
  if (n =? 34)%nat then Some e else if (n =? 92)%nat then Some e
  else if (n =? 47)%nat then Some e
  else if (n =? 98)%nat then Some (ascii_of_nat 8)
  else if (n =? 102)%nat then Some (ascii_of_nat 12)
  else if (n =? 110)%nat then Some (ascii_of_nat 10)
  else if (n =? 114)%nat then Some (ascii_of_nat 13)
  else if (n =? 116)%nat then Some (ascii_of_nat 9)
  else None.

(** The characters of a string literal after its opening quote, and what
    follows the closing quote. *)
Fixpoint string_body (l : list ascii) : option (list ascii * list ascii) :=
  match l with
  | [] => None
  | c :: r =>
      if (nat_of_ascii c =? 34)%nat then Some ([], r)
      else if (nat_of_ascii c =? 92)%nat then
        match r with
        | e :: r' =>
            if (nat_of_ascii e =? 117)%nat then
              match r' with
              | h1 :: h2 :: h3 :: h4 :: r'' =>
                  match hex_val h1, hex_val h2, hex_val h3, hex_val h4, string_body r'' with
                  | Some a, Some b, Some c', Some d, Some (s, rest) =>
                      let code := (((a * 16 + b) * 16 + c') * 16 + d)%nat in
                      if (code <? 256)%nat then Some (ascii_of_nat code :: s, rest) else None
                  | _, _, _, _, _ => None
                  end
              | _ => None
              end
            else
              match unescape e, string_body r' with
              | Some u, Some (s, rest) => Some (u :: s, rest)
              | _, _ => None
              end
        | [] => None
        end
      else if (nat_of_ascii c <? 32)%nat then None
      else match string_body r with Some (s, rest) => Some (c :: s, rest) | None => None end
  end.

Definition is_digit (c : ascii) : bool :=
  let n := nat_of_ascii c in (48 <=? n)%nat && (n <=? 57)%nat.

Fixpoint digits (l : list ascii) (acc : Z) : Z * list ascii :=
  match l with
  | c :: r => if is_digit c then digits r (acc * 10 + Z.of_nat (nat_of_ascii c - 48)) else (acc, l)
  | [] => (acc, l)
  end.

Fixpoint value (fuel : nat) (l : list ascii) : option (Json * list ascii) :=
  match fuel with
  | O => None
  | S f =>
      match skip_ws l with
      | [] => None
      | c :: r =>
          let n := nat_of_ascii c in
          if (n =? 34)%nat then
            match string_body r with
            | Some (s, rest) => Some (JStr (string_of_list_ascii s), rest)
            | None => None
            end
          else if (n =? 123)%nat then
            match skip_ws r with
            | c' :: r' => if (nat_of_ascii c' =? 125)%nat then Some (JObj [], r')
                          else members f (c' :: r') []
            | [] => None
            end
          else if (n =? 91)%nat then
            match skip_ws r with
            | c' :: r' => if (nat_of_ascii c' =? 93)%nat then Some (JArr [], r')
                          else elements f (c' :: r') []
            | [] => None
            end
          else if (n =? 116)%nat then
            match r with "r"%char :: "u"%char :: "e"%char :: r' => Some (JBool true, r')
                    | _ => None end
          else if (n =? 102)%nat then
            match r with "a"%char :: "l"%char :: "s"%char :: "e"%char :: r' => Some (JBool false, r')
                    | _ => None end
          else if (n =? 110)%nat then
            match r with "u"%char :: "l"%char :: "l"%char :: r' => Some (JNull, r')
                    | _ => None end
          else if (n =? 45)%nat then
            match r with
            | d :: _ => if is_digit d then let '(z, rest) := digits r 0 in Some (JNum (inject_Z (- z)), rest)
                        else None
            | [] => None
            end
          else if is_digit c then let '(z, rest) := digits (c :: r) 0 in Some (JNum (inject_Z z), rest)
          else None
      end
  end
with members (fuel : nat) (l : list ascii) (acc : list (string * Json))
    : option (Json * list ascii) :=
  match fuel with
  | O => None
  | S f =>
      match skip_ws l with
      | c :: r =>
          if (nat_of_ascii c =? 34)%nat then
            match string_body r with
            | Some (k, rest) =>
                match skip_ws rest with
                | c' :: rest' =>
                    if (nat_of_ascii c' =? 58)%nat then
                      match value f rest' with
                      | Some (v, rest'') =>
                          let acc' := (acc ++ [(string_of_list_ascii k, v)])%list in
                          match skip_ws rest'' with
                          | d :: rest3 =>
                              if (nat_of_ascii d =? 44)%nat then members f rest3 acc'
                              else if (nat_of_ascii d =? 125)%nat then Some (JObj acc', rest3)
                              else None
                          | [] => None
                          end
                      | None => None
                      end
                    else None
                | [] => None
                end
            | None => None
            end
          else None
      | [] => None
      end
  end
with elements (fuel : nat) (l : list ascii) (acc : list Json) : option (Json * list ascii) :=
  match fuel with
  | O => None
  | S f =>
      match value f l with
      | Some (v, rest) =>
          let acc' := (acc ++ [v])%list in
          match skip_ws rest with
          | d :: rest' =>
              if (nat_of_ascii d =? 44)%nat then elements f rest' acc'
              else if (nat_of_ascii d =? 93)%nat then Some (JArr acc', rest')
              else None
          | [] => None
          end
      | None => None
      end
  end.

(** [JSON.parse]: one value and nothing but white space after it. *)
Definition parse (s : string) : option Json :=
  let l := list_ascii_of_string s in
  match value (S (length l)) l with
  | Some (v, rest) => match skip_ws rest with [] => Some v | _ => None end
  | None => None
  end.

End SampleJSON.

(** [s] does not contain the character [sep]. *)
Definition no_char (sep : ascii) (s : string) : bool :=
  forallb (fun ch => negb (Ascii.eqb ch sep)) (list_ascii_of_string s).

(** Sample inputs. *)
Definition result_of {A} (d : A) (r : Fallible A) : A :=
  match r with Ok x => x | Throw _ => d end.

Definition pending_doc : Db.Doc :=
  {| Db.doc_id := "d1"; Db.taxReturnId := "t1"; Db.fileName := "w2.pdf";
     Db.fileType := "application/pdf"; Db.fileSize := 10;
     Db.filePath := "/tmp/uploads/documents/u1.pdf"; Db.documentType := W2;
     Db.processingStatus := Db.PENDING; Db.ocrText := None; Db.extractedData := None |}.

Definition ok_reply (b : string) : Route.LLMReply :=
  {| Route.ok := true; Route.status := 200; Route.body := b |}.

Definition chat_body (content : string) : Json :=
  JObj [("choices", JArr [JObj [("message", JObj [("content", JStr content)])]])].

(** [JSON.parse] on the few texts the sample replies carry. *)
Definition sample_parse (s : string) : option Json :=
  if String.eqb s "resp" then Some (chat_body "obj")
  else if String.eqb s "empty" then Some (chat_body "")
  else if String.eqb s "garbled" then Some (chat_body "{oops")
  else if String.eqb s "listing" then Some (chat_body "lines")
  else if String.eqb s "lines" then
    Some (JObj [("documentType", JStr "W2"); ("ocrText", JArr [JStr "l1"; JStr "l2"]);
                ("extractedData", JObj [("wages", JNum 1000)])])
  else if String.eqb s "obj" then
    Some (JObj [("documentType", JStr "W2"); ("ocrText", JStr "Wages 1000");
                ("extractedData", JObj [("wages", JNum 1000)])])
  else None.

Definition gcp_env (k : string) : option string :=
  if String.eqb k "GOOGLE_CLOUD_PROJECT_ID" then Some "proj"
  else if String.eqb k "GOOGLE_CLOUD_W2_PROCESSOR_ID" then Some "w2proc"
  else if String.eqb k "GOOGLE_APPLICATION_CREDENTIALS" then Some "/keys/sa.json"
  else None.

Definition gcp_config : DocAI.DocumentAIConfig :=
  result_of {| DocAI.projectId := ""; DocAI.location := ""; DocAI.w2ProcessorId := "";
               DocAI.form1099ProcessorId := "" |} (DocAI.createDocumentAIConfig gcp_env).

Definition file_system (path : string) : option string := Some "file bytes".

Definition answering_client (r : DocAI.ProcessRequest) : option (option DocAI.PDocument) :=
  Some (Some federal_withheld_doc).

Definition failing_client (r : DocAI.ProcessRequest) : option (option DocAI.PDocument) :=
  None.

(** Document AI configured, its client answering with [client]. *)
Definition gcp_world client (reply : Route.LLMReply) : Route.World :=
  {| Route.env := gcp_env; Route.session := Some "a@b.c";
     Route.readFile := file_system; Route.docaiClient := client;
     Route.llmFetch := Some reply; Route.cancelAfter := None |}.

Definition stream_result (r : Fallible Route.Response * Db.PState) : DocAI.ExtractedTaxData :=
  match fst r with Ok (Route.StreamResponse x) => x | _ => earlier_result end.

Definition pdf_file : UploadRoute.File :=
  {| UploadRoute.name := "W2-2023.pdf"; UploadRoute.type_ := "application/pdf";
     UploadRoute.size := 2048; UploadRoute.bytes := "%PDF" |}.




Definition sample_comparison (income : Q) (status : string) (ded : Q) (deps : list unit)
    : Scenario.Comparison :=
  {| Scenario.recommendedMethod := "itemized"; Scenario.itemizedTaxLiability := 4000;
     Scenario.standardTaxLiability := 4500 |}.

Definition sample_base (income : Q) (status : string) (ded : Q) (deps : list unit) : list Q :=
  [5000].

Definition sample_scenario : Scenario.CustomScenario :=
  {| Scenario.sc_id := "c1"; Scenario.sc_name := "Donation";
     Scenario.additionalAmount := 3000; Scenario.deductionType := "charity" |}.

(** Stream operations leave the database and the status log alone. *)
Definition keeps_db {A} (m : Db.M A) : Prop :=
  forall s, Db.db (snd (m s)) = Db.db s /\ Db.statusLog (snd (m s)) = Db.statusLog s.

(** A processing attempt on the sample document, and the widget reading
    its stream after uploading [pdf_file]. *)
Definition sample_attempt : Fallible Route.Response * Db.PState :=
  Route.attempt num_string sample_parse (llm_world (ok_reply "resp") None) "d1"
    (owned_state pending_doc).

Definition read_error_message (e : Err) : string := "stream error".

Definition widget_world : Client.ClientWorld :=
  {| Client.uploadReply := Client.Answered true (JObj [("id", JStr "d1")]);
     Client.processReply :=
       Client.Answered true
         (Some (Client.reads_of (Db.emitted (snd sample_attempt)) read_error_message));
     Client.onDocumentUploaded := Some (fun _ => Client.Returns);
     Client.onDocumentProcessed := fun _ => Client.Returns |}.

(** The same run with an [onDocumentProcessed] that throws. *)
Definition throwing_world : Client.ClientWorld :=
  {| Client.uploadReply := Client.uploadReply widget_world;
     Client.processReply := Client.processReply widget_world;
     Client.onDocumentUploaded := Some (fun _ => Client.Returns);
     Client.onDocumentProcessed := fun _ => Client.ThrowsError "Cannot read properties" |}.

Definition widget_start : Client.ProcessingState :=
  Client.handleFileSelect pdf_file
    {| Client.file := None; Client.uploading := false; Client.processing := false;
       Client.progress := 0; Client.status := Client.Idle; Client.message := "";
       Client.document := None; Client.extractedData := None |}.

Definition widget_value : Json :=
  Eval vm_compute in
  match SampleJSON.parse (Route.jsonResponse num_string (stream_result sample_attempt)) with
  | Some v => v
  | None => JNull
  end.

(** Upload responses without [ok], and with a [null] body. *)
Definition upload_failed_world : Client.ClientWorld :=
  {| Client.uploadReply := Client.Answered false (JObj [("error", JStr "Unauthorized")]);
     Client.processReply := Client.Answered true None;
     Client.onDocumentUploaded := None;
     Client.onDocumentProcessed := fun _ => Client.Returns |}.

Definition null_upload_world : Client.ClientWorld :=
  {| Client.uploadReply := Client.Answered true JNull;
     Client.processReply := Client.Answered true None;
     Client.onDocumentUploaded := Some (fun _ => Client.Returns);
     Client.onDocumentProcessed := fun _ => Client.Returns |}.

(** An upload answered with [null] to an [onDocumentUploaded] that reads
    a field of it and throws. *)
Definition null_upload_throwing_world : Client.ClientWorld :=
  {| Client.uploadReply := Client.Answered true JNull;
     Client.processReply := Client.Answered true None;
     Client.onDocumentUploaded := Some (fun d => match d with
                                                 | JNull => Client.ThrowsError "null.fileName"
                                                 | _ => Client.Returns
                                                 end);
     Client.onDocumentProcessed := fun _ => Client.Returns |}.

(** A scored W-2: one entity and one form-field value with confidences. *)
Definition scored_doc : DocAI.PDocument :=
  {| DocAI.text := "Wages 1000";
     DocAI.entities := [{| DocAI.etype := "wages_tips_other_compensation";
                           DocAI.etextAnchor := seg 6 10; DocAI.econfidence := Some (9 # 10) |}];
     DocAI.pages := [{| DocAI.formFields :=
                          [{| DocAI.fieldName := Some {| DocAI.textAnchor := seg 0 5;
                                                         DocAI.confidence := Some (1 # 2) |};
                              DocAI.fieldValue := Some {| DocAI.textAnchor := seg 6 10;
                                                          DocAI.confidence := Some (7 # 10) |} |}] |}] |}.

Definition scored_client (r : DocAI.ProcessRequest) : option (option DocAI.PDocument) :=
  Some (Some scored_doc).

(** A row update that keeps the row's identity: its id, owner, file and
    document type. *)
Definition row_preserving (g : Db.Doc -> Db.Doc) : Prop :=
  forall x, Db.doc_id (g x) = Db.doc_id x /\ Db.taxReturnId (g x) = Db.taxReturnId x /\
            Db.fileName (g x) = Db.fileName x /\ Db.fileType (g x) = Db.fileType x /\
            Db.fileSize (g x) = Db.fileSize x /\ Db.filePath (g x) = Db.filePath x /\
            Db.documentType (g x) = Db.documentType x.

(** [d'] is [d] with the rows of id [id] (only) updated by [g]. *)
Definition only_row (id : string) (g : Db.Doc -> Db.Doc) (d d' : Db.DB) : Prop :=
  d' = Db.with_documents d
         (map (fun x => if String.eqb (Db.doc_id x) id then g x else x) (Db.documents d)).

(** [st'] is [st] after some [setState] of the line loop. *)
Definition analyzed_from (st st' : Client.ProcessingState) : Prop :=
  st' = st \/ exists q, (50 <= q <= 95)%nat /\ st' = Client.st_analyzing q st.

(** [m] changes the store only through rows of id [id], by an update
    that keeps their identity. *)
Definition confined {A} (id : string) (m : Db.M A) : Prop :=
  forall s, exists g, row_preserving g /\ only_row id g (Db.db s) (Db.db (snd (m s))).

(* ================================================================== *)
(** * Properties *)

(** ** Document-type inference *)

(** C2: the type inferred from the uploaded file name is the first row of
    the spec's priority table (W-2, then the six 1099 variants, then plain
    1099, else UNKNOWN) whose pattern occurs in the lower-cased name; with
    the spec's examples. *)
Theorem determineDocumentType_priority :
  (forall fileName,
     Upload.determineDocumentType fileName = Upload.spec_inferred_type fileName) /\
  Upload.determineDocumentType "My-W2-2023.pdf" = W2 /\
  Upload.determineDocumentType "1099-div-form.png" = FORM_1099_DIV /\
  Upload.determineDocumentType "form-1099-xyz.pdf" = OTHER_TAX_DOCUMENT /\
  Upload.determineDocumentType "receipt.pdf" = UNKNOWN.
Proof.
  split; [|repeat split; reflexivity].
  intro fileName.
  unfold Upload.determineDocumentType, Upload.spec_inferred_type.
  cbn [Upload.spec_first_match Upload.spec_priority_table existsb].
  set (l := JS.toLowerCase fileName).
  repeat (destruct (JS.includes l _); cbn); reflexivity.
Qed.

(** ** Processor routing of the primary provider *)

(** C10: a document typed UNKNOWN or OTHER_TAX_DOCUMENT is sent to the W2
    processor; a 1099-variant document fails with the "No 1099 processor
    configured" error when no 1099 processor id is configured (the
    environment variable absent or empty), before anything is read or
    sent. *)
Theorem getProcessorName_routing :
  forall (env : string -> option string) (config : DocAI.DocumentAIConfig)
         (dt : DocumentType) readFile client filePath,
    ((dt = UNKNOWN \/ dt = OTHER_TAX_DOCUMENT) ->
       DocAI.getProcessorName config dt
       = Ok (DocAI.processorPath config (DocAI.w2ProcessorId config))) /\
    (DocAI.createDocumentAIConfig env = Ok config ->
     (env "GOOGLE_CLOUD_1099_PROCESSOR_ID" = None \/
      env "GOOGLE_CLOUD_1099_PROCESSOR_ID" = Some "") ->
     is1099 dt = true ->
     DocAI.processDocument readFile client config filePath dt
     = Throw (ErrNo1099Processor dt)).
Proof.
  intros env config dt readFile client filePath. split.
  - intros [-> | ->]; reflexivity.
  - intros Hcfg Henv H1099.
    unfold DocAI.createDocumentAIConfig in Hcfg.
    destruct (_ || _); [discriminate|].
    injection Hcfg as <-.
    unfold DocAI.processDocument, DocAI.getProcessorName; cbn.
    unfold DocAI.env_or.
    destruct Henv as [-> | ->];
      destruct dt; try discriminate; reflexivity.
Qed.

(** ** Provider selection *)

Lemma parse_error jp s e : Route.parse jp s = Throw e -> e = ErrSyntax.
Proof.
  unfold Route.parse; destruct (jp s); congruence.
Qed.

Lemma choice_content_error r e : Route.choice_content r = Throw e -> e = ErrType.
Proof.
  unfold Route.choice_content.
  destruct r; try congruence;
    repeat match goal with
           | |- context [match ?x with _ => _ end] => destruct x
           end; congruence.
Qed.

Lemma processWithLLM_errors nts jp w d e :
  Route.processWithLLM nts jp w d = Throw e -> llm_error e = true.
Proof.
  unfold Route.processWithLLM, fbind.
  destruct (Route.readFile w _); [|intros [= <-]; reflexivity].
  destruct (Route.llmFetch w) as [r|]; [|intros [= <-]; reflexivity].
  destruct (negb (Route.ok r)); [intros [= <-]; reflexivity|].
  destruct (Route.parse jp (Route.body r)) eqn:Hp;
    [|intros [= <-]; apply parse_error in Hp; subst; reflexivity].
  destruct (Route.choice_content _) eqn:Hc;
    [|intros [= <-]; apply choice_content_error in Hc; subst; reflexivity].
  destruct (negb (Route.truthy_opt _)); [intros [= <-]; reflexivity|].
  destruct (Route.parse jp (JSON.js_String _ _)) as [pc|] eqn:Hp2;
    [|intros [= <-]; apply parse_error in Hp2; subst; reflexivity].
  destruct pc; intros H; inversion H; reflexivity.
Qed.

(** C4: the primary provider is used exactly when the project id, the W2
    processor id and the credentials path are all set (non-empty); when one
    is missing, or the primary path throws, the result is the LLM path's;
    when the primary path succeeds its result is kept; and the provider
    selection never lets a configuration error (missing Google config, no
    1099 processor) escape. *)
Theorem provider_selection :
  forall nts jp (w : Route.World) (d : Db.Doc),
    (Route.useDocumentAI w = true <->
       Route.env_truthy w "GOOGLE_CLOUD_PROJECT_ID" = true /\
       Route.env_truthy w "GOOGLE_CLOUD_W2_PROCESSOR_ID" = true /\
       Route.env_truthy w "GOOGLE_APPLICATION_CREDENTIALS" = true) /\
    (Route.useDocumentAI w = false ->
       Route.extract nts jp w d = Route.processWithLLM nts jp w d) /\
    (forall e, Route.useDocumentAI w = true -> Route.documentAI w d = Throw e ->
       Route.extract nts jp w d = Route.processWithLLM nts jp w d) /\
    (forall x, Route.useDocumentAI w = true -> Route.documentAI w d = Ok x ->
       Route.extract nts jp w d = Ok x) /\
    Route.extract nts jp w d <> Throw ErrMissingGoogleConfig /\
    (forall dt, Route.extract nts jp w d <> Throw (ErrNo1099Processor dt)).
Proof.
  intros nts jp w d.
  assert (Hllm : forall e, Route.extract nts jp w d = Throw e -> llm_error e = true).
  { intros e. unfold Route.extract.
    destruct (Route.useDocumentAI w); [destruct (Route.documentAI w d); [congruence|]|];
      apply processWithLLM_errors. }
  split; [|split; [|split; [|split; [|split]]]].
  - unfold Route.useDocumentAI. rewrite !andb_true_iff. tauto.
  - intros H. unfold Route.extract. rewrite H. reflexivity.
  - intros e H He. unfold Route.extract. rewrite H, He. reflexivity.
  - intros x H Hx. unfold Route.extract. rewrite H, Hx. reflexivity.
  - intros He. apply Hllm in He. discriminate.
  - intros dt He. apply Hllm in He. discriminate.
Qed.

(** ** Confidence *)

Lemma app_length_sumQ (l1 l2 : list Q) : sumQ (l1 ++ l2) == sumQ l1 + sumQ l2.
Proof.
  induction l1 as [|x l1 IH]; simpl; [ring|]. rewrite IH. ring.
Qed.

Lemma fold_add_confidence {A} (f : A -> option Q) (l : list A) (t : Q) (c : nat) :
  let r := fold_left (fun acc e => DocAI.add_confidence acc (f e)) l (t, c) in
  fst r == t + sumQ (somes (map f l)) /\ snd r = (c + length (somes (map f l)))%nat.
Proof.
  revert t c. induction l as [|e l IH]; intros t c; simpl.
  - split; [ring | lia].
  - destruct (f e) as [q|]; simpl.
    + destruct (IH (t + q) (S c)) as [H1 H2]. split.
      * rewrite H1. ring.
      * rewrite H2. lia.
    + apply IH.
Qed.

Lemma fold_pages_confidence (ps : list DocAI.Page) (t : Q) (c : nat) :
  let r := fold_left (fun acc page =>
              fold_left (fun acc f => DocAI.add_confidence acc (DocAI.field_value_confidence f))
                (DocAI.formFields page) acc) ps (t, c) in
  let l := flat_map (fun p => somes (map DocAI.field_value_confidence (DocAI.formFields p))) ps in
  fst r == t + sumQ l /\ snd r = (c + length l)%nat.
Proof.
  revert t c. induction ps as [|p ps IH]; intros t c; simpl.
  - split; [ring | lia].
  - destruct (fold_add_confidence DocAI.field_value_confidence (DocAI.formFields p) t c)
      as [H1 H2].
    destruct (fold_left _ (DocAI.formFields p) (t, c)) as [t' c'] eqn:E.
    simpl in H1, H2.
    destruct (IH t' c') as [H3 H4]. split.
    + rewrite H3, H1, app_length_sumQ; ring.
    + rewrite H4, H2, length_app. lia.
Qed.

Lemma calculateAverageConfidence_mean d :
  DocAI.calculateAverageConfidence d == spec_mean (reported_scores d).
Proof.
  unfold DocAI.calculateAverageConfidence. cbv zeta.
  destruct (fold_add_confidence DocAI.econfidence (DocAI.entities d) 0 0%nat) as [H1 H2].
  destruct (fold_left _ (DocAI.entities d) (0, 0%nat)) as [t1 c1] eqn:E1.
  simpl in H1, H2.
  destruct (fold_pages_confidence (DocAI.pages d) t1 c1) as [H3 H4].
  destruct (fold_left _ (DocAI.pages d) (t1, c1)) as [t2 c2] eqn:E2.
  simpl in H3, H4.
  unfold spec_mean, reported_scores.
  set (l1 := somes (map DocAI.econfidence (DocAI.entities d))) in *.
  set (l2 := flat_map _ (DocAI.pages d)) in *.
  assert (Hc : c2 = length (l1 ++ l2)) by (rewrite length_app; lia).
  assert (Ht : t2 == sumQ (l1 ++ l2)) by (rewrite H3, H1, app_length_sumQ; ring).
  rewrite Hc. clear E1 E2 H4 Hc.
  destruct (l1 ++ l2)%list as [|q l] eqn:El.
  - reflexivity.
  - simpl Nat.ltb. cbv iota. apply Qdiv_comp; [exact Ht | reflexivity].
Qed.

(** C6: a primary-provider result's confidence is the arithmetic mean of
    every per-entity and per-form-field confidence the provider reports
    (zero when it reports none) in the document it answers to the request
    naming the processor chosen for the document type and carrying the
    file's content; an LLM result's confidence is 0.85. *)
Theorem confidence_mean_or_fixed :
  forall nts jp,
    (forall readFile client config filePath dt x,
       DocAI.processDocument readFile client config filePath dt = Ok x ->
       exists name content d,
         DocAI.getProcessorName config dt = Ok name /\
         readFile filePath = Some content /\
         client {| DocAI.rname := name; DocAI.rcontent := content |} = Some (Some d) /\
         DocAI.xconfidence x == spec_mean (reported_scores d) /\
         (reported_scores d = [] -> DocAI.xconfidence x = 0)) /\
    (forall w doc x, Route.processWithLLM nts jp w doc = Ok x ->
       DocAI.xconfidence x = 85 # 100).
Proof.
  intros nts jp. split.
  - intros readFile client config filePath dt x H.
    unfold DocAI.processDocument, fbind in H.
    destruct (DocAI.getProcessorName config dt) as [name|] eqn:Hn; [|discriminate].
    destruct (readFile filePath) as [content|] eqn:Hr; [|discriminate].
    destruct (client _) as [[d|]|] eqn:Hc; try discriminate.
    injection H as <-.
    exists name, content, d.
    split; [reflexivity|]. split; [reflexivity|]. split; [exact Hc|]. split.
    + apply calculateAverageConfidence_mean.
    + intros Hnil. simpl.
      pose proof (calculateAverageConfidence_mean d) as Hm.
      rewrite Hnil in Hm. simpl in Hm.
      unfold DocAI.calculateAverageConfidence in *. cbv zeta in *.
      destruct (fold_add_confidence DocAI.econfidence (DocAI.entities d) 0 0%nat) as [_ H2].
      destruct (fold_left _ (DocAI.entities d) (0, 0%nat)) as [t1 c1] eqn:E1.
      simpl in H2.
      destruct (fold_pages_confidence (DocAI.pages d) t1 c1) as [_ H4].
      destruct (fold_left _ (DocAI.pages d) (t1, c1)) as [t2 c2] eqn:E2.
      simpl in H4. unfold reported_scores in Hnil.
      rewrite H4, H2, <- length_app, Hnil. reflexivity.
  - intros w doc x H.
    unfold Route.processWithLLM, fbind in H.
    repeat match type of H with
           | context [match ?m with _ => _ end] => destruct m; try discriminate
           end;
      injection H as <-; reflexivity.
Qed.

(** ** Fuzzy form-field matching *)

(** C1 (counterexample): on the generic path a later, weaker match
    overwrites an assigned field (a 1099-NEC with "Payer name" = "ACME" and
    then "Payer" = "OTHER" ends with payerName = "OTHER"), and the label
    "Federal income tax withheld" leaves federalTaxWithheld of a 1099-INT
    empty. *)
Lemma generic_fuzzy_match_overwrites :
  get_prop (DocAI.extract1099NecData two_payer_fields_doc) "payerName"
    = Some (JStr "OTHER") /\
  get_prop (DocAI.extract1099IntData federal_withheld_doc) "federalTaxWithheld"
    = Some (JStr "").
Proof. split; vm_compute; reflexivity. Qed.

Lemma get_set_prop props k v : get_prop (set_prop props k v) k = Some v.
Proof.
  unfold get_prop. induction props as [|[k' v'] rest IH]; simpl.
  - rewrite String.eqb_refl. reflexivity.
  - destruct (String.eqb k' k) eqn:E; simpl; rewrite E; [reflexivity|].
    exact IH.
Qed.

Lemma first_matching_key_spec nl entries k :
  DocAI.first_matching_key nl entries = Some k <->
  exists pre v post, entries = (pre ++ (k, v) :: post)%list /\
    fuzzy_match nl k = true /\
    forallb (fun p => negb (fuzzy_match nl (fst p))) pre = true.
Proof.
  induction entries as [|[key v] rest IH]; simpl.
  - split; [discriminate|].
    intros (pre & v & post & E & _). destruct pre; discriminate.
  - unfold fuzzy_match at 1. simpl.
    destruct (_ || _) eqn:M.
    + split.
      * intros [= <-]. exists [], v, rest. split; [reflexivity|]. split; [exact M|reflexivity].
      * intros (pre & v' & post & E & Hk & Hpre).
        destruct pre as [|[k0 v0] pre]; simpl in E.
        -- injection E as -> _ _. reflexivity.
        -- injection E as -> _ _. simpl in Hpre. unfold fuzzy_match in Hpre.
           rewrite M in Hpre. discriminate.
    + rewrite IH. split.
      * intros (pre & v' & post & E & Hk & Hpre).
        exists ((key, v) :: pre), v', post. subst rest. split; [reflexivity|].
        split; [exact Hk|]. simpl. unfold fuzzy_match at 1. rewrite M. exact Hpre.
      * intros (pre & v' & post & E & Hk & Hpre).
        destruct pre as [|[k0 v0] pre]; simpl in E.
        -- injection E as -> _ _. unfold fuzzy_match in Hk. rewrite M in Hk. discriminate.
        -- injection E as -> -> ->. simpl in Hpre. apply andb_true_iff in Hpre.
           exists pre, v', post. split; [reflexivity|]. split; [exact Hk | apply Hpre].
Qed.

(** C1 (amended): on the generic path each form field's value goes to the
    first canonical key, in declaration order, whose normalised name
    (lower-cased, non-alphanumerics removed) contains or is contained in the
    normalised label; no key matching leaves the object unchanged; the
    value is written whatever the key held before (no already-assigned
    check). The W2 keyword fallback maps "Federal income tax withheld" =
    "1200" to federalTaxWithheld; the generic path does not. *)
Theorem generic_fuzzy_match_first_key :
  (forall fullText dataObject field label value,
     DocAI.field_texts field fullText = Some (label, value) ->
     (forall k, DocAI.first_matching_key (DocAI.normalize label) dataObject = Some k ->
        (exists pre v post, dataObject = (pre ++ (k, v) :: post)%list /\
           fuzzy_match (DocAI.normalize label) k = true /\
           forallb (fun p => negb (fuzzy_match (DocAI.normalize label) (fst p))) pre = true) /\
        get_prop (DocAI.generic_field_step fullText dataObject field) k = Some (JStr value)) /\
     (forallb (fun p => negb (fuzzy_match (DocAI.normalize label) (fst p))) dataObject = true ->
        DocAI.generic_field_step fullText dataObject field = dataObject)) /\
  get_prop (DocAI.extractW2Data federal_withheld_doc) "federalTaxWithheld"
    = Some (JStr "1200") /\
  get_prop (DocAI.extractGenericTaxData federal_withheld_doc) "taxWithheld"
    = Some (JStr "1200").
Proof.
  split; [|split; vm_compute; reflexivity].
  intros fullText dataObject field label value Hf. split.
  - intros k Hk. split; [now apply first_matching_key_spec|].
    unfold DocAI.generic_field_step. rewrite Hf, Hk. apply get_set_prop.
  - intros Hnone. unfold DocAI.generic_field_step. rewrite Hf.
    destruct (DocAI.first_matching_key _ dataObject) as [k|] eqn:Hk; [|reflexivity].
    apply first_matching_key_spec in Hk as (pre & v & post & E & Hm & _).
    subst dataObject. rewrite forallb_app in Hnone. simpl in Hnone.
    rewrite Hm in Hnone. rewrite andb_false_r in Hnone. discriminate.
Qed.

(** ** Custom what-if scenarios *)

(** C8: for whatever implementation of the tax library, each custom
    scenario's row recomputes the comparison with itemized deductions equal
    to the (clamped) current itemized total plus the scenario's
    additionalAmount, takes the liability of the recommended method, and
    reports savings = baseline liability (the first base row's, 0 if none)
    minus that liability; AGI and the itemized total are clamped to
    non-negative, and the income handed to the library is at least 50000,
    so an AGI of 0 never reaches it. *)
Theorem scenario_savings :
  forall (Dependent : Type) cdc (BaseRow : Type) (btl : BaseRow -> Q) ctis
         (agi cur : Q) (fs : string) (deps : list Dependent)
         (scs : list Scenario.CustomScenario),
    let '(base, rows) := Scenario.calculations Dependent cdc BaseRow btl ctis
                           agi cur fs deps scs in
    base = ctis (Scenario.minIncomeForCalculation agi) (Scenario.safeFilingStatus fs)
             (Scenario.safe cur) deps /\
    length rows = length scs /\
    (forall i sc, nth_error scs i = Some sc ->
       exists row, nth_error rows i = Some row /\
         let cmp := cdc (Scenario.minIncomeForCalculation agi) (Scenario.safeFilingStatus fs)
                      (Scenario.safe cur + Scenario.additionalAmount sc) deps in
         Scenario.itemizedDeductions row = Scenario.safe cur + Scenario.additionalAmount sc /\
         Scenario.taxLiability row
           = (if String.eqb (Scenario.recommendedMethod cmp) "itemized"
              then Scenario.itemizedTaxLiability cmp
              else Scenario.standardTaxLiability cmp) /\
         Scenario.savings row
           = (match base with b :: _ => btl b | [] => 0 end) - Scenario.taxLiability row) /\
    0 <= Scenario.safe agi /\ 0 <= Scenario.safe cur /\
    50000 <= Scenario.minIncomeForCalculation agi.
Proof.
  intros Dependent cdc BaseRow btl ctis agi cur fs deps scs.
  unfold Scenario.calculations.
  split; [reflexivity|]. split; [apply length_map|].
  split; [|split; [apply Q.le_max_l|split; [apply Q.le_max_l|apply Q.le_max_r]]].
  intros i sc Hi. eexists. split.
  - rewrite nth_error_map, Hi. reflexivity.
  - simpl. split; [reflexivity|split; reflexivity].
Qed.

(** ** The processing route *)

Lemma find_doc_exists (p : Db.Doc -> bool) id docs od :
  find (fun x => String.eqb (Db.doc_id x) id && p x) docs = Some od ->
  existsb (fun x => String.eqb (Db.doc_id x) id) docs = true.
Proof.
  induction docs as [|x docs IH]; simpl; [discriminate|].
  destruct (String.eqb (Db.doc_id x) id) eqn:E; simpl; [reflexivity|].
  exact IH.
Qed.

Lemma updated_exists id id' st f s :
  (forall x, Db.doc_id (f x) = Db.doc_id x) ->
  existsb (fun x => String.eqb (Db.doc_id x) id')
    (Db.documents (Db.db (Db.updated_state id st f s)))
  = existsb (fun x => String.eqb (Db.doc_id x) id') (Db.documents (Db.db s)).
Proof.
  intros Hf. unfold Db.updated_state. simpl.
  induction (Db.documents (Db.db s)) as [|x docs IH]; simpl; [reflexivity|].
  rewrite IH. destruct (String.eqb (Db.doc_id x) id); [rewrite Hf|]; reflexivity.
Qed.

Lemma find_doc_updated id st f s :
  (forall x, Db.doc_id (f x) = Db.doc_id x) ->
  Db.find_doc id (Db.db (Db.updated_state id st f s)) = option_map f (Db.find_doc id (Db.db s)).
Proof.
  intros Hf. unfold Db.find_doc, Db.updated_state. simpl.
  induction (Db.documents (Db.db s)) as [|x docs IH]; simpl; [reflexivity|].
  destruct (String.eqb (Db.doc_id x) id) eqn:E; simpl.
  - rewrite Hf, E. reflexivity.
  - rewrite E. exact IH.
Qed.

Lemma set_status_id st x : Db.doc_id (Db.set_status st x) = Db.doc_id x.
Proof. reflexivity. Qed.

Lemma set_completed_id o e x : Db.doc_id (Db.set_completed o e x) = Db.doc_id x.
Proof. reflexivity. Qed.

Lemma set_status_twice st st' x : Db.set_status st (Db.set_status st' x) = Db.set_status st x.
Proof. destruct x; reflexivity. Qed.

Lemma POST_found nts jp w id s mail u od :
  Route.session w = Some mail ->
  Db.findUser mail s = (Ok (Some u), s) ->
  Db.findOwnedDocument id (Db.user_id u) s = (Ok (Some od), s) ->
  Route.POST nts jp w id s =
  match Route.extract nts jp w od with
  | Ok x => (Ok (Route.StreamResponse x),
             Db.updated_state id Db.PROCESSING (Db.set_status Db.PROCESSING) s)
  | Throw _ => (Ok generic_500,
                Db.updated_state id Db.FAILED (Db.set_status Db.FAILED)
                  (Db.updated_state id Db.PROCESSING (Db.set_status Db.PROCESSING) s))
  end.
Proof.
  intros Hs Hu Hd.
  assert (Hex : existsb (fun x => String.eqb (Db.doc_id x) id) (Db.documents (Db.db s)) = true).
  { unfold Db.findOwnedDocument in Hd. injection Hd as Hd.
    exact (find_doc_exists _ id _ od Hd). }
  cbv [Route.POST Db.try_catch Db.bind Db.ret].
  rewrite Hs, Hu, Hd.
  unfold Db.update_document at 1. rewrite Hex.
  unfold Db.lift. destruct (Route.extract nts jp w od); [reflexivity|].
  unfold Db.update_document.
  rewrite (updated_exists _ _ _ _ _ (set_status_id _)), Hex. reflexivity.
Qed.

Lemma POST_not_found nts jp w id s :
  (Route.session w = None \/
   (exists mail, Route.session w = Some mail /\ Db.findUser mail s = (Ok None, s)) \/
   (exists mail u, Route.session w = Some mail /\ Db.findUser mail s = (Ok (Some u), s) /\
      Db.findOwnedDocument id (Db.user_id u) s = (Ok None, s))) ->
  exists code b, Route.POST nts jp w id s = (Ok (Route.JsonResponse code b), s) /\
    (code = 401 \/ code = 404)%Z.
Proof.
  cbv [Route.POST Db.try_catch Db.bind Db.ret].
  intros [Hs | [(mail & Hs & Hu) | (mail & u & Hs & Hu & Hd)]].
  - rewrite Hs. eauto.
  - rewrite Hs, Hu. eauto.
  - rewrite Hs, Hu, Hd. eauto.
Qed.

Lemma enqueue_keeps w b : keeps_db (Route.enqueue w b).
Proof. intros s. unfold Route.enqueue. destruct (Route.cancelled w s); split; reflexivity. Qed.

Lemma close_keeps w : keeps_db (Route.close w).
Proof. intros s. unfold Route.close. destruct (Route.cancelled w s); split; reflexivity. Qed.

Lemma controller_error_keeps w e : keeps_db (Route.controller_error w e).
Proof.
  intros s. unfold Route.controller_error. destruct (Route.cancelled w s); split; reflexivity.
Qed.

Lemma enqueue_all_keeps w l : keeps_db (Route.enqueue_all w l).
Proof.
  induction l as [|b l IH]; intros s; simpl; [split; reflexivity|].
  unfold Db.bind. destruct (Route.enqueue w b s) as [r s1] eqn:E.
  destruct (enqueue_keeps w b s) as [H1 H2]. rewrite E in H1, H2. simpl in H1, H2.
  destruct r; simpl; [|split; assumption].
  destruct (IH s1) as [H3 H4]. rewrite H3, H4. split; assumption.
Qed.

Lemma enqueue_all_no_cancel w l s :
  Route.cancelAfter w = None ->
  Route.enqueue_all w l s
  = (Ok tt, {| Db.db := Db.db s; Db.statusLog := Db.statusLog s;
               Db.emitted := (Db.emitted s ++ map Db.Enq l)%list |}).
Proof.
  intros Hc. revert s. induction l as [|b l IH]; intros s; simpl.
  - rewrite app_nil_r. destruct s; reflexivity.
  - unfold Db.bind, Route.enqueue, Route.cancelled. rewrite Hc. rewrite IH.
    simpl. rewrite <- app_assoc. reflexivity.
Qed.

Lemma find_doc_some id d :
  existsb (fun x => String.eqb (Db.doc_id x) id) (Db.documents d) = true ->
  exists x, Db.find_doc id d = Some x.
Proof.
  unfold Db.find_doc. induction (Db.documents d) as [|y ys IH]; simpl; [discriminate|].
  destruct (String.eqb (Db.doc_id y) id); simpl; eauto.
Qed.

(** The three outcomes of the handler. *)
Lemma POST_cases nts jp w id s :
  (exists code b, Route.POST nts jp w id s = (Ok (Route.JsonResponse code b), s) /\
     (code = 401 \/ code = 404)%Z) \/
  (exists od,
     existsb (fun x => String.eqb (Db.doc_id x) id) (Db.documents (Db.db s)) = true /\
     Route.POST nts jp w id s =
     match Route.extract nts jp w od with
     | Ok x => (Ok (Route.StreamResponse x),
                Db.updated_state id Db.PROCESSING (Db.set_status Db.PROCESSING) s)
     | Throw _ => (Ok generic_500,
                   Db.updated_state id Db.FAILED (Db.set_status Db.FAILED)
                     (Db.updated_state id Db.PROCESSING (Db.set_status Db.PROCESSING) s))
     end).
Proof.
  destruct (Route.session w) as [mail|] eqn:Hs.
  2:{ left. apply POST_not_found. left. exact Hs. }
  destruct (find (fun u => String.eqb (Db.email u) mail) (Db.users (Db.db s))) as [u|] eqn:Hu.
  2:{ left. apply POST_not_found. right; left. exists mail. split; [exact Hs|].
      unfold Db.findUser. rewrite Hu. reflexivity. }
  destruct (find (fun x => String.eqb (Db.doc_id x) id
                           && Db.owns (Db.db s) (Db.user_id u) (Db.taxReturnId x))
                 (Db.documents (Db.db s))) as [od|] eqn:Hd.
  - right. exists od. split; [exact (find_doc_exists _ id _ od Hd)|].
    apply (POST_found nts jp w id s mail u od Hs).
    + unfold Db.findUser. rewrite Hu. reflexivity.
    + unfold Db.findOwnedDocument. rewrite Hd. reflexivity.
  - left. apply POST_not_found. right; right. exists mail, u. split; [exact Hs|].
    split; [unfold Db.findUser; rewrite Hu; reflexivity|].
    unfold Db.findOwnedDocument. rewrite Hd. reflexivity.
Qed.

Lemma db_updated_ext id st f s1 s2 :
  Db.db s1 = Db.db s2 ->
  Db.db (Db.updated_state id st f s1) = Db.db (Db.updated_state id st f s2).
Proof. intros H. unfold Db.updated_state. simpl. rewrite H. reflexivity. Qed.

(** The three endings of [start] on an existing row: COMPLETED (the
    [ocrText] value accepted), FAILED alone (the chunks interrupted or the
    [ocrText] value rejected), or COMPLETED then FAILED (the end marker or
    the close interrupted). *)
Lemma start_cases nts w id x s :
  existsb (fun y => String.eqb (Db.doc_id y) id) (Db.documents (Db.db s)) = true ->
  let s' := snd (Route.start nts w id x s) in
  (exists o, Db.nullable_string (DocAI.xocrText x) = Ok o /\
     Db.statusLog s' = (Db.statusLog s ++ [(id, Db.COMPLETED)])%list /\
     Db.db s' = Db.db (Db.updated_state id Db.COMPLETED (Db.set_completed o x) s)) \/
  (Db.statusLog s' = (Db.statusLog s ++ [(id, Db.FAILED)])%list /\
   Db.db s' = Db.db (Db.updated_state id Db.FAILED (Db.set_status Db.FAILED) s)) \/
  (exists o, Db.nullable_string (DocAI.xocrText x) = Ok o /\
     Db.statusLog s' = (Db.statusLog s ++ [(id, Db.COMPLETED); (id, Db.FAILED)])%list /\
     Db.db s' = Db.db (Db.updated_state id Db.FAILED (Db.set_status Db.FAILED)
                         (Db.updated_state id Db.COMPLETED (Db.set_completed o x) s))).
Proof.
  intros Hex s'.
  assert (Hfail : forall e s1,
    existsb (fun y => String.eqb (Db.doc_id y) id) (Db.documents (Db.db s1)) = true ->
    let s2 := snd (Db.bind (Db.update_document id Db.FAILED (Db.set_status Db.FAILED))
                           (fun _ => Route.controller_error w e) s1) in
    Db.statusLog s2 = (Db.statusLog s1 ++ [(id, Db.FAILED)])%list /\
    Db.db s2 = Db.db (Db.updated_state id Db.FAILED (Db.set_status Db.FAILED) s1)).
  { intros e s1 Hx s2. unfold s2, Db.bind, Db.update_document. rewrite Hx.
    destruct (controller_error_keeps w e
                (Db.updated_state id Db.FAILED (Db.set_status Db.FAILED) s1)) as [D L].
    split; [exact L|exact D]. }
  unfold s', Route.start, Db.try_catch, Db.bind.
  destruct (Route.enqueue_all w _ s) as [r1 s1] eqn:E1.
  destruct (enqueue_all_keeps w (map (Route.event nts) (Route.chunks (Route.jsonResponse nts x))) s)
    as [D1 L1].
  rewrite E1 in D1, L1. cbn [snd] in D1, L1.
  assert (Hex1 : existsb (fun y => String.eqb (Db.doc_id y) id) (Db.documents (Db.db s1)) = true).
  { rewrite D1. exact Hex. }
  destruct r1 as [[]|e].
  2:{ destruct (Hfail e s1 Hex1) as [L D]. unfold Db.bind in L, D.
      right; left. rewrite L, D, L1. split; [reflexivity|]. apply db_updated_ext, D1. }
  unfold Db.update_completed.
  destruct (Db.nullable_string (DocAI.xocrText x)) as [o|e] eqn:Hn.
  2:{ destruct (Hfail e s1 Hex1) as [L D]. unfold Db.bind in L, D.
      right; left. rewrite L, D, L1. split; [reflexivity|]. apply db_updated_ext, D1. }
  assert (U : Db.update_document id Db.COMPLETED (Db.set_completed o x) s1
              = (Ok tt, Db.updated_state id Db.COMPLETED (Db.set_completed o x) s1))
    by (unfold Db.update_document; rewrite Hex1; reflexivity).
  rewrite U. cbv beta iota zeta.
  set (s2 := Db.updated_state id Db.COMPLETED (Db.set_completed o x) s1).
  assert (D2 : Db.db s2 = Db.db (Db.updated_state id Db.COMPLETED (Db.set_completed o x) s)).
  { apply db_updated_ext, D1. }
  assert (L2 : Db.statusLog s2 = (Db.statusLog s ++ [(id, Db.COMPLETED)])%list).
  { unfold s2, Db.updated_state. simpl. rewrite L1. reflexivity. }
  assert (Hex2 : existsb (fun y => String.eqb (Db.doc_id y) id) (Db.documents (Db.db s2)) = true).
  { unfold s2. rewrite updated_exists by apply set_completed_id. exact Hex1. }
  destruct (Route.enqueue w Route.done_event s2) as [r3 s3] eqn:E3.
  destruct (enqueue_keeps w Route.done_event s2) as [D3 L3].
  rewrite E3 in D3, L3. cbn [snd] in D3, L3.
  destruct r3 as [[]|e]; cbv beta iota zeta.
  2:{ assert (Hex3 : existsb (fun y => String.eqb (Db.doc_id y) id)
                       (Db.documents (Db.db s3)) = true) by (rewrite D3; exact Hex2).
      destruct (Hfail e s3 Hex3) as [L D]. unfold Db.bind in L, D.
      right; right. exists o. split; [reflexivity|]. cbv beta iota zeta.
      rewrite L, D, L3, L2, <- app_assoc. split; [reflexivity|].
      apply db_updated_ext. rewrite D3. exact D2. }
  destruct (Route.close w s3) as [r4 s4] eqn:E4.
  destruct (close_keeps w s3) as [D4 L4].
  rewrite E4 in D4, L4. cbn [snd] in D4, L4.
  destruct r4 as [[]|e]; cbv beta iota zeta.
  - left. exists o. cbn [snd]. split; [reflexivity|].
    rewrite L4, L3, L2, D4, D3, D2. split; reflexivity.
  - assert (Hex4 : existsb (fun y => String.eqb (Db.doc_id y) id)
                     (Db.documents (Db.db s4)) = true) by (rewrite D4, D3; exact Hex2).
    destruct (Hfail e s4 Hex4) as [L D]. unfold Db.bind in L, D.
    right; right. exists o. split; [reflexivity|]. cbv beta iota zeta.
    rewrite L, D, L4, L3, L2, <- app_assoc. split; [reflexivity|].
    apply db_updated_ext. rewrite D4, D3. exact D2.
Qed.

(** A stream read to the end: every chunk; then, with the [ocrText] value
    accepted, one COMPLETED write, the end marker and the close, and with
    it rejected, one FAILED write and the stream errored. *)
Lemma start_no_cancel nts w id x s :
  Route.cancelAfter w = None ->
  existsb (fun y => String.eqb (Db.doc_id y) id) (Db.documents (Db.db s)) = true ->
  Route.start nts w id x s =
  match Db.nullable_string (DocAI.xocrText x) with
  | Ok o =>
    (Ok tt,
     {| Db.db := Db.db (Db.updated_state id Db.COMPLETED (Db.set_completed o x) s);
        Db.statusLog := (Db.statusLog s ++ [(id, Db.COMPLETED)])%list;
        Db.emitted := (Db.emitted s
                       ++ map Db.Enq (map (Route.event nts)
                                        (Route.chunks (Route.jsonResponse nts x)))
                       ++ [Db.Enq Route.done_event; Db.Closed])%list |})
  | Throw e =>
    (Ok tt,
     {| Db.db := Db.db (Db.updated_state id Db.FAILED (Db.set_status Db.FAILED) s);
        Db.statusLog := (Db.statusLog s ++ [(id, Db.FAILED)])%list;
        Db.emitted := (Db.emitted s
                       ++ map Db.Enq (map (Route.event nts)
                                        (Route.chunks (Route.jsonResponse nts x)))
                       ++ [Db.Errored e])%list |})
  end.
Proof.
  intros Hc Hex.
  unfold Route.start, Db.try_catch, Db.bind.
  rewrite enqueue_all_no_cancel by exact Hc.
  unfold Db.update_completed.
  destruct (Db.nullable_string (DocAI.xocrText x)) as [o|e].
  - unfold Db.update_document. cbn [Db.db Db.statusLog Db.emitted]. rewrite Hex.
    unfold Route.enqueue, Route.close, Route.cancelled. rewrite Hc.
    unfold Route.emit, Db.updated_state. cbn [Db.db Db.statusLog Db.emitted].
    rewrite <- !app_assoc. reflexivity.
  - unfold Db.update_document. cbn [Db.db Db.statusLog Db.emitted]. rewrite Hex.
    unfold Route.controller_error, Route.cancelled. rewrite Hc.
    unfold Route.emit, Db.updated_state. cbn [Db.db Db.statusLog Db.emitted].
    rewrite <- !app_assoc. reflexivity.
Qed.

Lemma set_completed_status o e st x :
  Db.set_completed o e (Db.set_status st x) = Db.set_completed o e x.
Proof. destruct x; reflexivity. Qed.

Lemma set_status_completed_status st o e st' x :
  Db.set_status st (Db.set_completed o e (Db.set_status st' x))
  = Db.set_status st (Db.set_completed o e x).
Proof. destruct x; reflexivity. Qed.

(** C3 (counterexample): re-processing a COMPLETED document whose provider
    call fails leaves it FAILED with the extractedData of the earlier run. *)
Lemma failed_attempt_keeps_extractedData :
  let (r, s') := Route.attempt num_string no_parse (llm_world failed_reply None) "d1"
                   (owned_state completed_doc) in
  r = Ok generic_500 /\
  option_map Db.processingStatus (Db.find_doc "d1" (Db.db s')) = Some Db.FAILED /\
  option_map Db.extractedData (Db.find_doc "d1" (Db.db s')) = Some (Some earlier_result).
Proof. vm_compute. repeat split. Qed.

(** The rows and the status writes of one attempt, case by case. *)
Lemma attempt_status_cases nts jp w id s r s' :
  Route.attempt nts jp w id s = (r, s') ->
  exists L, Db.statusLog s' = (Db.statusLog s ++ map (pair id) L)%list /\
  ((L = [] /\ Db.db s' = Db.db s /\
    exists code b, r = Ok (Route.JsonResponse code b) /\ (code = 401 \/ code = 404)%Z) \/
   exists d, Db.find_doc id (Db.db s) = Some d /\
   ((r = Ok generic_500 /\ L = [Db.PROCESSING; Db.FAILED] /\
     Db.find_doc id (Db.db s') = Some (Db.set_status Db.FAILED d)) \/
    exists x, r = Ok (Route.StreamResponse x) /\
     ((L = [Db.PROCESSING; Db.FAILED] /\
       Db.find_doc id (Db.db s') = Some (Db.set_status Db.FAILED d)) \/
      (exists o, Db.nullable_string (DocAI.xocrText x) = Ok o /\
       ((L = [Db.PROCESSING; Db.COMPLETED] /\
         Db.find_doc id (Db.db s') = Some (Db.set_completed o x d)) \/
        (L = [Db.PROCESSING; Db.COMPLETED; Db.FAILED] /\
         Db.find_doc id (Db.db s')
         = Some (Db.set_status Db.FAILED (Db.set_completed o x d)))))) /\
     (Route.cancelAfter w = None ->
      match Db.nullable_string (DocAI.xocrText x) with
      | Ok o => L = [Db.PROCESSING; Db.COMPLETED] /\
                Db.find_doc id (Db.db s') = Some (Db.set_completed o x d)
      | Throw _ => L = [Db.PROCESSING; Db.FAILED] /\
                   Db.find_doc id (Db.db s') = Some (Db.set_status Db.FAILED d)
      end))).
Proof.
  intros H. unfold Route.attempt in H.
  destruct (POST_cases nts jp w id s) as [(code & b & HP & Hc) | (od & Hex & HP)];
    rewrite HP in H.
  - injection H as <- <-. exists []. rewrite app_nil_r. split; [reflexivity|].
    left. eauto 6.
  - destruct (find_doc_some id (Db.db s) Hex) as [d Hd].
    destruct (Route.extract nts jp w od) as [x|e].
    + injection H as <- <-.
      set (s1 := Db.updated_state id Db.PROCESSING (Db.set_status Db.PROCESSING) s).
      assert (Hex1 : existsb (fun y => String.eqb (Db.doc_id y) id)
                       (Db.documents (Db.db s1)) = true).
      { unfold s1. rewrite updated_exists by apply set_status_id. exact Hex. }
      assert (Hd1 : Db.find_doc id (Db.db s1) = Some (Db.set_status Db.PROCESSING d)).
      { unfold s1. rewrite find_doc_updated by apply set_status_id. rewrite Hd. reflexivity. }
      assert (HL1 : Db.statusLog s1 = (Db.statusLog s ++ [(id, Db.PROCESSING)])%list).
      { reflexivity. }
      assert (Hdb : forall s2 s3, Db.db s2 = Db.db s3 ->
                      Db.find_doc id (Db.db s2) = Db.find_doc id (Db.db s3)).
      { intros s2 s3 E. rewrite E. reflexivity. }
      destruct (start_cases nts w id x s1 Hex1)
        as [(o & Hn & L & D) | [(L & D) | (o & Hn & L & D)]].
      * exists [Db.PROCESSING; Db.COMPLETED]. split.
        { rewrite L, HL1, <- app_assoc. reflexivity. }
        right. exists d. split; [exact Hd|]. right. exists x.
        split; [reflexivity|].
        assert (F : Db.find_doc id (Db.db (snd (Route.start nts w id x s1)))
                    = Some (Db.set_completed o x d)).
        { rewrite (Hdb _ _ D), find_doc_updated by apply set_completed_id.
          rewrite Hd1. simpl. rewrite set_completed_status. reflexivity. }
        split.
        { right. exists o. split; [exact Hn|]. left. split; [reflexivity|exact F]. }
        intros _. rewrite Hn. split; [reflexivity|exact F].
      * exists [Db.PROCESSING; Db.FAILED]. split.
        { rewrite L, HL1, <- app_assoc. reflexivity. }
        right. exists d. split; [exact Hd|]. right. exists x.
        split; [reflexivity|].
        assert (F : Db.find_doc id (Db.db (snd (Route.start nts w id x s1)))
                    = Some (Db.set_status Db.FAILED d)).
        { rewrite (Hdb _ _ D), find_doc_updated by apply set_status_id.
          rewrite Hd1. simpl. rewrite set_status_twice. reflexivity. }
        split; [left; split; [reflexivity|exact F]|].
        intros Hc. rewrite (start_no_cancel nts w id x s1 Hc Hex1) in L.
        destruct (Db.nullable_string (DocAI.xocrText x)) as [o|e].
        -- cbn [snd Db.statusLog] in L. apply app_inv_head in L. discriminate.
        -- split; [reflexivity|exact F].
      * exists [Db.PROCESSING; Db.COMPLETED; Db.FAILED]. split.
        { rewrite L, HL1, <- app_assoc. reflexivity. }
        right. exists d. split; [exact Hd|]. right. exists x.
        split; [reflexivity|].
        assert (F : Db.find_doc id (Db.db (snd (Route.start nts w id x s1)))
                    = Some (Db.set_status Db.FAILED (Db.set_completed o x d))).
        { rewrite (Hdb _ _ D), find_doc_updated by apply set_status_id.
          rewrite find_doc_updated by apply set_completed_id.
          rewrite Hd1. simpl. rewrite set_status_completed_status. reflexivity. }
        split.
        { right. exists o. split; [exact Hn|]. right. split; [reflexivity|exact F]. }
        intros Hc. rewrite (start_no_cancel nts w id x s1 Hc Hex1), Hn in L.
        cbn [snd Db.statusLog] in L. apply app_inv_head in L. discriminate.
    + injection H as <- <-. exists [Db.PROCESSING; Db.FAILED]. split.
      { unfold Db.updated_state. cbn [Db.statusLog]. rewrite <- app_assoc. reflexivity. }
      right. exists d. split; [exact Hd|]. left. split; [reflexivity|].
      split; [reflexivity|].
      rewrite !find_doc_updated by apply set_status_id.
      rewrite Hd. simpl. rewrite set_status_twice. reflexivity.
Qed.

(** C3 (amended): within one attempt on document [id] the status writes
    are none (a 401/404 answer, database untouched), or PROCESSING followed
    by FAILED, by COMPLETED, or by COMPLETED then FAILED. [d] is the row
    before the attempt. When extraction throws, the caller gets only the
    generic 500 body and the row ends as [d] with status FAILED. When the
    handler answers with a stream, the row ends as [d] with status FAILED,
    as [d] completed with the result (its [ocrText] value accepted by the
    column's validation) or as that completed row with status FAILED;
    [extractedData] is never cleared: a row that had extracted data before
    the attempt still has some after it. When the stream is read to the end
    the writes are PROCESSING then COMPLETED if the [ocrText] value is
    accepted, and PROCESSING then FAILED if it is rejected. *)
Theorem attempt_status_flow nts jp w id s r s' :
  Route.attempt nts jp w id s = (r, s') ->
  (exists L, Db.statusLog s' = (Db.statusLog s ++ map (pair id) L)%list /\
  ((L = [] /\ Db.db s' = Db.db s /\
    exists code b, r = Ok (Route.JsonResponse code b) /\ (code = 401 \/ code = 404)%Z) \/
   exists d, Db.find_doc id (Db.db s) = Some d /\
   ((r = Ok generic_500 /\ L = [Db.PROCESSING; Db.FAILED] /\
     Db.find_doc id (Db.db s') = Some (Db.set_status Db.FAILED d)) \/
    exists x, r = Ok (Route.StreamResponse x) /\
     ((L = [Db.PROCESSING; Db.FAILED] /\
       Db.find_doc id (Db.db s') = Some (Db.set_status Db.FAILED d)) \/
      (exists o, Db.nullable_string (DocAI.xocrText x) = Ok o /\
       ((L = [Db.PROCESSING; Db.COMPLETED] /\
         Db.find_doc id (Db.db s') = Some (Db.set_completed o x d)) \/
        (L = [Db.PROCESSING; Db.COMPLETED; Db.FAILED] /\
         Db.find_doc id (Db.db s')
         = Some (Db.set_status Db.FAILED (Db.set_completed o x d)))))) /\
     (Route.cancelAfter w = None ->
      match Db.nullable_string (DocAI.xocrText x) with
      | Ok o => L = [Db.PROCESSING; Db.COMPLETED] /\
                Db.find_doc id (Db.db s') = Some (Db.set_completed o x d)
      | Throw _ => L = [Db.PROCESSING; Db.FAILED] /\
                   Db.find_doc id (Db.db s') = Some (Db.set_status Db.FAILED d)
      end)))) /\
  (forall d d', Db.find_doc id (Db.db s) = Some d -> Db.find_doc id (Db.db s') = Some d' ->
     Db.extractedData d <> None -> Db.extractedData d' <> None).
Proof.
  intros H. destruct (attempt_status_cases nts jp w id s r s' H) as [L [HL C]].
  split; [exists L; split; [exact HL|exact C]|].
  intros d d' Hd Hd' Hx.
  destruct C as [(_ & Edb & _) | (d0 & Hd0 & C)].
  - rewrite Edb, Hd in Hd'. injection Hd' as <-. exact Hx.
  - rewrite Hd in Hd0. injection Hd0 as <-.
    destruct C as [(_ & _ & F) | (x & _ & [[(_ & F) | (o & _ & [(_ & F)|(_ & F)])] _])];
      rewrite F in Hd'; injection Hd' as <-; cbn; first [exact Hx | discriminate].
Qed.

(** Chunking. *)
Lemma str_app_assoc a b c : ((a ++ b) ++ c = a ++ b ++ c)%string.
Proof. induction a as [|x a IH]; simpl; [reflexivity|]. rewrite IH. reflexivity. Qed.

Lemma list_ascii_of_string_app a b :
  list_ascii_of_string (a ++ b) = (list_ascii_of_string a ++ list_ascii_of_string b)%list.
Proof. induction a as [|c a IH]; simpl; [reflexivity|]. rewrite IH. reflexivity. Qed.


Lemma list_ascii_of_concat ss :
  list_ascii_of_string (String.concat "" ss) = flat_map list_ascii_of_string ss.
Proof.
  induction ss as [|a ss IH]; [reflexivity|].
  destruct ss as [|b ss].
  - simpl. rewrite app_nil_r. reflexivity.
  - change (String.concat "" (a :: b :: ss)) with (a ++ "" ++ String.concat "" (b :: ss)).
    rewrite list_ascii_of_string_app. change ("" ++ ?t) with t. rewrite IH. reflexivity.
Qed.

Lemma slices_flat fuel i l :
  (length l <= i + fuel)%nat ->
  flat_map list_ascii_of_string (Route.slices fuel i l) = skipn i l.
Proof.
  revert i. induction fuel as [|f IH]; intros i Hl; cbn [Route.slices].
  - rewrite skipn_all2 by lia. reflexivity.
  - destruct (Nat.ltb_spec i (length l)) as [Hi|Hi]; cbn [flat_map].
    + rewrite list_ascii_of_string_of_list_ascii, IH by (unfold Route.chunkSize; lia).
      rewrite (Nat.add_comm i), <- skipn_skipn. apply firstn_skipn.
    + rewrite skipn_all2 by lia. reflexivity.
Qed.



Lemma chunks_concat s : String.concat "" (Route.chunks s) = s.
Proof.
  rewrite <- (string_of_list_ascii_of_string (String.concat "" _)).
  rewrite list_ascii_of_concat. unfold Route.chunks.
  rewrite slices_flat by lia. simpl. apply string_of_list_ascii_of_string.
Qed.

Lemma attempt_stream_emitted nts jp w id s x s' :
  Route.cancelAfter w = None ->
  Route.attempt nts jp w id s = (Ok (Route.StreamResponse x), s') ->
  Db.emitted s' =
  (Db.emitted s ++ map Db.Enq (map (Route.event nts)
                                 (Route.chunks (Route.jsonResponse nts x)))
   ++ match Db.nullable_string (DocAI.xocrText x) with
      | Ok _ => [Db.Enq Route.done_event; Db.Closed]
      | Throw e => [Db.Errored e]
      end)%list.
Proof.
  intros Hc H. unfold Route.attempt in H.
  destruct (POST_cases nts jp w id s) as [(code & b & HP & _) | (od & Hex & HP)];
    rewrite HP in H; [discriminate|].
  destruct (Route.extract nts jp w od) as [y|e]; [|discriminate].
  injection H as -> <-.
  rewrite start_no_cancel by
    (auto; rewrite updated_exists by apply set_status_id; exact Hex).
  destruct (Db.nullable_string (DocAI.xocrText x)); reflexivity.
Qed.




(** C9: with the file read and the chat endpoint answering, an answer that
    is not [ok] fails with the API error carrying its status; an answer
    whose body or content is not JSON fails with a syntax error; an empty
    (falsy) content fails with the no-content error. When the LLM path is
    the one taken and fails, the attempt answers the generic 500 and the
    document ends FAILED. *)
Theorem llm_failures_surface nts jp w od :
  (forall c reply, Route.readFile w (Db.filePath od) = Some c ->
     Route.llmFetch w = Some reply -> Route.ok reply = false ->
     Route.processWithLLM nts jp w od = Throw (ErrLLMApi (Route.status reply))) /\
  (forall c reply, Route.readFile w (Db.filePath od) = Some c ->
     Route.llmFetch w = Some reply -> Route.ok reply = true ->
     jp (Route.body reply) = None ->
     Route.processWithLLM nts jp w od = Throw ErrSyntax) /\
  (forall c reply result content, Route.readFile w (Db.filePath od) = Some c ->
     Route.llmFetch w = Some reply -> Route.ok reply = true ->
     Route.parse jp (Route.body reply) = Ok result ->
     Route.choice_content result = Ok content ->
     Route.truthy_opt content = false ->
     Route.processWithLLM nts jp w od = Throw ErrNoContent) /\
  (forall c reply result content, Route.readFile w (Db.filePath od) = Some c ->
     Route.llmFetch w = Some reply -> Route.ok reply = true ->
     Route.parse jp (Route.body reply) = Ok result ->
     Route.choice_content result = Ok content ->
     Route.truthy_opt content = true ->
     jp (JSON.js_String nts (match content with Some v => v | None => JNull end)) = None ->
     Route.processWithLLM nts jp w od = Throw ErrSyntax) /\
  (forall id s mail u e,
     Route.session w = Some mail ->
     Db.findUser mail s = (Ok (Some u), s) ->
     Db.findOwnedDocument id (Db.user_id u) s = (Ok (Some od), s) ->
     (Route.useDocumentAI w = false \/ exists e', Route.documentAI w od = Throw e') ->
     Route.processWithLLM nts jp w od = Throw e ->
     exists s', Route.attempt nts jp w id s = (Ok generic_500, s') /\
       option_map Db.processingStatus (Db.find_doc id (Db.db s')) = Some Db.FAILED).
Proof.
  split; [|split; [|split; [|split]]].
  - intros c reply Hr Hf Hok. unfold Route.processWithLLM, fbind.
    rewrite Hr, Hf. cbv beta iota. rewrite Hok. reflexivity.
  - intros c reply Hr Hf Hok Hj. unfold Route.processWithLLM, fbind.
    rewrite Hr, Hf. cbv beta iota. rewrite Hok. cbv beta iota.
    unfold Route.parse at 1. rewrite Hj. reflexivity.
  - intros c reply result content Hr Hf Hok Hp Hc Ht.
    unfold Route.processWithLLM, fbind.
    rewrite Hr, Hf. cbv beta iota. rewrite Hok. cbv beta iota.
    rewrite Hp, Hc. cbv beta iota. rewrite Ht. reflexivity.
  - intros c reply result content Hr Hf Hok Hp Hc Ht Hj.
    unfold Route.processWithLLM, fbind.
    rewrite Hr, Hf. cbv beta iota. rewrite Hok. cbv beta iota.
    rewrite Hp, Hc. cbv beta iota. rewrite Ht. cbv beta iota.
    unfold Route.parse. rewrite Hj. reflexivity.
  - intros id s mail u e Hs Hu Hd Hsel He.
    assert (Hx : Route.extract nts jp w od = Throw e).
    { unfold Route.extract.
      destruct Hsel as [-> | [e' He']]; [exact He|].
      destruct (Route.useDocumentAI w); [rewrite He'|]; exact He. }
    assert (Hex : existsb (fun x => String.eqb (Db.doc_id x) id)
                    (Db.documents (Db.db s)) = true).
    { unfold Db.findOwnedDocument in Hd. injection Hd as Hd.
      exact (find_doc_exists _ id _ od Hd). }
    destruct (find_doc_some id (Db.db s) Hex) as [d Hfd].
    unfold Route.attempt. rewrite (POST_found nts jp w id s mail u od Hs Hu Hd), Hx.
    eexists. split; [reflexivity|].
    rewrite !find_doc_updated by apply set_status_id. rewrite Hfd. reflexivity.
Qed.

(** * Witnesses *)

Lemma getProcessorName_routing_witness :
  DocAI.getProcessorName gcp_config UNKNOWN
    = Ok (DocAI.processorPath gcp_config (DocAI.w2ProcessorId gcp_config)) /\
  DocAI.processDocument file_system answering_client gcp_config "f.pdf" FORM_1099_INT
    = Throw (ErrNo1099Processor FORM_1099_INT).
Proof.
  split.
  - apply (proj1 (getProcessorName_routing gcp_env gcp_config UNKNOWN
                    file_system answering_client "f.pdf")).
    left; reflexivity.
  - apply (proj2 (getProcessorName_routing gcp_env gcp_config FORM_1099_INT
                    file_system answering_client "f.pdf")).
    + vm_compute. reflexivity.
    + left; reflexivity.
    + reflexivity.
Defined.

Lemma provider_selection_witness :
  Route.extract num_string sample_parse (llm_world (ok_reply "resp") None) pending_doc
    = Route.processWithLLM num_string sample_parse (llm_world (ok_reply "resp") None)
        pending_doc /\
  Route.extract num_string sample_parse (gcp_world failing_client (ok_reply "resp")) pending_doc
    = Route.processWithLLM num_string sample_parse
        (gcp_world failing_client (ok_reply "resp")) pending_doc /\
  Route.extract num_string sample_parse (gcp_world answering_client failed_reply) pending_doc
    = Ok (result_of earlier_result
            (Route.documentAI (gcp_world answering_client failed_reply) pending_doc)).
Proof.
  destruct (provider_selection num_string sample_parse (llm_world (ok_reply "resp") None)
              pending_doc) as (_ & H1 & _).
  destruct (provider_selection num_string sample_parse (gcp_world failing_client (ok_reply "resp"))
              pending_doc) as (_ & _ & H2 & _).
  destruct (provider_selection num_string sample_parse (gcp_world answering_client failed_reply)
              pending_doc) as (_ & _ & _ & H3 & _).
  split; [|split].
  - apply H1. reflexivity.
  - apply (H2 ErrDocAIClient); vm_compute; reflexivity.
  - apply H3; vm_compute; reflexivity.
Defined.

Lemma confidence_mean_or_fixed_witness :
  (exists name content d,
     DocAI.getProcessorName gcp_config W2 = Ok name /\
     file_system "f.pdf" = Some content /\
     scored_client {| DocAI.rname := name; DocAI.rcontent := content |} = Some (Some d) /\
     DocAI.xconfidence
       (result_of earlier_result
          (DocAI.processDocument file_system scored_client gcp_config "f.pdf" W2))
     == spec_mean (reported_scores d) /\
     (reported_scores d = [] ->
      DocAI.xconfidence
        (result_of earlier_result
           (DocAI.processDocument file_system scored_client gcp_config "f.pdf" W2)) = 0)) /\
  DocAI.xconfidence
    (result_of earlier_result
       (DocAI.processDocument file_system scored_client gcp_config "f.pdf" W2)) == 4 # 5 /\
  DocAI.xconfidence
    (result_of earlier_result
       (Route.processWithLLM num_string sample_parse (llm_world (ok_reply "resp") None)
          pending_doc)) = 85 # 100.
Proof.
  destruct (confidence_mean_or_fixed num_string sample_parse) as [H1 H2].
  split; [|split; [vm_compute; reflexivity|]].
  - apply (H1 file_system scored_client gcp_config "f.pdf" W2).
    vm_compute. reflexivity.
  - apply (H2 (llm_world (ok_reply "resp") None) pending_doc).
    vm_compute. reflexivity.
Defined.

Lemma generic_fuzzy_match_first_key_witness :
  get_prop (DocAI.generic_field_step "Federal income tax withheld 1200" DocAI.genericData
              (form_field 0 27 28 32)) "taxWithheld" = Some (JStr "1200").
Proof.
  apply (proj1 (proj1 generic_fuzzy_match_first_key "Federal income tax withheld 1200"
                  DocAI.genericData (form_field 0 27 28 32)
                  "Federal income tax withheld" "1200" ltac:(vm_compute; reflexivity))
                  "taxWithheld").
  vm_compute. reflexivity.
Defined.

Lemma scenario_savings_witness :
  exists row,
    nth_error (snd (Scenario.calculations unit sample_comparison Q (fun q => q) sample_base
                      60000 1000 "married" [] [sample_scenario])) 0 = Some row /\
    Scenario.savings row = 5000 - Scenario.taxLiability row.
Proof.
  pose proof (scenario_savings unit sample_comparison Q (fun q => q) sample_base
                60000 1000 "married" [] [sample_scenario]) as H.
  destruct (Scenario.calculations unit sample_comparison Q (fun q => q) sample_base
              60000 1000 "married" [] [sample_scenario]) as [base rows] eqn:E.
  destruct H as (Hb & _ & H3 & _).
  destruct (H3 0%nat sample_scenario eq_refl) as (row & Hr & _ & _ & Hs).
  exists row. split; [exact Hr|]. rewrite Hs, Hb. reflexivity.
Defined.

Lemma attempt_status_flow_witness :
  exists L,
    Db.statusLog (snd (Route.attempt num_string sample_parse (llm_world (ok_reply "resp") None)
                         "d1" (owned_state pending_doc)))
    = (Db.statusLog (owned_state pending_doc) ++ map (pair "d1") L)%list.
Proof.
  destruct (attempt_status_flow num_string sample_parse (llm_world (ok_reply "resp") None)
              "d1" (owned_state pending_doc)
              (fst (Route.attempt num_string sample_parse (llm_world (ok_reply "resp") None)
                      "d1" (owned_state pending_doc)))
              (snd (Route.attempt num_string sample_parse (llm_world (ok_reply "resp") None)
                      "d1" (owned_state pending_doc)))
              ltac:(vm_compute; reflexivity)) as [[L [HL _]] _].
  exists L. exact HL.
Defined.


Lemma llm_failures_surface_witness :
  Route.processWithLLM num_string sample_parse (llm_world failed_reply None) pending_doc
    = Throw (ErrLLMApi 503) /\
  Route.processWithLLM num_string sample_parse (llm_world (ok_reply "junk") None) pending_doc
    = Throw ErrSyntax /\
  Route.processWithLLM num_string sample_parse (llm_world (ok_reply "empty") None) pending_doc
    = Throw ErrNoContent /\
  Route.processWithLLM num_string sample_parse (llm_world (ok_reply "garbled") None) pending_doc
    = Throw ErrSyntax /\
  exists s', Route.attempt num_string sample_parse (llm_world failed_reply None) "d1"
               (owned_state pending_doc) = (Ok generic_500, s') /\
    option_map Db.processingStatus (Db.find_doc "d1" (Db.db s')) = Some Db.FAILED.
Proof.
  split; [|split; [|split; [|split]]].
  - apply (proj1 (llm_failures_surface num_string sample_parse (llm_world failed_reply None)
                    pending_doc) "file bytes" failed_reply); reflexivity.
  - apply (proj1 (proj2 (llm_failures_surface num_string sample_parse
                           (llm_world (ok_reply "junk") None) pending_doc))
             "file bytes" (ok_reply "junk")); reflexivity.
  - apply (proj1 (proj2 (proj2 (llm_failures_surface num_string sample_parse
                                  (llm_world (ok_reply "empty") None) pending_doc)))
             "file bytes" (ok_reply "empty") (chat_body "") (Some (JStr "")));
      vm_compute; reflexivity.
  - apply (proj1 (proj2 (proj2 (proj2 (llm_failures_surface num_string sample_parse
                                         (llm_world (ok_reply "garbled") None) pending_doc))))
             "file bytes" (ok_reply "garbled") (chat_body "{oops") (Some (JStr "{oops")));
      vm_compute; reflexivity.
  - apply (proj2 (proj2 (proj2 (proj2 (llm_failures_surface num_string sample_parse
                                         (llm_world failed_reply None) pending_doc))))
             "d1" (owned_state pending_doc) "a@b.c"
             {| Db.user_id := "u1"; Db.email := "a@b.c" |} (ErrLLMApi 503));
      try (vm_compute; reflexivity).
    left. reflexivity.
Defined.

(* ================================================================== *)
(** * Further properties of the code *)

(** ** From the server's stream to the widget *)

Lemma no_char_app sep a b : no_char sep (a ++ b) = no_char sep a && no_char sep b.
Proof. unfold no_char. rewrite list_ascii_of_string_app. apply forallb_app. Qed.

Lemma split_on_app sep a b :
  no_char sep a = true ->
  Client.split_on sep (a ++ String sep b) = a :: Client.split_on sep b.
Proof.
  induction a as [|c a IH]; intros H; simpl.
  - rewrite Ascii.eqb_refl. reflexivity.
  - unfold no_char in H. simpl in H. apply andb_prop in H as [H1 H2].
    destruct (Ascii.eqb c sep); [discriminate|]. rewrite IH by exact H2. reflexivity.
Qed.

Lemma escape_char_no_nl c :
  forallb (fun ch => negb (Ascii.eqb ch (ascii_of_nat 10))) (JSON.escape_char c) = true.
Proof. destruct c as [[] [] [] [] [] [] [] []]; vm_compute; reflexivity. Qed.

Lemma quote_no_nl c : no_char (ascii_of_nat 10) (JSON.quote c) = true.
Proof.
  unfold JSON.quote. unfold no_char. cbn [list_ascii_of_string forallb].
  rewrite list_ascii_of_string_app, forallb_app, list_ascii_of_string_of_list_ascii.
  simpl. rewrite andb_true_r.
  induction (list_ascii_of_string c) as [|ch l IH]; [reflexivity|].
  simpl. rewrite forallb_app, escape_char_no_nl. exact IH.
Qed.

Lemma content_json_no_nl nts c :
  no_char (ascii_of_nat 10) ("data: " ++ JSON.stringify nts (JObj [("content", JStr c)])) = true.
Proof.
  change (JSON.stringify nts (JObj [("content", JStr c)]))
    with ("{" ++ (JSON.quote "content" ++ ":" ++ JSON.quote c) ++ "}").
  rewrite !no_char_app, !quote_no_nl. reflexivity.
Qed.

Lemma event_lines nts c :
  Client.split_on (ascii_of_nat 10) (Route.event nts c)
  = ["data: " ++ JSON.stringify nts (JObj [("content", JStr c)]); ""; ""].
Proof.
  unfold Route.event. rewrite <- str_app_assoc. unfold Route.nl.
  change (String (ascii_of_nat 10) "" ++ String (ascii_of_nat 10) "")
    with (String (ascii_of_nat 10) (String (ascii_of_nat 10) "")).
  rewrite split_on_app by apply content_json_no_nl. reflexivity.
Qed.

Lemma prefix_app p x : prefix p (p ++ x) = true.
Proof.
  induction p as [|c p IH]; simpl; [destruct x; reflexivity|].
  destruct (ascii_dec c c); [exact IH|congruence].
Qed.

Lemma substring_app p x :
  String.substring (String.length p) (String.length x) (p ++ x) = x.
Proof.
  induction p as [|c p IH]; simpl; [|exact IH].
  induction x as [|c x IH]; simpl; [reflexivity|]. rewrite IH. reflexivity.
Qed.

Lemma length_app_str a b : String.length (a ++ b) = (String.length a + String.length b)%nat.
Proof. induction a as [|c a IH]; simpl; [reflexivity|]. rewrite IH. reflexivity. Qed.

Lemma js_substring_app p x :
  JS.substring (String.length p) (String.length (p ++ x)) (p ++ x) = x.
Proof.
  unfold JS.substring. rewrite length_app_str.
  replace (Nat.min (String.length p) (String.length p + String.length x))
    with (String.length p) by lia.
  rewrite Nat.min_id.
  replace (Nat.min (String.length p) (String.length p + String.length x))
    with (String.length p) by lia.
  replace (Nat.max (String.length p) (String.length p + String.length x)
           - String.length p)%nat with (String.length x) by lia.
  apply substring_app.
Qed.

Lemma process_event_line nts jp c b p st :
  jp (JSON.stringify nts (JObj [("content", JStr c)])) = Some (JObj [("content", JStr c)]) ->
  Client.process_lines nts jp (Client.split_on (ascii_of_nat 10) (Route.event nts c)) b p st
  = Client.More (b ++ c) (Nat.min 95 (p + 5))
      (Client.st_analyzing (Nat.min 95 (p + 5)) st).
Proof.
  intros Hj. rewrite event_lines.
  unfold Client.process_lines at 1. rewrite prefix_app.
  change 6%nat with (String.length "data: "). rewrite js_substring_app.
  replace (String.eqb (JSON.stringify nts (JObj [("content", JStr c)])) "[DONE]") with false
    by reflexivity.
  rewrite Hj. reflexivity.
Qed.

Lemma str_app_nil a : (a ++ "")%string = a.
Proof. induction a as [|c a IH]; simpl; [reflexivity|]. rewrite IH. reflexivity. Qed.

Lemma concat_cons_empty c cs : String.concat "" (c :: cs) = c ++ String.concat "" cs.
Proof.
  destruct cs as [|c' cs]; [|reflexivity].
  simpl. symmetry. apply str_app_nil.
Qed.

Lemma read_loop_events nts jp cs rest b p st :
  Forall (fun c => jp (JSON.stringify nts (JObj [("content", JStr c)]))
                   = Some (JObj [("content", JStr c)])) cs ->
  exists p' st',
    Client.read_loop nts jp (map (fun c => Client.Chunk (Route.event nts c)) cs ++ rest) b p st
    = Client.read_loop nts jp rest (b ++ String.concat "" cs) p' st' /\
    Client.document st' = Client.document st.
Proof.
  revert b p st. induction cs as [|c cs IH]; intros b p st Hf.
  - exists p, st. cbn [map List.app String.concat]. rewrite str_app_nil. split; reflexivity.
  - inversion Hf as [|? ? Hc Hcs]; subst.
    cbn [map List.app Client.read_loop].
    rewrite (process_event_line nts jp c b p st Hc).
    destruct (IH (b ++ c) (Nat.min 95 (p + 5))
                (Client.st_analyzing (Nat.min 95 (p + 5)) st) Hcs) as (p' & st' & E & Hd).
    exists p', st'. rewrite E, concat_cons_empty, str_app_assoc. split; [reflexivity|].
    rewrite Hd. reflexivity.
Qed.

Lemma read_loop_done nts jp buf p st :
  Client.read_loop nts jp [Client.Chunk Route.done_event; Client.EndOfStream] buf p st
  = match jp buf with
    | Some v => Client.Succeeded (Client.st_completed v st) v
    | None => Client.Thrown "Failed to parse extracted data" st
    end.
Proof. cbn. destruct (jp buf); reflexivity. Qed.

(** The widget reading the stream of a processing attempt, one read per
    enqueued chunk, rebuilds the serialized result. When the result's
    [ocrText] passes the column's validation (so the stream ends with the
    end marker) and the parent's callbacks return, it ends [completed]
    with [JSON.parse] of the whole serialized result as its extracted
    data, progress 100, the uploaded document kept, after exactly the
    upload request, the upload callback, the process request for the
    uploaded document's id and the processed callback. *)
Theorem stream_to_widget_roundtrip nts jps jpc tem em w id s x s' cw trid st f doc docid v o :
  Route.cancelAfter w = None ->
  Db.emitted s = [] ->
  Route.attempt nts jps w id s = (Ok (Route.StreamResponse x), s') ->
  Db.nullable_string (DocAI.xocrText x) = Ok o ->
  Client.file st = Some f ->
  Client.uploadReply cw = Client.Answered true doc ->
  Client.uploaded_result cw doc = Client.Returns ->
  Client.id_string nts doc = Some docid ->
  Client.processReply cw = Client.Answered true (Some (Client.reads_of (Db.emitted s') em)) ->
  Forall (fun c => jpc (JSON.stringify nts (JObj [("content", JStr c)]))
                   = Some (JObj [("content", JStr c)]))
         (Route.chunks (Route.jsonResponse nts x)) ->
  jpc (Route.jsonResponse nts x) = Some v ->
  Client.onDocumentProcessed cw v = Client.Returns ->
  let (st', evs) := Client.processDocument nts jpc tem cw trid st in
  Client.status st' = Client.Completed /\ Client.extractedData st' = Some v /\
  Client.progress st' = 100%nat /\ Client.document st' = Some doc /\
  evs = [Client.FetchUpload f trid; Client.DocumentUploaded doc;
         Client.FetchProcess ("/api/documents/" ++ docid ++ "/process");
         Client.DocumentProcessed v].
Proof.
  intros Hc He Ha Ho Hf Hu Hcb Hi Hp Hcs Hv Hpc.
  pose proof (attempt_stream_emitted nts jps w id s x s' Hc Ha) as E.
  rewrite He, Ho in E.
  assert (R : Client.reads_of (Db.emitted s') em
              = (map (fun c => Client.Chunk (Route.event nts c))
                   (Route.chunks (Route.jsonResponse nts x))
                 ++ [Client.Chunk Route.done_event; Client.EndOfStream])%list).
  { rewrite E. unfold Client.reads_of. rewrite !map_app, !map_map. reflexivity. }
  unfold Client.processDocument. rewrite Hf, Hu, Hcb. cbn [Client.thrown_message].
  rewrite Hi, Hp, R.
  destruct (read_loop_events nts jpc (Route.chunks (Route.jsonResponse nts x))
              [Client.Chunk Route.done_event; Client.EndOfStream] ""%string 50%nat
              (Client.st_extracting doc (Client.st_uploading (Client.st_upload_started st))) Hcs)
    as (p' & st'' & E2 & Hd).
  rewrite E2, read_loop_done. cbn [String.append]. rewrite chunks_concat, Hv, Hpc.
  simpl. rewrite Hd. repeat split; reflexivity.
Qed.

Lemma analyzed_from_step st0 st q :
  (50 <= q <= 95)%nat -> analyzed_from st0 st ->
  analyzed_from st0 (Client.st_analyzing q st).
Proof.
  intros Hq [-> | (q0 & _ & ->)]; right; exists q; split; auto.
Qed.

Lemma min_95_bounds p : (50 <= p <= 95)%nat -> (50 <= Nat.min 95 (p + 5) <= 95)%nat.
Proof. intros. lia. Qed.

Lemma process_lines_inv nts jp st0 lines b p st :
  (50 <= p <= 95)%nat -> analyzed_from st0 st ->
  match Client.process_lines nts jp lines b p st with
  | Client.More _ p' st' => (50 <= p' <= 95)%nat /\ analyzed_from st0 st'
  | Client.Finished st' v => exists st1, analyzed_from st0 st1 /\ st' = Client.st_completed v st1
  | Client.Failed _ st' => analyzed_from st0 st'
  end.
Proof.
  revert b p st. induction lines as [|line rest IH]; intros b p st Hp Ha; cbn [Client.process_lines].
  - auto.
  - destruct (prefix "data: " line); [|apply IH; auto].
    destruct (String.eqb _ "[DONE]").
    + destruct (jp b); eauto.
    + destruct (jp _) as [parsed|]; [|apply IH; auto].
      destruct (Client.content_string nts parsed); [|apply IH; auto].
      apply IH; [apply min_95_bounds; auto|]. apply analyzed_from_step; auto.
      apply min_95_bounds; auto.
Qed.

Lemma read_loop_inv nts jp st0 reads b p st :
  (50 <= p <= 95)%nat -> analyzed_from st0 st ->
  match Client.read_loop nts jp reads b p st with
  | Client.Stopped st' => analyzed_from st0 st'
  | Client.Succeeded st' v => exists st1, analyzed_from st0 st1 /\ st' = Client.st_completed v st1
  | Client.Thrown _ st' => analyzed_from st0 st'
  end.
Proof.
  revert b p st. induction reads as [|r rest IH]; intros b p st Hp Ha; cbn [Client.read_loop].
  - auto.
  - destruct r as [value| |msg]; auto.
    pose proof (process_lines_inv nts jp st0 (Client.split_on (ascii_of_nat 10) value) b p st Hp Ha)
      as H.
    destruct (Client.process_lines _ _ _ _ _ _) as [b' p' st'|st' v|msg st']; auto.
    destruct H; apply IH; auto.
Qed.


(** Every run of [processDocument] with a selected file ends in one of
    these states: failed before the process request (upload refused,
    [onDocumentUploaded] threw, or the document has no readable id),
    failed after it, still processing (no body, or the stream ended
    without a [[DONE]] line), or past the [[DONE]] line with its value
    stored, completed when [onDocumentProcessed] returned and failed when
    it threw. *)
Lemma processDocument_outcomes nts jp tem cw trid st f :
  Client.file st = Some f ->
  let st2 := Client.st_uploading (Client.st_upload_started st) in
  let (st', evs) := Client.processDocument nts jp tem cw trid st in
  (exists msg, evs = [Client.FetchUpload f trid] /\ st' = Client.st_error msg st2 /\
     (forall doc, Client.uploadReply cw <> Client.Answered true doc) /\
     msg = match Client.uploadReply cw with
           | Client.Rejected m => m | _ => "Failed to upload document" end) \/
  (exists doc msg, Client.uploadReply cw = Client.Answered true doc /\
     Client.thrown_message (Client.uploaded_result cw doc) = Some msg /\
     evs = [Client.FetchUpload f trid; Client.DocumentUploaded doc] /\
     st' = Client.st_error msg (Client.st_extracting doc st2)) \/
  (exists doc, Client.uploadReply cw = Client.Answered true doc /\
     Client.thrown_message (Client.uploaded_result cw doc) = None /\
     Client.id_string nts doc = None /\
     evs = [Client.FetchUpload f trid; Client.DocumentUploaded doc] /\
     st' = Client.st_error tem (Client.st_extracting doc st2)) \/
  (exists doc id, Client.uploadReply cw = Client.Answered true doc /\
     Client.thrown_message (Client.uploaded_result cw doc) = None /\
     Client.id_string nts doc = Some id /\
     let ev3 := [Client.FetchUpload f trid; Client.DocumentUploaded doc;
                 Client.FetchProcess ("/api/documents/" ++ id ++ "/process")] in
     let st3 := Client.st_extracting doc st2 in
     ((exists msg, evs = ev3 /\ st' = Client.st_error msg st3) \/
      (evs = ev3 /\ analyzed_from st3 st') \/
      (exists msg st1, evs = ev3 /\ analyzed_from st3 st1 /\ st' = Client.st_error msg st1) \/
      (exists v st1, evs = (ev3 ++ [Client.DocumentProcessed v])%list /\
         analyzed_from st3 st1 /\
         ((Client.onDocumentProcessed cw v = Client.Returns /\ st' = Client.st_completed v st1) \/
          (Client.onDocumentProcessed cw v <> Client.Returns /\
           st' = Client.st_error "Failed to parse extracted data" (Client.st_completed v st1)))))).
Proof.
  intros Hf st2. unfold Client.processDocument. rewrite Hf. fold st2.
  destruct (Client.uploadReply cw) as [m|[|] doc] eqn:Hu; cbv beta iota zeta.
  - left. exists m. repeat split; auto. congruence.
  - destruct (Client.thrown_message (Client.uploaded_result cw doc)) as [msg|] eqn:Ht;
      cbv beta iota zeta.
    { right. left. exists doc, msg. auto. }
    destruct (Client.id_string nts doc) as [id|] eqn:Hi; cbv beta iota zeta.
    + destruct (Client.processReply cw) as [m|[|] [reads|]]; cbv beta iota zeta.
      * do 3 right. exists doc, id. do 3 (split; [first [reflexivity|assumption]|]).
        left. exists m. auto.
      * pose proof (read_loop_inv nts jp (Client.st_extracting doc st2) reads ""%string 50
                      (Client.st_extracting doc st2) ltac:(lia) (or_introl eq_refl)) as H.
        destruct (Client.read_loop _ _ _ _ _ _) as [st'|st' v|msg st']; cbv beta iota zeta.
        -- do 3 right. exists doc, id. do 3 (split; [first [reflexivity|assumption]|]).
           right. left. auto.
        -- destruct H as (st1 & Ha & ->).
           destruct (Client.onDocumentProcessed cw v) eqn:Hp; cbv beta iota zeta;
             do 3 right; exists doc, id; do 3 (split; [first [reflexivity|assumption]|]);
             do 3 right; exists v, st1; (split; [reflexivity|]); (split; [exact Ha|]).
           ++ left. auto.
           ++ right. split; [rewrite Hp; discriminate|reflexivity].
           ++ right. split; [rewrite Hp; discriminate|reflexivity].
        -- do 3 right. exists doc, id. do 3 (split; [first [reflexivity|assumption]|]).
           right. right. left. exists msg, st'. auto.
      * do 3 right. exists doc, id. do 3 (split; [first [reflexivity|assumption]|]).
        right. left. split; [reflexivity|]. left. reflexivity.
      * do 3 right. exists doc, id. do 3 (split; [first [reflexivity|assumption]|]).
        left. exists "Failed to process document". auto.
      * do 3 right. exists doc, id. do 3 (split; [first [reflexivity|assumption]|]).
        left. exists "Failed to process document". auto.
    + right. right. left. exists doc. auto.
  - left. exists "Failed to upload document". repeat split; auto. congruence.
Qed.

Lemma analyzed_from_fields st0 st :
  analyzed_from st0 st ->
  Client.status st = Client.status st0 /\ Client.processing st = Client.processing st0 /\
  Client.uploading st = Client.uploading st0 /\ Client.document st = Client.document st0 /\
  Client.extractedData st = Client.extractedData st0 /\ Client.file st = Client.file st0 /\
  (Client.progress st = Client.progress st0 \/ (50 <= Client.progress st <= 95)%nat).
Proof.
  intros [-> | (q & Hq & ->)]; cbn; repeat split; auto.
Qed.

Ltac outcome_cases H :=
  destruct H as [(msg & -> & -> & Hnu & Hmsg)
                |[(doc & msg & Hu & Ht & -> & ->)
                 |[(doc & Hu & Ht & Hi & -> & ->)
                  |(doc & id & Hu & Ht & Hi &
                     [(msg & -> & ->)
                     |[(-> & Ha)
                      |[(msg & st1 & -> & Ha & ->)
                       |(v & st1 & -> & Ha & [(Hcb & ->)|(Hcb & ->)])]]])]]].

(** A membership in a list of events written out, none of which is a
    processed callback. *)
Ltac in_events H :=
  cbn [In List.app] in H;
  repeat (destruct H as [H|H]; [discriminate H|]).

Ltac not_processed H := in_events H; destruct H.

(** The widget ends [completed] exactly when it has invoked
    [onDocumentProcessed] and that call returned, and then shows the
    value it passed. Once it has invoked [onDocumentProcessed(v)],
    [extractedData] is [v]; when that call throws, the run ends in
    [error] with the message "Failed to parse extracted data". *)
Theorem widget_completed_iff_processed nts jp tem cw trid st f :
  Client.file st = Some f ->
  let (st', evs) := Client.processDocument nts jp tem cw trid st in
  (forall v, (In (Client.DocumentProcessed v) evs /\
              Client.onDocumentProcessed cw v = Client.Returns) <->
             (Client.status st' = Client.Completed /\ Client.extractedData st' = Some v)) /\
  (forall v, In (Client.DocumentProcessed v) evs ->
     Client.extractedData st' = Some v /\
     (Client.onDocumentProcessed cw v <> Client.Returns ->
      Client.status st' = Client.Error /\
      Client.message st' = "Failed to parse extracted data")).
Proof.
  intros Hf. pose proof (processDocument_outcomes nts jp tem cw trid st f Hf) as H.
  destruct (Client.processDocument nts jp tem cw trid st) as [st' evs].
  cbv zeta in H. outcome_cases H.
  7: { split; intros v0.
       - split.
         + intros [Hin _]. in_events Hin. destruct Hin as [Hin|[]]. injection Hin as <-. cbn. auto.
         + cbn. intros [_ E]. injection E as <-. split; [|exact Hcb].
           cbn [In List.app]; do 3 right; left; reflexivity.
       - intros Hin. in_events Hin. destruct Hin as [Hin|[]]. injection Hin as <-.
         split; [reflexivity|]. intros N. contradiction. }
  7: { split; intros v0.
       - split.
         + intros [Hin Hr]. in_events Hin. destruct Hin as [Hin|[]]. injection Hin as <-. contradiction.
         + cbn. intros [E _]. discriminate E.
       - intros Hin. in_events Hin. destruct Hin as [Hin|[]]. injection Hin as <-. cbn. auto. }
  5: { apply analyzed_from_fields in Ha. destruct Ha as (Hs & _).
       split; intros v0.
       - split; [intros [Hin _]; not_processed Hin|].
         intros [E _]. rewrite Hs in E. discriminate E.
       - intros Hin. not_processed Hin. }
  all: split; intros v0;
    [split; [intros [Hin _]; not_processed Hin | cbn; intros [E _]; discriminate E]
    | intros Hin; not_processed Hin].
Qed.

(** A completed run shows progress 100 with both busy flags down, keeps
    the document passed to [onDocumentUploaded], and made four calls: the
    upload request, [onDocumentUploaded], the process request and
    [onDocumentProcessed]. *)
Theorem widget_completed_state nts jp tem cw trid st f :
  Client.file st = Some f ->
  let (st', evs) := Client.processDocument nts jp tem cw trid st in
  Client.status st' = Client.Completed ->
  Client.progress st' = 100%nat /\ Client.uploading st' = false /\
  Client.processing st' = false /\
  exists doc url v, Client.document st' = Some doc /\ Client.extractedData st' = Some v /\
    evs = [Client.FetchUpload f trid; Client.DocumentUploaded doc;
           Client.FetchProcess url; Client.DocumentProcessed v].
Proof.
  intros Hf. pose proof (processDocument_outcomes nts jp tem cw trid st f Hf) as H.
  destruct (Client.processDocument nts jp tem cw trid st) as [st' evs].
  cbv zeta in H. intros Hc. outcome_cases H; try discriminate Hc.
  - apply analyzed_from_fields in Ha. destruct Ha as (Hs & _). rewrite Hs in Hc. discriminate.
  - apply analyzed_from_fields in Ha. destruct Ha as (_ & _ & Hup & Hd & _).
    cbn. repeat split; [exact Hup|].
    exists doc, ("/api/documents/" ++ id ++ "/process"), v. rewrite Hd. auto.
Qed.

(** A failed run shows progress 0 with both busy flags down. Either it
    never invoked [onDocumentProcessed] and [extractedData] is as it was
    before the run, or the [[DONE]] value was stored and passed to
    [onDocumentProcessed], which threw: then [extractedData] is that value
    and the message is "Failed to parse extracted data". *)
Theorem widget_error_state nts jp tem cw trid st f :
  Client.file st = Some f ->
  let (st', evs) := Client.processDocument nts jp tem cw trid st in
  Client.status st' = Client.Error ->
  Client.progress st' = 0%nat /\ Client.uploading st' = false /\
  Client.processing st' = false /\
  ((Client.extractedData st' = Client.extractedData st /\
    (forall v, ~ In (Client.DocumentProcessed v) evs)) \/
   (exists v, In (Client.DocumentProcessed v) evs /\
      Client.onDocumentProcessed cw v <> Client.Returns /\
      Client.extractedData st' = Some v /\
      Client.message st' = "Failed to parse extracted data")).
Proof.
  intros Hf. pose proof (processDocument_outcomes nts jp tem cw trid st f Hf) as H.
  destruct (Client.processDocument nts jp tem cw trid st) as [st' evs].
  cbv zeta in H. intros He. outcome_cases H; try discriminate He.
  - cbn. repeat split; auto. left. split; [reflexivity|]. intros v Hin. not_processed Hin.
  - cbn. repeat split; auto. left. split; [reflexivity|]. intros v Hin. not_processed Hin.
  - cbn. repeat split; auto. left. split; [reflexivity|]. intros v Hin. not_processed Hin.
  - cbn. repeat split; auto. left. split; [reflexivity|]. intros v Hin. not_processed Hin.
  - apply analyzed_from_fields in Ha. destruct Ha as (Hs & _). rewrite Hs in He. discriminate.
  - apply analyzed_from_fields in Ha. destruct Ha as (_ & _ & _ & _ & Hx & _).
    cbn. rewrite Hx. repeat split; auto. left. split; [reflexivity|].
    intros v Hin. not_processed Hin.
  - cbn. repeat split; auto. right. exists v. repeat split; auto.
Qed.


(** An upload that is rejected or answered without [ok] ends the run in
    [error] after the upload request alone: no callback and no process
    request; the message is the rejection's, or "Failed to upload
    document". *)
Theorem widget_upload_failure nts jp tem cw trid st f :
  Client.file st = Some f ->
  (forall doc, Client.uploadReply cw <> Client.Answered true doc) ->
  let (st', evs) := Client.processDocument nts jp tem cw trid st in
  evs = [Client.FetchUpload f trid] /\ Client.status st' = Client.Error /\
  Client.message st' = match Client.uploadReply cw with
                       | Client.Rejected m => m
                       | _ => "Failed to upload document"
                       end.
Proof.
  intros Hf Hn. pose proof (processDocument_outcomes nts jp tem cw trid st f Hf) as H.
  destruct (Client.processDocument nts jp tem cw trid st) as [st' evs].
  cbv zeta in H. outcome_cases H; try (exfalso; exact (Hn doc Hu)).
  cbn. auto.
Qed.

(** Without a selected file nothing happens; with one, the first call is
    always the upload request, and the only process request made is for
    the id of the document the upload returned, after [onDocumentUploaded]
    received that document. *)
Theorem widget_request_order nts jp tem cw trid st :
  let (st', evs) := Client.processDocument nts jp tem cw trid st in
  match Client.file st with
  | None => st' = st /\ evs = []
  | Some f =>
      (exists rest, evs = Client.FetchUpload f trid :: rest) /\
      forall url, In (Client.FetchProcess url) evs ->
        exists doc id, Client.uploadReply cw = Client.Answered true doc /\
          Client.id_string nts doc = Some id /\
          url = "/api/documents/" ++ id ++ "/process" /\
          evs = (Client.FetchUpload f trid :: Client.DocumentUploaded doc
                 :: Client.FetchProcess url :: skipn 3 evs)%list
  end.
Proof.
  destruct (Client.file st) as [f|] eqn:Hf.
  - pose proof (processDocument_outcomes nts jp tem cw trid st f Hf) as H.
    destruct (Client.processDocument nts jp tem cw trid st) as [st' evs].
    cbv zeta in H. outcome_cases H; (split; [eexists; reflexivity|]); intros url Hin;
      cbn [In List.app] in Hin;
      repeat (destruct Hin as [E|Hin]; [try discriminate E; injection E as <-; eauto 7|]);
      destruct Hin.
  - unfold Client.processDocument. rewrite Hf. auto.
Qed.

(** An upload answered with [null] reaches [onDocumentUploaded(null)];
    the run ends in [error] with no process request: with the message of
    what the callback threw, or, when it returned, with the [TypeError]'s
    message from reading [document.id]. *)
Theorem widget_null_document nts jp tem cw trid st f :
  Client.file st = Some f ->
  Client.uploadReply cw = Client.Answered true JNull ->
  let (st', evs) := Client.processDocument nts jp tem cw trid st in
  evs = [Client.FetchUpload f trid; Client.DocumentUploaded JNull] /\
  Client.status st' = Client.Error /\
  Client.message st' = match Client.thrown_message (Client.uploaded_result cw JNull) with
                       | Some m => m
                       | None => tem
                       end /\
  Client.document st' = Some JNull.
Proof.
  intros Hf Hu. unfold Client.processDocument. rewrite Hf, Hu. cbv beta iota zeta.
  destruct (Client.thrown_message (Client.uploaded_result cw JNull)); cbn; auto.
Qed.

Lemma stream_to_widget_roundtrip_witness :
  let (st', evs) := Client.processDocument num_string SampleJSON.parse "TypeError"
                      widget_world "t1" widget_start in
  Client.status st' = Client.Completed /\ Client.extractedData st' = Some widget_value /\
  Client.progress st' = 100%nat /\ Client.document st' = Some (JObj [("id", JStr "d1")]) /\
  evs = [Client.FetchUpload pdf_file "t1"; Client.DocumentUploaded (JObj [("id", JStr "d1")]);
         Client.FetchProcess ("/api/documents/" ++ "d1" ++ "/process");
         Client.DocumentProcessed widget_value].
Proof.
  eapply (stream_to_widget_roundtrip num_string sample_parse SampleJSON.parse "TypeError"
           read_error_message (llm_world (ok_reply "resp") None) "d1" (owned_state pending_doc)
           (stream_result sample_attempt) (snd sample_attempt) widget_world "t1" widget_start
           pdf_file (JObj [("id", JStr "d1")]) "d1" widget_value).
  - vm_compute. reflexivity.
  - vm_compute. reflexivity.
  - vm_compute. reflexivity.
  - vm_compute. reflexivity.
  - vm_compute. reflexivity.
  - vm_compute. reflexivity.
  - vm_compute. reflexivity.
  - vm_compute. reflexivity.
  - vm_compute. reflexivity.
  - apply Forall_forall. intros c Hc. vm_compute in Hc.
    repeat (destruct Hc as [<-|Hc]; [vm_compute; reflexivity|]). destruct Hc.
  - vm_compute. reflexivity.
  - vm_compute. reflexivity.
Defined.

Lemma widget_completed_iff_processed_witness :
  let (st', evs) := Client.processDocument num_string SampleJSON.parse "TypeError"
                      throwing_world "t1" widget_start in
  (forall v, (In (Client.DocumentProcessed v) evs /\
              Client.onDocumentProcessed throwing_world v = Client.Returns) <->
             (Client.status st' = Client.Completed /\ Client.extractedData st' = Some v)) /\
  (forall v, In (Client.DocumentProcessed v) evs ->
     Client.extractedData st' = Some v /\
     (Client.onDocumentProcessed throwing_world v <> Client.Returns ->
      Client.status st' = Client.Error /\
      Client.message st' = "Failed to parse extracted data")).
Proof.
  apply (widget_completed_iff_processed num_string SampleJSON.parse "TypeError"
           throwing_world "t1" widget_start pdf_file).
  reflexivity.
Defined.

Lemma widget_completed_state_witness :
  let (st', evs) := Client.processDocument num_string SampleJSON.parse "TypeError"
                      widget_world "t1" widget_start in
  Client.status st' = Client.Completed ->
  Client.progress st' = 100%nat /\ Client.uploading st' = false /\
  Client.processing st' = false /\
  exists doc url v, Client.document st' = Some doc /\ Client.extractedData st' = Some v /\
    evs = [Client.FetchUpload pdf_file "t1"; Client.DocumentUploaded doc;
           Client.FetchProcess url; Client.DocumentProcessed v].
Proof.
  apply (widget_completed_state num_string SampleJSON.parse "TypeError"
           widget_world "t1" widget_start pdf_file).
  reflexivity.
Defined.

Lemma widget_error_state_witness :
  let (st', evs) := Client.processDocument num_string SampleJSON.parse "TypeError"
                      throwing_world "t1" widget_start in
  Client.status st' = Client.Error ->
  Client.progress st' = 0%nat /\ Client.uploading st' = false /\
  Client.processing st' = false /\
  ((Client.extractedData st' = Client.extractedData widget_start /\
    (forall v, ~ In (Client.DocumentProcessed v) evs)) \/
   (exists v, In (Client.DocumentProcessed v) evs /\
      Client.onDocumentProcessed throwing_world v <> Client.Returns /\
      Client.extractedData st' = Some v /\
      Client.message st' = "Failed to parse extracted data")).
Proof.
  apply (widget_error_state num_string SampleJSON.parse "TypeError"
           throwing_world "t1" widget_start pdf_file).
  reflexivity.
Defined.


Lemma widget_upload_failure_witness :
  let (st', evs) := Client.processDocument num_string SampleJSON.parse "TypeError"
                      upload_failed_world "t1" widget_start in
  evs = [Client.FetchUpload pdf_file "t1"] /\ Client.status st' = Client.Error /\
  Client.message st' = "Failed to upload document".
Proof.
  apply (widget_upload_failure num_string SampleJSON.parse "TypeError"
           upload_failed_world "t1" widget_start pdf_file).
  - reflexivity.
  - intros doc E. discriminate E.
Defined.

Lemma widget_null_document_witness :
  (let (st', evs) := Client.processDocument num_string SampleJSON.parse "TypeError"
                       null_upload_world "t1" widget_start in
   evs = [Client.FetchUpload pdf_file "t1"; Client.DocumentUploaded JNull] /\
   Client.status st' = Client.Error /\ Client.message st' = "TypeError" /\
   Client.document st' = Some JNull) /\
  (let (st', evs) := Client.processDocument num_string SampleJSON.parse "TypeError"
                       null_upload_throwing_world "t1" widget_start in
   evs = [Client.FetchUpload pdf_file "t1"; Client.DocumentUploaded JNull] /\
   Client.status st' = Client.Error /\ Client.message st' = "null.fileName" /\
   Client.document st' = Some JNull).
Proof.
  split.
  - apply (widget_null_document num_string SampleJSON.parse "TypeError"
             null_upload_world "t1" widget_start pdf_file).
    + reflexivity.
    + reflexivity.
  - apply (widget_null_document num_string SampleJSON.parse "TypeError"
             null_upload_throwing_world "t1" widget_start pdf_file).
    + reflexivity.
    + reflexivity.
Defined.

Lemma lower_ascii_dot c : Ascii.eqb (JS.lower_ascii c) "."%char = Ascii.eqb c "."%char.
Proof. destruct c as [[] [] [] [] [] [] [] []]; reflexivity. Qed.

Lemma split_on_lower s :
  Client.split_on "."%char (JS.toLowerCase s) = map JS.toLowerCase (Client.split_on "."%char s).
Proof.
  induction s as [|c s IH]; [reflexivity|].
  cbn [JS.toLowerCase Client.split_on]. rewrite lower_ascii_dot, IH.
  destruct (Ascii.eqb c "."%char); [reflexivity|].
  destruct (Client.split_on "."%char s); reflexivity.
Qed.

Lemma split_on_nonempty sep s : Client.split_on sep s <> [].
Proof.
  destruct s as [|c s]; cbn; [discriminate|].
  destruct (Ascii.eqb c sep); [discriminate|]. destruct (Client.split_on sep s); discriminate.
Qed.

Lemma last_segment_split s acc :
  UploadRoute.last_segment s acc =
  match Client.split_on "."%char s with [x] => acc ++ x | l => last l "" end.
Proof.
  revert acc. induction s as [|c s IH]; intros acc.
  - cbn. symmetry. apply str_app_nil.
  - cbn [UploadRoute.last_segment Client.split_on].
    destruct (Ascii.eqb c "."%char).
    + rewrite IH. pose proof (split_on_nonempty "."%char s) as Hn.
      destruct (Client.split_on "."%char s) as [|x [|y l]]; [congruence|reflexivity|reflexivity].
    + rewrite IH. pose proof (split_on_nonempty "."%char s) as Hn.
      destruct (Client.split_on "."%char s) as [|x [|y l]]; [congruence| |reflexivity].
      cbn. rewrite str_app_assoc. reflexivity.
Qed.

Lemma last_split s : last (Client.split_on "."%char s) "" = UploadRoute.last_segment s "".
Proof.
  rewrite last_segment_split. pose proof (split_on_nonempty "."%char s) as Hn.
  destruct (Client.split_on "."%char s) as [|x [|y l]]; [congruence|reflexivity|reflexivity].
Qed.

Lemma last_map_lower l :
  last (map JS.toLowerCase l) "" = JS.toLowerCase (last l "").
Proof.
  induction l as [|x l IH]; [reflexivity|]. destruct l as [|y l]; [reflexivity|].
  transitivity (last (map JS.toLowerCase (y :: l)) ""); [reflexivity|].
  rewrite IH. reflexivity.
Qed.

Lemma mime_extension s :
  last (Client.split_on "."%char (JS.toLowerCase s)) ""
  = JS.toLowerCase (UploadRoute.last_segment s "").
Proof. rewrite split_on_lower, last_map_lower, last_split. reflexivity. Qed.

Lemma last_segment_app_dot a b acc :
  UploadRoute.last_segment (a ++ String "."%char b) acc = UploadRoute.last_segment b "".
Proof.
  revert acc. induction a as [|c a IH]; intros acc; [reflexivity|].
  cbn [append UploadRoute.last_segment]. destruct (Ascii.eqb c "."%char); apply IH.
Qed.

Lemma last_segment_no_dot b acc :
  no_char "."%char b = true -> UploadRoute.last_segment b acc = (acc ++ b)%string.
Proof.
  revert acc. induction b as [|c b IH]; intros acc H.
  - cbn. symmetry. apply str_app_nil.
  - unfold no_char in H. cbn in H. apply andb_prop in H as [Hc Hb].
    cbn [UploadRoute.last_segment]. apply negb_true_iff in Hc. rewrite Hc.
    rewrite IH by exact Hb. rewrite str_app_assoc. reflexivity.
Qed.

Lemma last_segment_clean s acc :
  no_char "."%char acc = true -> no_char "."%char (UploadRoute.last_segment s acc) = true.
Proof.
  revert acc. induction s as [|c s IH]; intros acc H; [exact H|].
  cbn [UploadRoute.last_segment]. destruct (Ascii.eqb c "."%char) eqn:E; apply IH; [reflexivity|].
  rewrite no_char_app, H. unfold no_char. cbn. rewrite E. reflexivity.
Qed.

Lemma last_segment_idem s :
  UploadRoute.last_segment (UploadRoute.last_segment s "") "" = UploadRoute.last_segment s "".
Proof. apply last_segment_no_dot, last_segment_clean. reflexivity. Qed.

Lemma stored_path_extension u n :
  UploadRoute.last_segment
    ("/tmp/uploads/documents/" ++ u ++ "." ++ UploadRoute.last_segment n "") ""
  = UploadRoute.last_segment n "".
Proof.
  rewrite <- str_app_assoc. change ("." ++ ?x)%string with (String "."%char x).
  rewrite last_segment_app_dot. apply last_segment_idem.
Qed.

Lemma getMimeType_stored_path u n :
  getMimeType ("/tmp/uploads/documents/" ++ u ++ "." ++ UploadRoute.last_segment n "")
  = getMimeType n.
Proof. unfold getMimeType. rewrite !mime_extension, stored_path_extension. reflexivity. Qed.


(** Paths of stored uploads. *)
Lemma uploadDir_value : UploadRoute.uploadDir = "/tmp/uploads/documents".
Proof. vm_compute. reflexivity. Qed.

Lemma split_nonempty sep s : JS.split sep s <> [].
Proof.
  destruct s as [|c s]; cbn; [discriminate|].
  destruct (Ascii.eqb c sep); [discriminate|]. destruct (JS.split sep s); discriminate.
Qed.

Lemma split_app_nosep sep a b :
  no_char sep a = true ->
  JS.split sep (a ++ b) = match JS.split sep b with x :: xs => (a ++ x) :: xs | [] => [a] end.
Proof.
  induction a as [|c a IH]; intros H.
  - cbn [append]. pose proof (split_nonempty sep b) as Hn.
    destruct (JS.split sep b); [congruence|reflexivity].
  - unfold no_char in H. cbn in H. apply andb_prop in H as [Hc Ha].
    apply negb_true_iff in Hc.
    cbn [append JS.split]. rewrite Hc, (IH Ha).
    destruct (JS.split sep b) eqn:E; [exfalso; exact (split_nonempty sep b E)|]. reflexivity.
Qed.

Lemma split_nochar sep s : no_char sep s = true -> JS.split sep s = [s].
Proof.
  intros H. rewrite <- (str_app_nil s) at 1. rewrite (split_app_nosep sep s "" H).
  cbn. rewrite str_app_nil. reflexivity.
Qed.

Lemma split_all_no_char c sep s :
  no_char c s = true -> Forall (fun x => no_char c x = true) (JS.split sep s).
Proof.
  induction s as [|a s IH]; intros H; [repeat constructor|].
  unfold no_char in H. cbn in H. apply andb_prop in H as [Ha Hs].
  specialize (IH Hs). cbn [JS.split]. destruct (Ascii.eqb a sep).
  - constructor; [reflexivity|exact IH].
  - destruct (JS.split sep s) as [|x xs]; [constructor; [|constructor]|].
    + unfold no_char. cbn. rewrite Ha. reflexivity.
    + inversion IH as [|? ? Hx Hxs]; subst. constructor; [|exact Hxs].
      unfold no_char in Hx |- *. cbn. rewrite Ha, Hx. reflexivity.
Qed.

Lemma split_concat sep s : String.concat (String sep "") (JS.split sep s) = s.
Proof.
  induction s as [|c s IH]; [reflexivity|].
  cbn [JS.split]. destruct (Ascii.eqb_spec c sep) as [->|Hc].
  - pose proof (split_nonempty sep s) as Hn.
    destruct (JS.split sep s) as [|x xs]; [congruence|].
    cbn [String.concat]. rewrite <- IH. reflexivity.
  - pose proof (split_nonempty sep s) as Hn.
    destruct (JS.split sep s) as [|x xs]; [congruence|].
    destruct xs as [|y ys]; cbn in IH |- *; rewrite IH; reflexivity.
Qed.

(** ["/"] is its own lower-case form, and no other character's. *)
Lemma lower_ascii_slash c : Ascii.eqb (JS.lower_ascii c) "/"%char = Ascii.eqb c "/"%char.
Proof. destruct c as [[] [] [] [] [] [] [] []]; reflexivity. Qed.

Lemma no_char_lower s : no_char "/"%char (JS.toLowerCase s) = no_char "/"%char s.
Proof.
  induction s as [|c s IH]; [reflexivity|]. unfold no_char in *. cbn.
  rewrite lower_ascii_slash, IH. reflexivity.
Qed.

Lemma ends_with_slash_cons c s :
  s <> ""%string -> Path.ends_with_slash (String c s) = Path.ends_with_slash s.
Proof.
  intros Hs. unfold Path.ends_with_slash. cbn [list_ascii_of_string rev].
  destruct s as [|d s]; [congruence|]. cbn [list_ascii_of_string rev].
  destruct (rev (list_ascii_of_string s)); reflexivity.
Qed.

Lemma ends_with_slash_app a b :
  b <> ""%string -> Path.ends_with_slash (a ++ b) = Path.ends_with_slash b.
Proof.
  intros Hb. induction a as [|c a IH]; [reflexivity|].
  cbn [append]. rewrite ends_with_slash_cons; [exact IH|].
  destruct a; cbn; [exact Hb|discriminate].
Qed.

Lemma ends_with_slash_nochar s : no_char "/"%char s = true -> Path.ends_with_slash s = false.
Proof.
  induction s as [|c s IH]; intros H; [reflexivity|].
  unfold no_char in H. cbn in H. apply andb_prop in H as [Hc Hs].
  destruct s as [|d s'].
  - unfold Path.ends_with_slash. cbn. apply negb_true_iff in Hc. exact Hc.
  - rewrite ends_with_slash_cons by discriminate. exact (IH Hs).
Qed.

(** A path whose last ["/"]-segment is empty ends with ["/"]. *)
Lemma split_last_empty s :
  last (JS.split "/"%char s) "" = ""%string -> s = ""%string \/ Path.ends_with_slash s = true.
Proof.
  induction s as [|c s IH]; intros H; [left; reflexivity|]. right.
  cbn [JS.split] in H. pose proof (split_nonempty "/"%char s) as Hn.
  destruct (Ascii.eqb_spec c "/"%char) as [->|Hc].
  - destruct (JS.split "/"%char s) as [|x xs] eqn:E; [congruence|].
    change (last ("" :: x :: xs) "") with (last (x :: xs) "") in H.
    destruct (IH H) as [->|He]; [reflexivity|].
    rewrite ends_with_slash_cons; [exact He|]. intros ->. discriminate.
  - destruct (JS.split "/"%char s) as [|x xs] eqn:E; [congruence|].
    destruct xs as [|y ys]; [discriminate|].
    change (last (String c x :: y :: ys) "") with (last (x :: y :: ys) "") in H.
    destruct (IH H) as [->|He]; [discriminate|].
    rewrite ends_with_slash_cons; [exact He|]. intros ->. discriminate.
Qed.

Lemma not_dot_segments s :
  (forall c s', s = String c s' -> Ascii.eqb c "."%char = false) ->
  String.eqb s "." = false /\ String.eqb s ".." = false.
Proof.
  intros H. destruct s as [|c s']; [split; reflexivity|].
  specialize (H c s' eq_refl). cbn [String.eqb]. rewrite H. split; reflexivity.
Qed.

Lemma no_char_head sep c s : no_char sep (String c s) = true -> Ascii.eqb c sep = false.
Proof.
  unfold no_char. cbn. intros H. apply andb_prop in H as [H _]. apply negb_true_iff. exact H.
Qed.

Lemma normalize_segments_clean b stack segs :
  Forall (fun seg => String.eqb seg "." = false /\ String.eqb seg ".." = false) segs ->
  Path.normalize_segments b stack segs
  = (rev stack ++ filter (fun a => negb (String.eqb a "")) segs)%list.
Proof.
  revert stack. induction segs as [|seg segs IH]; intros stack H;
    cbn [Path.normalize_segments filter].
  - rewrite app_nil_r. reflexivity.
  - inversion H as [|? ? [H1 H2] Hs]; subst. rewrite H1, H2, orb_false_r.
    destruct (String.eqb seg "") eqn:E; cbn [negb].
    + apply IH; exact Hs.
    + rewrite IH by exact Hs. cbn [rev]. rewrite <- app_assoc. reflexivity.
Qed.

Lemma concat_slash x l :
  String.concat "/" (x :: l) = (x ++ String.concat "" (map (fun a => "/" ++ a) l))%string.
Proof.
  revert x. induction l as [|y l IH]; intros x.
  - cbn. symmetry. apply str_app_nil.
  - change (String.concat "/" (x :: y :: l)) with (x ++ "/" ++ String.concat "/" (y :: l))%string.
    rewrite IH. cbn [map]. rewrite concat_cons_empty, <- !str_app_assoc. reflexivity.
Qed.

Lemma split_upload_path u e :
  no_char "/"%char u = true ->
  JS.split "/"%char ("/tmp/uploads/documents/" ++ u ++ "." ++ e)
  = "" :: "tmp" :: "uploads" :: "documents"
       :: (u ++ "." ++ hd "" (JS.split "/"%char e))%string :: tl (JS.split "/"%char e).
Proof.
  intros Hu.
  change ("/tmp/uploads/documents/" ++ ?x)%string
    with (String "/" ("tmp/uploads/documents/" ++ x))%string.
  change (JS.split "/"%char (String "/" ?x)) with ("" :: JS.split "/"%char x).
  change ("tmp/uploads/documents/" ++ ?x)%string with ("tmp" ++ String "/" ("uploads/documents/" ++ x))%string.
  rewrite split_app_nosep by reflexivity.
  change (JS.split "/"%char (String "/" ?x)) with ("" :: JS.split "/"%char x).
  change ("uploads/documents/" ++ ?x)%string with ("uploads" ++ String "/" ("documents/" ++ x))%string.
  rewrite split_app_nosep by reflexivity.
  change (JS.split "/"%char (String "/" ?x)) with ("" :: JS.split "/"%char x).
  change ("documents/" ++ ?x)%string with ("documents" ++ String "/" x)%string.
  rewrite split_app_nosep by reflexivity.
  change (JS.split "/"%char (String "/" ?x)) with ("" :: JS.split "/"%char x).
  rewrite <- str_app_assoc, split_app_nosep by (rewrite no_char_app, Hu; reflexivity).
  pose proof (split_nonempty "/"%char e) as Hn.
  destruct (JS.split "/"%char e) as [|x xs]; [congruence|].
  cbn [hd tl]. rewrite str_app_assoc. reflexivity.
Qed.

(** [join(uploadDir, u + "." + e)] for a [u] without ["/"] or ["."] and an
    extension [e] without ["."]: only the empty segments of [e] go. *)
Lemma join_upload_path u e :
  u <> ""%string -> no_char "/"%char u = true -> no_char "."%char u = true ->
  no_char "."%char e = true ->
  Path.join [UploadRoute.uploadDir; (u ++ "." ++ e)%string] =
  ("/tmp/uploads/documents/" ++ u ++ "." ++
     (hd "" (JS.split "/"%char e)
      ++ String.concat "" (map (fun a => "/" ++ a)
                             (filter (fun a => negb (String.eqb a "")) (tl (JS.split "/"%char e))))
      ++ (if Path.ends_with_slash e then "/" else "")))%string.
Proof.
  intros Hu Hu1 Hu2 He.
  assert (Hne : String.eqb (u ++ "." ++ e) "" = false) by (destruct u; [congruence|reflexivity]).
  assert (Hseg : forall x, no_char "."%char x = true ->
                 String.eqb x "." = false /\ String.eqb x ".." = false).
  { intros x Hx. apply not_dot_segments. intros c s' ->. exact (no_char_head _ _ _ Hx). }
  assert (Hhd : String.eqb (u ++ "." ++ hd "" (JS.split "/"%char e)) "" = false)
    by (destruct u; [congruence|reflexivity]).
  rewrite uploadDir_value. unfold Path.join.
  assert (F : filter (fun a => negb (String.eqb a ""))
                ["/tmp/uploads/documents"; (u ++ "." ++ e)%string]
              = ["/tmp/uploads/documents"; (u ++ "." ++ e)%string]).
  { cbn [filter]. rewrite Hne. reflexivity. }
  rewrite F. cbv beta iota.
  change (String.concat "/" ["/tmp/uploads/documents"; (u ++ "." ++ e)%string])
    with (String "/" ("tmp/uploads/documents/" ++ u ++ "." ++ e))%string.
  unfold Path.normalize. cbv beta iota zeta.
  change (Ascii.eqb "/" "/") with true. cbv beta iota.
  change (String "/" ("tmp/uploads/documents/" ++ ?x))%string
    with ("/tmp/uploads/documents/" ++ x)%string.
  rewrite split_upload_path by exact Hu1.
  rewrite normalize_segments_clean.
  2:{ pose proof (split_all_no_char "."%char "/"%char e He) as Hf.
      pose proof (split_nonempty "/"%char e) as Hn.
      destruct (JS.split "/"%char e) as [|x xs]; [congruence|]. cbn [hd tl].
      inversion Hf as [|? ? Hx Hxs]; subst.
      repeat (apply Forall_cons; [split; reflexivity|]).
      apply Forall_cons.
      { apply not_dot_segments. intros c s' Heq.
        destruct u as [|c0 u']; [congruence|]. injection Heq as -> _.
        exact (no_char_head _ _ _ Hu2). }
      eapply Forall_impl; [|exact Hxs]. intros a Ha. apply Hseg, Ha. }
  set (X := (u ++ "." ++ hd "" (JS.split "/"%char e))%string) in *.
  set (R := tl (JS.split "/"%char e)).
  set (T := String.concat "" (map (fun a => "/" ++ a) (filter (fun a => negb (String.eqb a "")) R))).
  assert (G : (rev [] ++ filter (fun a => negb (String.eqb a "")) ("" :: "tmp" :: "uploads" :: "documents" :: X :: R))%list
              = "tmp" :: "uploads" :: "documents" :: X :: filter (fun a => negb (String.eqb a "")) R).
  { cbn [rev app filter]. rewrite Hhd. reflexivity. }
  rewrite G.
  assert (B : String.concat "/" ("tmp" :: "uploads" :: "documents" :: X
                                  :: filter (fun a => negb (String.eqb a "")) R)
              = ("tmp/uploads/documents/" ++ X ++ T)%string).
  { rewrite concat_slash. cbn [map]. rewrite !concat_cons_empty, str_app_assoc. reflexivity. }
  rewrite B.
  assert (Ew : Path.ends_with_slash ("/tmp/uploads/documents/" ++ u ++ "." ++ e)
               = Path.ends_with_slash e).
  { rewrite ends_with_slash_app by (destruct u; [congruence|discriminate]).
    rewrite ends_with_slash_app by discriminate.
    destruct e as [|c e']; [reflexivity|]. apply ends_with_slash_cons; discriminate. }
  rewrite Ew.
  assert (Hz : String.eqb ("tmp/uploads/documents/" ++ X ++ T) "" = false) by reflexivity.
  rewrite Hz. unfold X. rewrite !str_app_assoc. reflexivity.
Qed.

Lemma uuid_no_char (x : UploadRoute.Uuid) c :
  UploadRoute.uuid_char c = false -> no_char c (UploadRoute.uuid_text x) = true.
Proof.
  intros Hc. destruct x as [u Hu]. cbn [UploadRoute.uuid_text].
  unfold UploadRoute.is_uuid in Hu. apply andb_prop in Hu as [_ Hu].
  unfold no_char. induction (list_ascii_of_string u) as [|d l IH]; [reflexivity|].
  cbn [forallb] in Hu |- *. apply andb_prop in Hu as [Hd Hl]. rewrite (IH Hl).
  destruct (Ascii.eqb_spec d c) as [->|_]; [congruence|reflexivity].
Qed.

Lemma uuid_length (x : UploadRoute.Uuid) : String.length (UploadRoute.uuid_text x) = 36%nat.
Proof.
  destruct x as [u Hu]. cbn [UploadRoute.uuid_text].
  unfold UploadRoute.is_uuid in Hu. apply andb_prop in Hu as [Hu _].
  apply Nat.eqb_eq, Hu.
Qed.

Lemma uuid_nonempty (x : UploadRoute.Uuid) : UploadRoute.uuid_text x <> ""%string.
Proof. intros E. pose proof (uuid_length x) as H. rewrite E in H. discriminate. Qed.

Lemma split_pieces sep s : Forall (fun x => no_char sep x = true) (JS.split sep s).
Proof.
  induction s as [|c s IH]; [repeat constructor|]. cbn [JS.split].
  destruct (Ascii.eqb c sep) eqn:Ec; [constructor; [reflexivity|exact IH]|].
  destruct (JS.split sep s) as [|x xs]; [constructor; [|constructor]|].
  - unfold no_char. cbn. rewrite Ec. reflexivity.
  - inversion IH as [|? ? Hx Hxs]; subst. constructor; [|exact Hxs].
    unfold no_char in Hx |- *. cbn. rewrite Ec, Hx. reflexivity.
Qed.

Lemma no_char_concat_slashes c l :
  Ascii.eqb "/" c = false -> Forall (fun x => no_char c x = true) l ->
  no_char c (String.concat "" (map (fun a => "/" ++ a) l)) = true.
Proof.
  intros Hs. induction l as [|x l IH]; intros H; [reflexivity|].
  inversion H as [|? ? Hx Hl]; subst. cbn [map]. rewrite concat_cons_empty, no_char_app.
  rewrite (IH Hl). change ("/" ++ x)%string with (String "/" x).
  unfold no_char in Hx |- *. cbn [list_ascii_of_string forallb]. rewrite Hs, Hx. reflexivity.
Qed.

Lemma filter_nil_last l :
  l <> [] -> filter (fun a => negb (String.eqb a "")) l = [] -> last l "" = ""%string.
Proof.
  intros Hn. induction l as [|x l IH]; [congruence|]. cbn [filter].
  destruct (String.eqb_spec x "") as [->|Hx]; cbn [negb]; [|discriminate].
  intros Hf. destruct l as [|y l]; [reflexivity|].
  change (last ("" :: y :: l) "") with (last (y :: l) ""). apply IH; [discriminate|exact Hf].
Qed.

(** A path whose extension holds a ["/"] is sent as a PDF. *)
Lemma mime_default p :
  no_char "/"%char (UploadRoute.last_segment p "") = false -> getMimeType p = "application/pdf".
Proof.
  intros H. unfold getMimeType. rewrite mime_extension.
  rewrite <- no_char_lower in H. set (x := JS.toLowerCase _) in *.
  destruct (String.eqb_spec x "pdf") as [E|_]; [rewrite E in H; vm_compute in H; discriminate H|].
  destruct (String.eqb_spec x "png") as [E|_]; [rewrite E in H; vm_compute in H; discriminate H|].
  destruct (String.eqb_spec x "jpg") as [E|_]; [rewrite E in H; vm_compute in H; discriminate H|].
  destruct (String.eqb_spec x "jpeg") as [E|_]; [rewrite E in H; vm_compute in H; discriminate H|].
  destruct (String.eqb_spec x "tiff") as [E|_]; [rewrite E in H; vm_compute in H; discriminate H|].
  destruct (String.eqb_spec x "tif") as [E|_]; [rewrite E in H; vm_compute in H; discriminate H|].
  reflexivity.
Qed.

(** The stored upload's path gives the MIME type of the uploaded name. *)
Lemma getMimeType_upload_path u n :
  u <> ""%string -> no_char "/"%char u = true -> no_char "."%char u = true ->
  getMimeType (Path.join [UploadRoute.uploadDir; (u ++ "." ++ UploadRoute.last_segment n "")%string])
  = getMimeType n.
Proof.
  intros Hu Hu1 Hu2.
  pose proof (last_segment_clean n "" eq_refl) as He.
  set (e := UploadRoute.last_segment n "") in *.
  rewrite join_upload_path by assumption.
  pose proof (split_concat "/"%char e) as Hc.
  pose proof (split_pieces "/"%char e) as Hp.
  pose proof (split_all_no_char "."%char "/"%char e He) as Hd.
  destruct (JS.split "/"%char e) as [|e1 rest] eqn:Es; [exfalso; exact (split_nonempty _ _ Es)|].
  cbn [hd tl]. inversion Hp as [|? ? Hp1 Hps]; subst. inversion Hd as [|? ? Hd1 Hds]; subst.
  destruct rest as [|r0 rs].
  - cbn in Hc. subst e1. rewrite (ends_with_slash_nochar _ Hp1). cbn [filter map].
    change (String.concat "" []) with ""%string. rewrite !str_app_nil.
    apply getMimeType_stored_path.
  - assert (Hn : no_char "/"%char e = false).
    { destruct (no_char "/"%char e) eqn:E; [|reflexivity].
      rewrite (split_nochar _ _ E) in Es. discriminate. }
    set (E := (e1 ++ String.concat "" (map (fun a => "/" ++ a)
                 (filter (fun a => negb (String.eqb a "")) (r0 :: rs)))
               ++ (if Path.ends_with_slash e then "/" else ""))%string).
    assert (HEd : no_char "."%char E = true).
    { unfold E. rewrite !no_char_app, Hd1, no_char_concat_slashes.
      - destruct (Path.ends_with_slash e); reflexivity.
      - reflexivity.
      - apply Forall_forall. intros a Ha. apply filter_In in Ha as [Ha _].
        exact (proj1 (Forall_forall _ _) Hds a Ha). }
    assert (HEs : no_char "/"%char E = false).
    { unfold E. rewrite !no_char_app.
      destruct (filter (fun a => negb (String.eqb a "")) (r0 :: rs)) as [|y ys] eqn:Ef.
      - assert (Hl : last (JS.split "/"%char e) "" = ""%string).
        { rewrite Es. change (last (e1 :: r0 :: rs) "") with (last (r0 :: rs) "").
          apply filter_nil_last; [discriminate|exact Ef]. }
        destruct (split_last_empty e Hl) as [He0|He0].
        + rewrite He0 in Es. discriminate.
        + rewrite He0. rewrite !andb_false_r. reflexivity.
      - cbn [map]. rewrite concat_cons_empty, no_char_app.
        change ("/" ++ y)%string with (String "/" y). unfold no_char at 2. cbn.
        rewrite andb_false_r. reflexivity. }
    rewrite (mime_default n Hn). apply mime_default.
    rewrite <- (str_app_assoc "/tmp/uploads/documents/" u).
    change ("." ++ E)%string with (String "." E).
    rewrite last_segment_app_dot, (last_segment_no_dot E "" HEd). exact HEs.
Qed.



Ltac upload_step :=
  cbn -[existsb UploadRoute.allowedTypes UploadRoute.maxSize Z.gtb Path.join Path.writable
        Path.ancestors UploadRoute.uploadDir Upload.determineDocumentType].

Lemma upload_POST_cases r s :
  (exists c b, UploadRoute.POST r s = (Ok (UploadRoute.JsonResponse c b), s)) \/
  (exists mail u f trid,
     UploadRoute.session r = Some mail /\
     find (fun x => String.eqb (Db.email x) mail) (Db.users (Db.db s)) = Some u /\
     UploadRoute.file r = Some f /\ UploadRoute.taxReturnIdField r = Some trid /\
     Db.owns (Db.db s) (Db.user_id u) trid = true /\
     existsb (String.eqb (UploadRoute.type_ f)) UploadRoute.allowedTypes = true /\
     (UploadRoute.size f <= UploadRoute.maxSize)%Z /\
     let path := Path.join [UploadRoute.uploadDir;
                            (UploadRoute.uuid_text (UploadRoute.uuid r) ++ "."
                             ++ UploadRoute.last_segment (UploadRoute.name f) "")%string] in
     let d := {| Db.doc_id := UploadRoute.newDocumentId r; Db.taxReturnId := trid;
                 Db.fileName := UploadRoute.name f; Db.fileType := UploadRoute.type_ f;
                 Db.fileSize := UploadRoute.size f; Db.filePath := path;
                 Db.documentType := Upload.determineDocumentType (UploadRoute.name f);
                 Db.processingStatus := Db.PENDING; Db.ocrText := None;
                 Db.extractedData := None |} in
     UploadRoute.POST r s =
       (Ok (UploadRoute.DocumentResponse d),
        {| Db.db := {| Db.users := Db.users (Db.db s);
                       Db.taxReturns := Db.taxReturns (Db.db s);
                       Db.documents := (Db.documents (Db.db s) ++ [d])%list;
                       Db.files := (Db.files (Db.db s) ++ [(path, UploadRoute.bytes f)])%list |};
           Db.statusLog := Db.statusLog s; Db.emitted := Db.emitted s |})).
Proof.
  unfold UploadRoute.POST, Db.try_catch, Db.bind, Db.ret, Db.findUser,
    UploadRoute.findTaxReturn, UploadRoute.mkdir, UploadRoute.writeFile.
  destruct (UploadRoute.session r) as [mail|] eqn:Hs; upload_step; [|left; eauto].
  destruct (JS.truthy_str mail) eqn:Hm; upload_step; [|left; eauto].
  destruct (find _ _) as [u|] eqn:Hu; upload_step; [|left; eauto].
  destruct (UploadRoute.file r) as [f|] eqn:Hf; upload_step; [|left; eauto].
  destruct (UploadRoute.taxReturnIdField r) as [trid|] eqn:Ht; upload_step; [|left; eauto].
  destruct (JS.truthy_str trid) eqn:Htr; upload_step; [|left; eauto].
  destruct (Db.owns (Db.db s) (Db.user_id u) trid) eqn:Ho; upload_step; [|left; eauto].
  destruct (existsb (String.eqb (UploadRoute.type_ f)) _) eqn:Hty; upload_step; [|left; eauto].
  destruct (UploadRoute.size f >? UploadRoute.maxSize)%Z eqn:Hsz; upload_step; [left; eauto|].
  destruct (existsb _ (Path.ancestors UploadRoute.uploadDir)); upload_step; [left; eauto|].
  destruct (Path.writable _ _); upload_step; [|left; eauto].
  right. exists mail, u, f, trid. repeat (split; [first [reflexivity|assumption]|]).
  split; [rewrite Z.gtb_ltb in Hsz; apply Z.ltb_ge in Hsz; lia|]. reflexivity.
Qed.




(** The upload route never throws; every JSON answer (401, 404, 400)
    leaves the database, the files and the logs as they were; a Document
    is created only for a signed-in user's own tax return, with a
    supported type and at most 10 MiB, appended after the existing rows
    with status PENDING, users and tax returns untouched. *)
Theorem upload_outcome r s :
  match UploadRoute.POST r s with
  | (Throw _, _) => False
  | (Ok (UploadRoute.JsonResponse _ _), s') => s' = s
  | (Ok (UploadRoute.DocumentResponse d), s') =>
      exists mail u,
        UploadRoute.session r = Some mail /\
        find (fun x => String.eqb (Db.email x) mail) (Db.users (Db.db s)) = Some u /\
        Db.owns (Db.db s) (Db.user_id u) (Db.taxReturnId d) = true /\
        In (Db.fileType d) UploadRoute.allowedTypes /\
        (Db.fileSize d <= UploadRoute.maxSize)%Z /\
        Db.processingStatus d = Db.PENDING /\
        Db.documents (Db.db s') = (Db.documents (Db.db s) ++ [d])%list /\
        Db.users (Db.db s') = Db.users (Db.db s) /\
        Db.taxReturns (Db.db s') = Db.taxReturns (Db.db s)
  end.
Proof.
  destruct (upload_POST_cases r s) as [(c & b & ->) | (mail & u & f & trid & Hs & Hu & Hf & Ht & Ho & Hty & Hsz & E)].
  - reflexivity.
  - cbv zeta in E. rewrite E. exists mail, u. cbn. repeat split; auto.
    apply existsb_exists in Hty. destruct Hty as (t & Hin & Heq).
    apply String.eqb_eq in Heq. subst t. exact Hin.
Qed.

(** [getMimeType] only ever answers one of the four types the upload
    route accepts. *)
Theorem getMimeType_allowed p : In (getMimeType p) UploadRoute.allowedTypes.
Proof.
  unfold getMimeType, UploadRoute.allowedTypes.
  repeat match goal with |- context [if ?b then _ else _] => destruct b end; cbn; tauto.
Qed.

(** The MIME type Document AI is sent for a stored upload (from its
    path [/tmp/uploads/documents/<uuid>.<ext>]) is the one the original
    file name gives. *)
Theorem upload_mime_type r s :
  match UploadRoute.POST r s with
  | (Ok (UploadRoute.DocumentResponse d), _) =>
      getMimeType (Db.filePath d) = getMimeType (Db.fileName d)
  | _ => True
  end.
Proof.
  destruct (upload_POST_cases r s) as [(c & b & ->) | (mail & u & f & trid & Hs & Hu & Hf & Ht & Ho & Hty & Hsz & E)].
  - exact I.
  - cbv zeta in E. rewrite E. cbn [Db.filePath Db.fileName].
    apply getMimeType_upload_path.
    + apply uuid_nonempty.
    + apply uuid_no_char. reflexivity.
    + apply uuid_no_char. reflexivity.
Qed.



(** The document badge tells every document type apart: two types get
    the same label only if they are the same type. *)
Theorem getDocumentTypeLabel_injective a b :
  Client.getDocumentTypeLabel a = Client.getDocumentTypeLabel b <-> a = b.
Proof.
  split; [|intros ->; reflexivity].
  destruct a, b; cbn; intros E; first [reflexivity | discriminate E].
Qed.

Lemma set_prop_keys ps k v :
  In k (map fst ps) -> map fst (set_prop ps k v) = map fst ps.
Proof.
  induction ps as [|[k' v'] ps IH]; intros H; [destruct H|].
  cbn [set_prop]. destruct (String.eqb k' k) eqn:E; [reflexivity|].
  cbn [map fst]. f_equal. apply IH. destruct H as [H|H]; [|exact H].
  cbn in H. subst. rewrite String.eqb_refl in E. discriminate.
Qed.

Lemma first_matching_key_in n ps k :
  DocAI.first_matching_key n ps = Some k -> In k (map fst ps).
Proof.
  induction ps as [|[k' v'] ps IH]; cbn; [discriminate|].
  destruct (_ || _); [intros E; injection E as ->; auto | intros E; right; auto].
Qed.

Lemma extractGeneric_keys d ps :
  map fst (DocAI.extractGenericFormFields d ps) = map fst ps.
Proof.
  unfold DocAI.extractGenericFormFields.
  generalize (DocAI.first_page_fields d). intros fs. revert ps.
  induction fs as [|f fs IH]; intros ps; [reflexivity|].
  cbn [fold_left]. rewrite IH. unfold DocAI.generic_field_step.
  destruct (DocAI.field_texts f (DocAI.text d)) as [[n v]|]; [|reflexivity].
  destruct (DocAI.first_matching_key _ ps) as [k|] eqn:E; [|reflexivity].
  apply set_prop_keys. eapply first_matching_key_in. exact E.
Qed.

Lemma w2EntityKey_in t k : DocAI.w2EntityKey t = Some k -> In k DocAI.w2Keys.
Proof.
  unfold DocAI.w2EntityKey.
  repeat match goal with |- context [if ?b then _ else _] => destruct b end;
    intros E; try discriminate E; injection E as <-; cbn; tauto.
Qed.

Lemma w2FormFieldKey_in t k : DocAI.w2FormFieldKey t = Some k -> In k DocAI.w2Keys.
Proof.
  unfold DocAI.w2FormFieldKey.
  repeat match goal with |- context [if ?b then _ else _] => destruct b end;
    intros E; try discriminate E; injection E as <-; cbn; tauto.
Qed.

Lemma blank_keys keys : map fst (DocAI.blank keys) = keys.
Proof. unfold DocAI.blank. rewrite map_map. apply map_id. Qed.

Lemma extractW2Data_keys d : map fst (DocAI.extractW2Data d) = DocAI.w2Keys.
Proof.
  unfold DocAI.extractW2Data.
  assert (A : forall es ps, map fst ps = DocAI.w2Keys ->
            map fst (fold_left (DocAI.w2_entity_step (DocAI.text d)) es ps) = DocAI.w2Keys).
  { induction es as [|e es IH]; intros ps Hp; [exact Hp|].
    cbn [fold_left]. apply IH. unfold DocAI.w2_entity_step.
    destruct (DocAI.w2EntityKey (DocAI.etype e)) as [k|] eqn:E; [|exact Hp].
    rewrite set_prop_keys; [exact Hp|]. rewrite Hp. eapply w2EntityKey_in. exact E. }
  assert (B : forall fs ps, map fst ps = DocAI.w2Keys ->
            map fst (fold_left (DocAI.w2_field_step (DocAI.text d)) fs ps) = DocAI.w2Keys).
  { induction fs as [|f fs IH]; intros ps Hp; [exact Hp|].
    cbn [fold_left]. apply IH. unfold DocAI.w2_field_step.
    destruct (DocAI.field_texts f (DocAI.text d)) as [[n v]|]; [|exact Hp].
    destruct (DocAI.w2FormFieldKey _) as [k|] eqn:E; [|exact Hp].
    rewrite set_prop_keys; [exact Hp|]. rewrite Hp. eapply w2FormFieldKey_in. exact E. }
  apply B, A, blank_keys.
Qed.

(** Whatever the provider returns, the [extractedData] object of the
    envelope has exactly the fields of the template of its document type,
    in the template's order: the form-field matching only overwrites
    existing fields, never adds or drops one. *)
Theorem transformToTaxData_fields d t :
  match DocAI.xextractedData (DocAI.transformToTaxData d t) with
  | JObj ps =>
      map fst ps = match t with
                   | W2 => DocAI.w2Keys
                   | FORM_1099_INT => DocAI.int1099Keys
                   | FORM_1099_DIV => DocAI.div1099Keys
                   | FORM_1099_MISC => DocAI.misc1099Keys
                   | FORM_1099_NEC => DocAI.nec1099Keys
                   | _ => map fst DocAI.genericData
                   end
  | _ => False
  end.
Proof.
  destruct t; cbn [DocAI.transformToTaxData DocAI.xextractedData];
    unfold DocAI.extract1099IntData, DocAI.extract1099DivData, DocAI.extract1099MiscData,
      DocAI.extract1099NecData, DocAI.extractGenericTaxData;
    first [apply extractW2Data_keys | rewrite extractGeneric_keys; try apply blank_keys].
  all: reflexivity.
Qed.

(** With every reported confidence score in [[0, 1]], the average
    confidence is in [[0, 1]] too. *)
Theorem average_confidence_bounds d :
  Forall (fun q => 0 <= q <= 1) (reported_scores d) ->
  0 <= DocAI.calculateAverageConfidence d <= 1.
Proof.
  intros H. rewrite calculateAverageConfidence_mean.
  assert (S : 0 <= sumQ (reported_scores d) /\
              sumQ (reported_scores d) <= inject_Z (Z.of_nat (length (reported_scores d)))).
  { induction H as [|q l [Hq0 Hq1] _ [IH0 IH1]]; cbn [sumQ fold_right length].
    - split; apply Qle_refl.
    - fold (sumQ l). rewrite Nat2Z.inj_succ, <- Z.add_1_l, inject_Z_plus.
      split.
      + apply (Qle_trans _ (0 + 0)); [apply Qle_refl|]. apply Qplus_le_compat; assumption.
      + apply Qplus_le_compat; assumption. }
  unfold spec_mean. destruct (reported_scores d) as [|x l] eqn:E.
  - split; discriminate.
  - destruct S as [S0 S1].
    assert (P : 0 < inject_Z (Z.of_nat (length (x :: l)))).
    { cbn [length]. unfold Qlt. cbn. lia. }
    split.
    + apply Qle_shift_div_l; [exact P|]. rewrite Qmult_0_l. exact S0.
    + apply Qle_shift_div_r; [exact P|]. rewrite Qmult_1_l. exact S1.
Qed.

Lemma average_confidence_bounds_witness :
  0 <= DocAI.calculateAverageConfidence scored_doc <= 1.
Proof.
  apply (average_confidence_bounds scored_doc).
  apply Forall_forall. intros q Hq. vm_compute in Hq.
  repeat (destruct Hq as [<-|Hq]; [split; vm_compute; intros E; discriminate E|]). destruct Hq.
Defined.

Lemma env_or_truthy env k d v :
  env k = Some v -> JS.truthy_str v = true -> DocAI.env_or env k d = v.
Proof. intros E T. unfold DocAI.env_or. rewrite E, T. reflexivity. Qed.

(** When the route picks Document AI, building its configuration never
    fails: [createDocumentAIConfig] returns the project and W-2 processor
    ids of the environment, with location "us" when none is set. *)
Theorem primary_config_ok w :
  Route.useDocumentAI w = true ->
  exists p w2, Route.env w "GOOGLE_CLOUD_PROJECT_ID" = Some p /\
    Route.env w "GOOGLE_CLOUD_W2_PROCESSOR_ID" = Some w2 /\
    DocAI.createDocumentAIConfig (Route.env w)
    = Ok {| DocAI.projectId := p;
            DocAI.location := DocAI.env_or (Route.env w) "GOOGLE_CLOUD_LOCATION" "us";
            DocAI.w2ProcessorId := w2;
            DocAI.form1099ProcessorId :=
              DocAI.env_or (Route.env w) "GOOGLE_CLOUD_1099_PROCESSOR_ID" "" |}.
Proof.
  unfold Route.useDocumentAI, Route.env_truthy. intros H.
  apply andb_prop in H as [H _]. apply andb_prop in H as [Hp Hw].
  destruct (Route.env w "GOOGLE_CLOUD_PROJECT_ID") as [p|] eqn:Ep; [|discriminate].
  destruct (Route.env w "GOOGLE_CLOUD_W2_PROCESSOR_ID") as [w2|] eqn:Ew; [|discriminate].
  exists p, w2. split; [reflexivity|]. split; [reflexivity|].
  unfold DocAI.createDocumentAIConfig. cbn [DocAI.projectId DocAI.w2ProcessorId].
  rewrite (env_or_truthy _ _ _ p Ep Hp), (env_or_truthy _ _ _ w2 Ew Hw), Hp, Hw.
  reflexivity.
Qed.

Lemma primary_config_ok_witness :
  exists p w2, Route.env (gcp_world answering_client (ok_reply "resp"))
                 "GOOGLE_CLOUD_PROJECT_ID" = Some p /\
    Route.env (gcp_world answering_client (ok_reply "resp"))
      "GOOGLE_CLOUD_W2_PROCESSOR_ID" = Some w2 /\
    DocAI.createDocumentAIConfig (Route.env (gcp_world answering_client (ok_reply "resp")))
    = Ok {| DocAI.projectId := p;
            DocAI.location := DocAI.env_or (Route.env (gcp_world answering_client (ok_reply "resp")))
                                "GOOGLE_CLOUD_LOCATION" "us";
            DocAI.w2ProcessorId := w2;
            DocAI.form1099ProcessorId :=
              DocAI.env_or (Route.env (gcp_world answering_client (ok_reply "resp")))
                "GOOGLE_CLOUD_1099_PROCESSOR_ID" "" |}.
Proof.
  apply (primary_config_ok (gcp_world answering_client (ok_reply "resp"))).
  vm_compute. reflexivity.
Defined.

Lemma row_preserving_id : row_preserving (fun x => x).
Proof. intros x. repeat split. Qed.

Lemma row_preserving_comp g1 g2 :
  row_preserving g1 -> row_preserving g2 -> row_preserving (fun x => g2 (g1 x)).
Proof.
  intros H1 H2 x. destruct (H1 x) as (a1 & b1 & c1 & d1 & e1 & f1 & h1).
  destruct (H2 (g1 x)) as (a2 & b2 & c2 & d2 & e2 & f2 & h2).
  repeat split; congruence.
Qed.

Lemma only_row_refl id d : only_row id (fun x => x) d d.
Proof.
  unfold only_row. destruct d as [us ts ds fs]. unfold Db.with_documents. cbn.
  f_equal. rewrite <- (map_id ds) at 1. apply map_ext. intros x.
  destruct (String.eqb _ _); reflexivity.
Qed.

Lemma only_row_trans id g1 g2 d1 d2 d3 :
  row_preserving g1 -> only_row id g1 d1 d2 -> only_row id g2 d2 d3 ->
  only_row id (fun x => g2 (g1 x)) d1 d3.
Proof.
  unfold only_row. intros Hg -> ->. unfold Db.with_documents. cbn. f_equal.
  rewrite map_map. apply map_ext. intros x.
  destruct (String.eqb (Db.doc_id x) id) eqn:E.
  - destruct (Hg x) as (Hi & _). rewrite Hi, E. reflexivity.
  - rewrite E. reflexivity.
Qed.

Lemma confined_db {A} id (m : Db.M A) :
  (forall s, Db.db (snd (m s)) = Db.db s) -> confined id m.
Proof.
  intros H s. exists (fun x => x). split; [apply row_preserving_id|].
  rewrite H. apply only_row_refl.
Qed.

Lemma confined_bind {A B} id (m : Db.M A) (k : A -> Db.M B) :
  confined id m -> (forall a, confined id (k a)) -> confined id (Db.bind m k).
Proof.
  intros Hm Hk s. unfold Db.bind. destruct (Hm s) as (g1 & P1 & O1).
  destruct (m s) as [[a|e] s1]; cbn [snd] in *.
  - destruct (Hk a s1) as (g2 & P2 & O2). exists (fun x => g2 (g1 x)).
    split; [apply row_preserving_comp; auto|]. eapply only_row_trans; eauto.
  - eauto.
Qed.

Lemma confined_try {A} id (m : Db.M A) (h : Err -> Db.M A) :
  confined id m -> (forall e, confined id (h e)) -> confined id (Db.try_catch m h).
Proof.
  intros Hm Hh s. unfold Db.try_catch. destruct (Hm s) as (g1 & P1 & O1).
  destruct (m s) as [[a|e] s1]; cbn [snd] in *.
  - eauto.
  - destruct (Hh e s1) as (g2 & P2 & O2). exists (fun x => g2 (g1 x)).
    split; [apply row_preserving_comp; auto|]. eapply only_row_trans; eauto.
Qed.

Lemma confined_update id st f :
  row_preserving f -> confined id (Db.update_document id st f).
Proof.
  intros Hf s. unfold Db.update_document.
  destruct (existsb _ _); cbn [snd].
  - exists f. split; [exact Hf|]. reflexivity.
  - exists (fun x => x). split; [apply row_preserving_id|apply only_row_refl].
Qed.

Lemma set_status_preserving st : row_preserving (Db.set_status st).
Proof. intros x. repeat split. Qed.

Lemma set_completed_preserving o e : row_preserving (Db.set_completed o e).
Proof. intros x. repeat split. Qed.

Lemma confined_update_completed id x : confined id (Db.update_completed id x).
Proof.
  intros s. unfold Db.update_completed.
  destruct (Db.nullable_string (DocAI.xocrText x)) as [o|e].
  - exact (confined_update id Db.COMPLETED (Db.set_completed o x)
             (set_completed_preserving o x) s).
  - exists (fun y => y). split; [apply row_preserving_id|apply only_row_refl].
Qed.

Lemma confined_ret {A} id (a : A) : confined id (Db.ret a).
Proof. apply confined_db. reflexivity. Qed.

Lemma POST_confined nts jp w id : confined id (Route.POST nts jp w id).
Proof.
  unfold Route.POST. apply confined_try.
  - destruct (Route.session w) as [mail|]; [|apply confined_ret].
    apply confined_bind; [apply confined_db; reflexivity|]. intros [u|]; [|apply confined_ret].
    apply confined_bind; [apply confined_db; reflexivity|]. intros [doc|]; [|apply confined_ret].
    apply confined_bind; [apply confined_update, set_status_preserving|]. intros _.
    apply confined_bind; [apply confined_db; reflexivity|]. intros x. apply confined_ret.
  - intros e. apply confined_bind; [apply confined_update, set_status_preserving|].
    intros _. apply confined_ret.
Qed.

Lemma confined_keeps {A} id (m : Db.M A) : keeps_db m -> confined id m.
Proof. intros H. apply confined_db. intros s. apply H. Qed.

Lemma start_confined nts w id x : confined id (Route.start nts w id x).
Proof.
  unfold Route.start. apply confined_try.
  - apply confined_bind; [apply confined_keeps, enqueue_all_keeps|]. intros _.
    apply confined_bind; [apply confined_update_completed|]. intros _.
    apply confined_bind; [apply confined_keeps, enqueue_keeps|]. intros _.
    apply confined_keeps, close_keeps.
  - intros e. apply confined_bind; [apply confined_update, set_status_preserving|].
    intros _. apply confined_keeps, controller_error_keeps.
Qed.

(** A processing attempt touches the store only through the rows with the
    requested id, and keeps their id, owner, file and document type: the
    other documents, users, tax returns and stored files are left as they
    were, and no row is added or removed. *)
Theorem attempt_confined nts jp w id s :
  exists g, row_preserving g /\
    Db.db (snd (Route.attempt nts jp w id s))
    = Db.with_documents (Db.db s)
        (map (fun x => if String.eqb (Db.doc_id x) id then g x else x)
             (Db.documents (Db.db s))).
Proof.
  unfold Route.attempt. destruct (POST_confined nts jp w id s) as (g1 & P1 & O1).
  destruct (Route.POST nts jp w id s) as [[[c b|x]|e] s1] eqn:E; cbn [snd] in *; eauto.
  destruct (start_confined nts w id x s1) as (g2 & P2 & O2).
  exists (fun y => g2 (g1 y)). split; [apply row_preserving_comp; auto|].
  eapply only_row_trans; eauto.
Qed.

(** Two custom scenarios added within the same millisecond get the same
    id: removing either row removes both (and any earlier scenario with
    that id), leaving the list as it was before them. *)
Theorem same_millisecond_scenarios_removed_together pf now cs n1 n2 :
  JS.truthy_str (Scenario.ns_name n1) && JS.truthy_str (Scenario.ns_additionalAmount n1) = true ->
  JS.truthy_str (Scenario.ns_name n2) && JS.truthy_str (Scenario.ns_additionalAmount n2) = true ->
  let cs1 := fst (Scenario.handleAddCustomScenario pf now cs n1) in
  let cs2 := fst (Scenario.handleAddCustomScenario pf now cs1 n2) in
  length cs2 = (length cs + 2)%nat /\
  Scenario.handleRemoveCustomScenario now cs2 = Scenario.handleRemoveCustomScenario now cs.
Proof.
  intros H1 H2. apply andb_prop in H1 as [A1 B1]. apply andb_prop in H2 as [A2 B2].
  unfold Scenario.handleAddCustomScenario. rewrite A1, B1. cbn [negb orb fst].
  rewrite A2, B2. cbn [negb orb fst]. split.
  - rewrite !length_app. cbn. lia.
  - unfold Scenario.handleRemoveCustomScenario. rewrite !filter_app. cbn.
    rewrite String.eqb_refl. cbn. rewrite !app_nil_r. reflexivity.
Qed.

Lemma customCalculation_row_id (Dependent : Type) cdc (BaseRow : Type) btl agi cur fs
    (deps : list Dependent) (base : list BaseRow) sc :
  Scenario.row_id (Scenario.customCalculation Dependent cdc BaseRow btl agi cur fs deps base sc)
  = Scenario.sc_id sc.
Proof. reflexivity. Qed.

(** Removing a scenario removes exactly its rows from the computed table:
    the custom rows after the removal are the rows before it without
    those of that id, in the same order, with the same figures. *)
Theorem remove_scenario_rows (Dependent : Type) cdc (BaseRow : Type) btl ctis
    agi cur fs (deps : list Dependent) id cs :
  snd (Scenario.calculations Dependent cdc BaseRow btl ctis agi cur fs deps
         (Scenario.handleRemoveCustomScenario id cs))
  = filter (fun r => negb (String.eqb (Scenario.row_id r) id))
      (snd (Scenario.calculations Dependent cdc BaseRow btl ctis agi cur fs deps cs)).
Proof.
  unfold Scenario.calculations, Scenario.handleRemoveCustomScenario. cbn [snd].
  generalize (ctis (Scenario.minIncomeForCalculation agi) (Scenario.safeFilingStatus fs)
                (Scenario.safe cur) deps). intros base.
  induction cs as [|sc cs IH]; [reflexivity|].
  cbn [filter map]. rewrite customCalculation_row_id.
  destruct (String.eqb (Scenario.sc_id sc) id); cbn [negb map]; [exact IH|].
  f_equal. exact IH.
Qed.

(** Adding a custom scenario with a name and an amount appends exactly one
    row to the table, for that scenario (id [now], its name, the current
    deductions plus the parsed amount), leaves the earlier rows as they
    were and resets the form; otherwise nothing changes. *)
Theorem add_scenario_row (Dependent : Type) cdc (BaseRow : Type) btl ctis
    agi cur fs (deps : list Dependent) pf now cs n :
  let '(cs', n') := Scenario.handleAddCustomScenario pf now cs n in
  if JS.truthy_str (Scenario.ns_name n) && JS.truthy_str (Scenario.ns_additionalAmount n)
  then n' = Scenario.initialNewScenario /\
       exists row,
         snd (Scenario.calculations Dependent cdc BaseRow btl ctis agi cur fs deps cs')
         = (snd (Scenario.calculations Dependent cdc BaseRow btl ctis agi cur fs deps cs)
            ++ [row])%list /\
         Scenario.row_id row = now /\ Scenario.scenario row = Scenario.ns_name n /\
         Scenario.itemizedDeductions row
           = Scenario.safe cur + pf (Scenario.ns_additionalAmount n)
  else cs' = cs /\ n' = n.
Proof.
  unfold Scenario.handleAddCustomScenario.
  destruct (JS.truthy_str (Scenario.ns_name n)), (JS.truthy_str (Scenario.ns_additionalAmount n));
    cbn [negb orb andb]; auto.
  split; [reflexivity|]. eexists. split.
  - unfold Scenario.calculations. cbn [snd]. rewrite map_app. reflexivity.
  - repeat split.
Qed.

(** Whatever the tax return holds, the initial filing status is never
    blank, so step one can be submitted exactly when the tax return has a
    first and a last name. *)
Theorem step_one_needs_names tr :
  PersonalInfo.isStepOneComplete (PersonalInfo.initialFormData tr)
  = Route.truthy_opt (get_prop tr "firstName") && Route.truthy_opt (get_prop tr "lastName").
Proof.
  assert (T : forall o d, Route.truthy_opt (Some (Route.or_undef o d))
                          = Route.truthy_opt o || truthy d).
  { intros [v|] d; cbn; [unfold js_or; destruct (truthy v) eqn:E; cbn; auto|reflexivity]. }
  unfold PersonalInfo.isStepOneComplete.
  change (get_prop (PersonalInfo.initialFormData tr) "firstName")
    with (Some (Route.or_undef (get_prop tr "firstName") (JStr ""))).
  change (get_prop (PersonalInfo.initialFormData tr) "lastName")
    with (Some (Route.or_undef (get_prop tr "lastName") (JStr ""))).
  change (get_prop (PersonalInfo.initialFormData tr) "filingStatus")
    with (Some (Route.or_undef (get_prop tr "filingStatus") (JStr "SINGLE"))).
  rewrite !T. cbn [truthy JS.truthy_str]. rewrite !orb_false_r, orb_true_r, andb_true_r.
  reflexivity.
Qed.

(** Changing the filing status only changes the filing status: after a
    switch away from a married status the spouse's name and SSN typed
    before stay in [formData] (and are sent on submit), though the spouse
    section is hidden. *)
Theorem filing_status_keeps_spouse d v :
  PersonalInfo.isMarried (PersonalInfo.handleChange "filingStatus" v d)
  = String.eqb v "MARRIED_FILING_JOINTLY" || String.eqb v "MARRIED_FILING_SEPARATELY" /\
  forall k, k <> "filingStatus" ->
    get_prop (PersonalInfo.handleChange "filingStatus" v d) k = get_prop d k.
Proof.
  unfold PersonalInfo.isMarried, PersonalInfo.handleChange.
  rewrite get_set_prop. split; [reflexivity|].
  intros k Hk. induction d as [|[k' v'] d IH].
  - unfold get_prop. cbn [set_prop find fst]. destruct (String.eqb "filingStatus" k) eqn:E; [|reflexivity].
    apply String.eqb_eq in E. congruence.
  - cbn [set_prop]. destruct (String.eqb k' "filingStatus") eqn:E.
    + apply String.eqb_eq in E. subst k'. unfold get_prop. cbn [find fst].
      destruct (String.eqb "filingStatus" k) eqn:E2; [apply String.eqb_eq in E2; congruence|].
      reflexivity.
    + unfold get_prop in *. cbn [find fst]. destruct (String.eqb k' k); [reflexivity|]. exact IH.
Qed.

Lemma same_millisecond_scenarios_removed_together_witness :
  let n1 := {| Scenario.ns_name := "Donation"; Scenario.ns_additionalAmount := "3000";
               Scenario.ns_deductionType := "CHARITABLE_CONTRIBUTIONS" |} in
  let n2 := {| Scenario.ns_name := "Mortgage"; Scenario.ns_additionalAmount := "5000";
               Scenario.ns_deductionType := "MORTGAGE_INTEREST" |} in
  let cs1 := fst (Scenario.handleAddCustomScenario (fun _ => 3000) "1700000000000"
                    [sample_scenario] n1) in
  let cs2 := fst (Scenario.handleAddCustomScenario (fun _ => 3000) "1700000000000" cs1 n2) in
  length cs2 = (length [sample_scenario] + 2)%nat /\
  Scenario.handleRemoveCustomScenario "1700000000000" cs2
  = Scenario.handleRemoveCustomScenario "1700000000000" [sample_scenario].
Proof.
  apply (same_millisecond_scenarios_removed_together (fun _ => 3000) "1700000000000"
           [sample_scenario]
           {| Scenario.ns_name := "Donation"; Scenario.ns_additionalAmount := "3000";
              Scenario.ns_deductionType := "CHARITABLE_CONTRIBUTIONS" |}
           {| Scenario.ns_name := "Mortgage"; Scenario.ns_additionalAmount := "5000";
              Scenario.ns_deductionType := "MORTGAGE_INTEREST" |}); reflexivity.
Defined.
